(** * Binance futures trading bot: validators and signed HTTP client

    A shallow embedding of [bot/validators.py] and [bot/client.py] and the
    properties of the request pipeline: input validation, request signing,
    bounded retry with exponential backoff; then of [bot/orders.py] and
    of two commands of [cli.py], which sit on top of it.

    Layout: Python's built-in data (strings, decimals, dictionaries, JSON
    values) and library functions, the source modules, the vocabulary
    of the properties, and then the properties with their proofs. *)

From Stdlib Require Import ZArith NArith QArith Qpower List String Ascii Lia Bool PrimFloat.
From stdpp Require Import base option list gmap.

Local Open Scope N_scope.

(** ** Python strings

    A Python [str] is a sequence of Unicode code points.  The rows of the
    Unicode character database for Basic Latin (code points below 128) are
    written out; the rest of the database is an interface, so that every
    statement proved for all its instances holds for the real tables. *)

Abbreviation codepoint := N (only parsing).
Abbreviation str := (list N) (only parsing).

(** A string literal of the source, code point by code point. *)
Definition py (s : string) : str :=
  map N_of_ascii (list_ascii_of_string s).

Class UnicodeData := {
  (** [str.isspace] on one character outside Basic Latin *)
  ucd_isspace : codepoint -> bool;
  (** general category L* ([str.isalpha]) outside Basic Latin *)
  ucd_isalpha : codepoint -> bool;
  (** full upper-case mapping ([str.upper]); may yield several code points *)
  ucd_upper : codepoint -> str;
  (** decimal digit value of a character of category Nd *)
  ucd_todecimal : codepoint -> option N
}.

Definition is_ascii (c : codepoint) : bool := c <? 128.

Definition ascii_isspace (c : codepoint) : bool :=
  ((9 <=? c) && (c <=? 13)) || ((28 <=? c) && (c <=? 32)).

Definition ascii_isupper (c : codepoint) : bool := (65 <=? c) && (c <=? 90).
Definition ascii_islower (c : codepoint) : bool := (97 <=? c) && (c <=? 122).
Definition ascii_isalpha (c : codepoint) : bool :=
  ascii_isupper c || ascii_islower c.
Definition ascii_isdigit (c : codepoint) : bool := (48 <=? c) && (c <=? 57).
Definition ascii_upper (c : codepoint) : codepoint :=
  if ascii_islower c then c - 32 else c.
Definition ascii_lower (c : codepoint) : codepoint :=
  if ascii_isupper c then c + 32 else c.

(** The string without its leading characters that satisfy [p]. *)
Fixpoint drop_leading (p : codepoint -> bool) (s : str) : str :=
  match s with
  | c :: s' => if p c then drop_leading p s' else s
  | [] => []
  end.

Definition drop_trailing (p : codepoint -> bool) (s : str) : str :=
  rev (drop_leading p (rev s)).

Section PyStr.
Context `{UnicodeData}.

Definition isspace_cp (c : codepoint) : bool :=
  if is_ascii c then ascii_isspace c else ucd_isspace c.

Definition isalpha_cp (c : codepoint) : bool :=
  if is_ascii c then ascii_isalpha c else ucd_isalpha c.

Definition upper_cp (c : codepoint) : str :=
  if is_ascii c then [ascii_upper c] else ucd_upper c.

Definition todecimal_cp (c : codepoint) : option N :=
  if is_ascii c then (if ascii_isdigit c then Some (c - 48) else None)
  else ucd_todecimal c.

Definition lstrip (s : str) : str := drop_leading isspace_cp s.
Definition rstrip (s : str) : str := drop_trailing isspace_cp s.

(** [s.strip()] *)
Definition strip (s : str) : str := rstrip (lstrip s).

(** [s.upper()] *)
Definition upper (s : str) : str := flat_map upper_cp s.

(** [s.isalpha()]: at least one character, all of them letters *)
Definition isalpha (s : str) : bool :=
  match s with
  | [] => false
  | _ => forallb isalpha_cp s
  end.
End PyStr.

(** [a == b] on strings *)
Definition str_eqb (a b : str) : bool := bool_decide (a = b).

(** The database with no letter, space, digit or case pair beyond Basic
    Latin. *)
Definition ucd_basic_latin : UnicodeData :=
  {| ucd_isspace := fun _ => false;
     ucd_isalpha := fun _ => false;
     ucd_upper := fun c => [c];
     ucd_todecimal := fun _ => None |}.

(** An excerpt of the Unicode character database: the rows used by the
    examples below.
    - U+00A0 NO-BREAK SPACE, U+2003 EM SPACE: white space;
    - U+00E9 (e acute) / U+00C9: a simple case pair of letters;
    - U+00DF (sharp s): letter, upper-cases to "SS";
    - U+01F0 (j with caron): letter, upper-cases to U+004A U+030C;
    - U+030C COMBINING CARON: category Mn, not a letter;
    - U+0345 COMBINING YPOGEGRAMMENI: category Mn, upper-cases to U+0399;
    - U+0399 GREEK CAPITAL IOTA: letter;
    - U+0663 ARABIC-INDIC DIGIT THREE: decimal digit 3. *)
Definition ucd_excerpt : UnicodeData :=
  {| ucd_isspace := fun c => (c =? 0xA0) || (c =? 0x2003);
     ucd_isalpha := fun c =>
       (c =? 0xE9) || (c =? 0xC9) || (c =? 0xDF) || (c =? 0x1F0) || (c =? 0x399);
     ucd_upper := fun c =>
       if c =? 0xE9 then [0xC9]
       else if c =? 0xDF then [83; 83]
       else if c =? 0x1F0 then [0x4A; 0x30C]
       else if c =? 0x345 then [0x399]
       else [c];
     ucd_todecimal := fun c => if c =? 0x663 then Some 3 else None |}.

(** ** Python decimals

    [decimal.Decimal]: a finite number is sign, coefficient and exponent
    (value [(-1)^sign * coeff * 10^exp]); the special values are the two
    infinities and the quiet and signaling NaNs with their payload. *)

Inductive Decimal :=
| Finite (sign : bool) (coeff : N) (exp : Z)
| Infinity (sign : bool)
| NaN (sign : bool) (signaling : bool) (payload : N).

(** Bounds of the 64-bit build of the decimal module: the constructor
    accepts a numeric string only if it is representable without rounding
    or clamping within them. *)
Definition MAX_PREC : Z := 999999999999999999.
Definition MAX_EMAX : Z := 999999999999999999.
Definition MIN_ETINY : Z := -1999999999999999997.

Definition digits_value (ds : list N) : N :=
  fold_left (fun acc d => acc * 10 + (d - 48)) ds 0.

Fixpoint drop_zeros (ds : list N) : list N :=
  match ds with
  | c :: ds' => if c =? 48 then drop_zeros ds' else ds
  | [] => []
  end.

Definition all_digits (ds : list N) : bool := forallb ascii_isdigit ds.

(** Leading ["+"] or ["-"]. *)
Definition take_sign (a : list N) : bool * list N :=
  match a with
  | c :: r => if c =? 43 then (false, r) else if c =? 45 then (true, r) else (false, a)
  | [] => (false, [])
  end.

(** [Some rest] when [a] starts with the lower-case literal [lit], letter
    case ignored. *)
Fixpoint strip_prefix_ci (lit a : list N) : option (list N) :=
  match lit, a with
  | [], _ => Some a
  | l :: lit', c :: a' =>
      if ascii_lower c =? l then strip_prefix_ci lit' a' else None
  | _ :: _, [] => None
  end.

(** Characters before the first occurrence of a character satisfying [p],
    and the characters after it, if any. *)
Fixpoint split_at (p : N -> bool) (a : list N) : list N * option (list N) :=
  match a with
  | [] => ([], None)
  | c :: a' =>
      if p c then ([], Some a')
      else let '(l, r) := split_at p a' in (c :: l, r)
  end.

Definition is_indicator (c : N) : bool := (c =? 101) || (c =? 69).
Definition is_point (c : N) : bool := c =? 46.

(** [exponent-part] without its indicator: optional sign, then digits. *)
Definition parse_exponent (a : list N) : option Z :=
  let '(neg, ds) := take_sign a in
  match ds with
  | [] => None
  | _ =>
      if all_digits ds
      then let v := Z.of_N (digits_value ds) in Some (if neg then (- v)%Z else v)
      else None
  end.

Definition representable (coeff : N) (ndigits : Z) (e : Z) : bool :=
  if coeff =? 0
  then ((MIN_ETINY <=? e) && (e <=? MAX_EMAX))%Z
  else ((MIN_ETINY <=? e) && (e + ndigits - 1 <=? MAX_EMAX))%Z.

(** [decimal-part [exponent-part]] *)
Definition parse_finite (sign : bool) (a : list N) : option Decimal :=
  let '(mant, expo) := split_at is_indicator a in
  let '(ip, fp) := split_at is_point mant in
  let fp := default [] fp in
  let ds := ip ++ fp in
  if negb (all_digits ds) then None
  else match ds with
       | [] => None
       | _ =>
           match (match expo with None => Some 0%Z | Some x => parse_exponent x end) with
           | None => None
           | Some ev =>
               let nfrac := Z.of_nat (length fp) in
               let ndigits := Z.of_nat (length (drop_zeros ds)) in
               let coeff := digits_value ds in
               let e := (ev - nfrac)%Z in
               if ((nfrac <=? MAX_PREC) && (ndigits <=? MAX_PREC))%Z
                  && representable coeff ndigits e
               then Some (Finite sign coeff e)
               else None
           end
       end.

(** Diagnostic digits of a NaN: digits only. *)
Definition parse_payload (sign signaling : bool) (a : list N) : option Decimal :=
  if all_digits a && (Z.of_nat (length (drop_zeros a)) <=? MAX_PREC)%Z
  then Some (NaN sign signaling (digits_value a))
  else None.

(** [numeric-string] of the decimal specification, on Basic Latin. *)
Definition parse_numeric (a : list N) : option Decimal :=
  let '(sign, r) := take_sign a in
  match strip_prefix_ci (py "nan") r with
  | Some p => parse_payload sign false p
  | None =>
  match strip_prefix_ci (py "snan") r with
  | Some p => parse_payload sign true p
  | None =>
  match strip_prefix_ci (py "inf") r with
  | Some rest =>
      match rest with
      | [] => Some (Infinity sign)
      | _ => match strip_prefix_ci (py "inity") rest with
             | Some [] => Some (Infinity sign)
             | _ => None
             end
      end
  | None => parse_finite sign r
  end end end.

Section DecimalOfStr.
Context `{UnicodeData}.

(** The constructor first removes surrounding white space, drops
    underscores, and maps every decimal digit of any script to its
    Basic Latin digit; any other character outside Basic Latin, and
    U+0000, make the string invalid. *)
Fixpoint as_ascii (s : str) : option (list N) :=
  match s with
  | [] => Some []
  | c :: s' =>
      if c =? 95 then as_ascii s'
      else if (0 <? c) && (c <=? 127) then cons c <$> as_ascii s'
      else if isspace_cp c then cons 32 <$> as_ascii s'
      else match todecimal_cp c with
           | Some d => cons (48 + d) <$> as_ascii s'
           | None => None
           end
  end.

(** [Decimal(s)] for a string [s]; [None] stands for
    [decimal.InvalidOperation]. *)
Definition Decimal_of_str (s : str) : option Decimal :=
  as_ascii (strip s) ≫= parse_numeric.
End DecimalOfStr.

(** The number a finite decimal stands for, in lowest terms. *)
Definition Decimal_value (d : Decimal) : option Q :=
  match d with
  | Finite sign coeff e =>
      let c := inject_Z (if sign then - Z.of_N coeff else Z.of_N coeff) in
      Some (Qred (c * Qpower 10 e))
  | _ => None
  end.

Definition is_nan (d : Decimal) : bool :=
  match d with NaN _ _ _ => true | _ => false end.

(** [d <= 0] for a [d] that is not a NaN. *)
Definition nonpositive (d : Decimal) : bool :=
  match d with
  | Finite sign coeff _ => sign || (coeff =? 0)
  | Infinity sign => sign
  | NaN _ _ _ => false
  end.

(** ** Dictionaries, JSON values, exceptions *)

(** Values stored in a parameter dictionary. *)
Inductive pyval :=
| VStr (s : str)
| VInt (z : Z)
| VNone.

(** A [dict]: insertion-ordered, one entry per key. *)
Abbreviation pydict := (list (str * pyval)) (only parsing).

Fixpoint dict_get {V} (k : str) (d : list (str * V)) : option V :=
  match d with
  | [] => None
  | (k', v) :: d' => if str_eqb k' k then Some v else dict_get k d'
  end.

(** [k in d] *)
Definition dict_contains {V} (k : str) (d : list (str * V)) : bool :=
  bool_decide (is_Some (dict_get k d)).

(** [d[k] = v]: an existing key keeps its position, a new key goes last. *)
Fixpoint dict_setitem {V} (k : str) (v : V) (d : list (str * V)) : list (str * V) :=
  match d with
  | [] => [(k, v)]
  | (k', v') :: d' =>
      if str_eqb k' k then (k', v) :: d' else (k', v') :: dict_setitem k v d'
  end.

Definition dict_remove {V} (k : str) (d : list (str * V)) : list (str * V) :=
  filter (fun kv => kv.1 <> k) d.

(** What [response.json()] returns. *)
#[warnings="-register-all"]
Inductive json :=
| JNull
| JBool (b : bool)
| JInt (z : Z)
| JFloat (f : float)
| JStr (s : str)
| JList (l : list json)
| JDict (d : list (str * json)).

(** The f-string of each [ValueError] raised by the source, with the
    values it interpolates. *)
Inductive message :=
| Symbol_cannot_be_empty
| Symbol_is_invalid (symbol : str)
| Side_is_invalid (side : str)
| Order_type_is_invalid (order_type : str)
| Quantity_is_not_a_valid_number (quantity : str)
| Quantity_must_be_greater_than_0 (qty : Decimal)
| Price_is_required_for_LIMIT_orders
| Price_is_not_a_valid_number (price : str)
| Price_must_be_greater_than_0 (p : Decimal)
| Stop_price_is_required_for_STOP_MARKET_orders
| Stop_price_is_not_a_valid_number (price : str)
| Stop_price_must_be_greater_than_0 (p : Decimal)
| API_key_and_secret_must_not_be_empty.

Inductive exn :=
| ValueError (m : message)
| InvalidOperation                                 (* decimal.InvalidOperation *)
| UnicodeEncodeError
| AttributeError
| BinanceAPIError (code msg : json) (status_code : Z)
| Timeout (info : N)                               (* requests.exceptions.Timeout *)
| RequestsConnectionError (info : N)               (* requests.exceptions.ConnectionError *)
| RequestException (info : N)                      (* other requests.exceptions.RequestException *)
| RuntimeError (msg : string)
| ConnectionError (url : str) (max_retries : Z) (cause : exn)  (* built-in, raised [from cause] *)
| OtherError (info : N).

(** Outcome of a call: a value, or a raised exception. *)
Inductive result (A : Type) :=
| Ok (a : A)
| Raise (e : exn).
Arguments Ok {A} a.
Arguments Raise {A} e.

#[global] Instance result_ret : MRet result := fun _ a => Ok a.
#[global] Instance result_bind : MBind result := fun _ _ f m =>
  match m with
  | Ok a => f a
  | Raise e => Raise e
  end.
#[global] Instance result_fmap : FMap result := fun _ _ f m =>
  match m with
  | Ok a => Ok (f a)
  | Raise e => Raise e
  end.

(** ** bot/validators.py *)

Module validators.
Section Validators.
Context `{UnicodeData}.

Definition VALID_SIDES : list str := [py "BUY"; py "SELL"].
Definition VALID_ORDER_TYPES : list str :=
  [py "MARKET"; py "LIMIT"; py "STOP_MARKET"].

(** [x in S] for one of the two sets of literals above *)
Definition member (x : str) (S : list str) : bool := existsb (str_eqb x) S.

Definition validate_symbol (symbol : str) : result str :=
  let symbol := upper (strip symbol) in
  match symbol with
  | [] => Raise (ValueError Symbol_cannot_be_empty)
  | _ =>
      if negb (isalpha symbol)
      then Raise (ValueError (Symbol_is_invalid symbol))
      else Ok symbol
  end.

Definition validate_side (side : str) : result str :=
  let side := upper (strip side) in
  if negb (member side VALID_SIDES)
  then Raise (ValueError (Side_is_invalid side))
  else Ok side.

Definition validate_order_type (order_type : str) : result str :=
  let order_type := upper (strip order_type) in
  if negb (member order_type VALID_ORDER_TYPES)
  then Raise (ValueError (Order_type_is_invalid order_type))
  else Ok order_type.

(** [d <= 0]: signals (and, with the default context, raises)
    [InvalidOperation] on a NaN. *)
Definition le_zero (d : Decimal) : result bool :=
  if is_nan d then Raise InvalidOperation else Ok (nonpositive d).

Definition validate_quantity (quantity : str) : result Decimal :=
  match Decimal_of_str quantity with
  | None => Raise (ValueError (Quantity_is_not_a_valid_number quantity))
  | Some qty =>
      b ← le_zero qty;
      if b : bool
      then Raise (ValueError (Quantity_must_be_greater_than_0 qty))
      else Ok qty
  end.

Definition validate_price (price : option str) (order_type : str)
  : result (option Decimal) :=
  if str_eqb order_type (py "LIMIT") then
    match price with
    | None => Raise (ValueError Price_is_required_for_LIMIT_orders)
    | Some price =>
        match Decimal_of_str price with
        | None => Raise (ValueError (Price_is_not_a_valid_number price))
        | Some p =>
            b ← le_zero p;
            if b : bool
            then Raise (ValueError (Price_must_be_greater_than_0 p))
            else Ok (Some p)
        end
    end
  else if str_eqb order_type (py "STOP_MARKET") then
    match price with
    | None => Raise (ValueError Stop_price_is_required_for_STOP_MARKET_orders)
    | Some price =>
        match Decimal_of_str price with
        | None => Raise (ValueError (Stop_price_is_not_a_valid_number price))
        | Some p =>
            b ← le_zero p;
            if b : bool
            then Raise (ValueError (Stop_price_must_be_greater_than_0 p))
            else Ok (Some p)
        end
    end
  else Ok None.

(** The dictionary [validate_all] returns, by key. *)
Record ValidatedOrder := {
  v_symbol : str;
  v_side : str;
  v_order_type : str;
  v_quantity : Decimal;
  v_price : option Decimal
}.

(** The entries of the dictionary display are evaluated from first to
    last; the first call that raises ends the evaluation. *)
Definition validate_all (symbol side order_type quantity : str)
    (price : option str) : result ValidatedOrder :=
  symbol' ← validate_symbol symbol;
  side' ← validate_side side;
  order_type' ← validate_order_type order_type;
  quantity' ← validate_quantity quantity;
  price' ← validate_price price (upper (strip order_type));
  Ok {| v_symbol := symbol'; v_side := side'; v_order_type := order_type';
        v_quantity := quantity'; v_price := price' |}.
End Validators.
End validators.

(** ** hashlib, hmac, urllib.parse

    The library functions [bot/client.py] signs with, on byte strings
    (a byte is a number below 256). *)

Module sha256.
(** Words are 32 bits wide; sums wrap around. *)
Definition wrap (x : N) : N := x mod 2 ^ 32.
Definition add32 (x y : N) : N := wrap (x + y).
Definition rotr (r x : N) : N :=
  N.lor (N.shiftr x r) (wrap (N.shiftl x (32 - r))).
Definition not32 (x : N) : N := N.lxor x (2 ^ 32 - 1).

Definition Ch (x y z : N) : N :=
  N.lxor (N.land x y) (N.land (not32 x) z).
Definition Maj (x y z : N) : N :=
  N.lxor (N.lxor (N.land x y) (N.land x z)) (N.land y z).
Definition Sigma0 (x : N) : N :=
  N.lxor (N.lxor (rotr 2 x) (rotr 13 x)) (rotr 22 x).
Definition Sigma1 (x : N) : N :=
  N.lxor (N.lxor (rotr 6 x) (rotr 11 x)) (rotr 25 x).
Definition sigma0 (x : N) : N :=
  N.lxor (N.lxor (rotr 7 x) (rotr 18 x)) (N.shiftr x 3).
Definition sigma1 (x : N) : N :=
  N.lxor (N.lxor (rotr 17 x) (rotr 19 x)) (N.shiftr x 10).

(** The first [count] primes, by trial division over [2 .. bound]. *)
Definition is_prime (n : N) : bool :=
  forallb (fun d => negb (n mod d =? 0))
          (filter (fun d => d * d <=? n) (map N.of_nat (seq 2 (N.to_nat n)))).
Definition primes (count : nat) (bound : nat) : list N :=
  take count (filter (fun n => is_prime n) (map N.of_nat (seq 2 bound))).

(** Largest [r] with [r ^ 3 <= n], one bit at a time from bit [bits]. *)
Fixpoint cube_root (bits : nat) (n r : N) : N :=
  match bits with
  | O => r
  | S i =>
      let r' := r + 2 ^ N.of_nat i in
      cube_root i n (if r' * r' * r' <=? n then r' else r)
  end.

(** Round constants: the first 32 bits of the fractional parts of the
    cube roots of the first 64 primes. *)
Definition K : list N :=
  Eval vm_compute in
    map (fun p => wrap (cube_root 40 (p * 2 ^ 96) 0)) (primes 64 320).

(** Initial hash value: the same of the square roots of the first 8
    primes. *)
Definition H0 : list N :=
  Eval vm_compute in map (fun p => wrap (N.sqrt (p * 2 ^ 64))) (primes 8 20).

Definition be32 (b0 b1 b2 b3 : N) : N :=
  N.lor (N.lor (N.shiftl b0 24) (N.shiftl b1 16)) (N.lor (N.shiftl b2 8) b3).

Fixpoint words_of_bytes (bs : list N) : list N :=
  match bs with
  | b0 :: b1 :: b2 :: b3 :: r => be32 b0 b1 b2 b3 :: words_of_bytes r
  | _ => []
  end.

Definition bytes_of_word (x : N) : list N :=
  [N.shiftr x 24 mod 256; N.shiftr x 16 mod 256; N.shiftr x 8 mod 256; x mod 256].

(** Message schedule, most recent word first. *)
Fixpoint schedule (n : nat) (ws : list N) : list N :=
  match n with
  | O => ws
  | S n' =>
      let w := add32 (add32 (sigma1 (nth 1 ws 0)) (nth 6 ws 0))
                     (add32 (sigma0 (nth 14 ws 0)) (nth 15 ws 0)) in
      schedule n' (w :: ws)
  end.

Definition round (st : list N) (kw : N * N) : list N :=
  match st with
  | [a; b; c; d; e; f; g; h] =>
      let t1 := add32 (add32 (add32 h (Sigma1 e)) (add32 (Ch e f g) kw.1)) kw.2 in
      let t2 := add32 (Sigma0 a) (Maj a b c) in
      [add32 t1 t2; a; b; c; add32 d t1; e; f; g]
  | _ => st
  end.

Definition compress (h : list N) (block : list N) : list N :=
  let w := rev (schedule 48 (rev (words_of_bytes block))) in
  zip_with add32 h (fold_left round (zip K w) h).

Definition pad (msg : list N) : list N :=
  let len := N.of_nat (length msg) in
  let zeros := N.to_nat ((64 - (len + 9) mod 64) mod 64) in
  msg ++ [128] ++ replicate zeros 0
      ++ bytes_of_word (N.shiftr (8 * len) 32) ++ bytes_of_word (wrap (8 * len)).

Fixpoint absorb (blocks : nat) (h : list N) (bs : list N) : list N :=
  match blocks with
  | O => h
  | S n => absorb n (compress h (take 64 bs)) (drop 64 bs)
  end.

Definition digest (msg : list N) : list N :=
  let p := pad msg in
  flat_map bytes_of_word (absorb (length p / 64)%nat H0 p).
End sha256.

Module hmac.
Definition block_size : nat := 64.

Definition xor_with (c : N) (bs : list N) : list N := map (N.lxor c) bs.

(** [hmac.new(key, msg, hashlib.sha256).digest()] *)
Definition digest (key msg : list N) : list N :=
  let key := if (block_size <? length key)%nat then sha256.digest key else key in
  let key := key ++ replicate (block_size - length key) 0 in
  sha256.digest (xor_with 0x5c key ++ sha256.digest (xor_with 0x36 key ++ msg)).

Definition hex_digit (n : N) : codepoint :=
  if n <? 10 then 48 + n else 87 + n.

Definition hex (bs : list N) : str :=
  flat_map (fun b => [hex_digit (b / 16); hex_digit (b mod 16)]) bs.

(** [hmac.new(key, msg, hashlib.sha256).hexdigest()] *)
Definition hexdigest (key msg : list N) : str := hex (digest key msg).
End hmac.

(** [s.encode("utf-8")]: a surrogate has no encoding. *)
Definition utf8_cp (c : codepoint) : option (list N) :=
  if c <? 0x80 then Some [c]
  else if c <? 0x800 then
    Some [N.lor 0xC0 (N.shiftr c 6); N.lor 0x80 (N.land c 0x3F)]
  else if c <? 0x10000 then
    if (0xD800 <=? c) && (c <=? 0xDFFF) then None
    else Some [N.lor 0xE0 (N.shiftr c 12);
               N.lor 0x80 (N.land (N.shiftr c 6) 0x3F);
               N.lor 0x80 (N.land c 0x3F)]
  else if c <? 0x110000 then
    Some [N.lor 0xF0 (N.shiftr c 18);
          N.lor 0x80 (N.land (N.shiftr c 12) 0x3F);
          N.lor 0x80 (N.land (N.shiftr c 6) 0x3F);
          N.lor 0x80 (N.land c 0x3F)]
  else None.

Fixpoint utf8 (s : str) : option (list N) :=
  match s with
  | [] => Some []
  | c :: s' => bs ← utf8_cp c; rest ← utf8 s'; Some (bs ++ rest)
  end.

Definition encode_utf8 (s : str) : result (list N) :=
  match utf8 s with
  | Some bs => Ok bs
  | None => Raise UnicodeEncodeError
  end.

(** [str(n)] for an [int], without the interpreter's configurable limit
    on the number of digits. *)
Fixpoint digits_of (fuel : nat) (n : N) (acc : str) : str :=
  match fuel with
  | O => acc
  | S fuel' =>
      let acc' := (48 + n mod 10) :: acc in
      if n <? 10 then acc' else digits_of fuel' (n / 10) acc'
  end.

Definition str_of_N (n : N) : str := digits_of (S (N.to_nat (N.log2 n))) n [].

Definition str_of_Z (z : Z) : str :=
  if (z <? 0)%Z then 45 :: str_of_N (Z.abs_N z) else str_of_N (Z.to_N z).

Definition str_of_pyval (v : pyval) : str :=
  match v with
  | VStr s => s
  | VInt z => str_of_Z z
  | VNone => py "None"
  end.

Module urllib.
(** Letters, digits and [_ . - ~] are never quoted. *)
Definition always_safe (b : N) : bool :=
  ascii_isalpha b || ascii_isdigit b
  || (b =? 95) || (b =? 46) || (b =? 45) || (b =? 126).

Definition hex_upper (n : N) : codepoint :=
  if n <? 10 then 48 + n else 55 + n.

Definition quote_byte (b : N) : str :=
  if always_safe b then [b]
  else if b =? 32 then [43]
  else [37; hex_upper (b / 16); hex_upper (b mod 16)].

(** [urllib.parse.quote_plus(s)] *)
Definition quote_plus (s : str) : result str :=
  bs ← encode_utf8 s; Ok (flat_map quote_byte bs).

Definition ampersand_join (parts : list str) : str :=
  match parts with
  | [] => []
  | p :: ps => p ++ flat_map (fun q => 38 :: q) ps
  end.

Fixpoint encode_items (d : pydict) : result (list str) :=
  match d with
  | [] => Ok []
  | (k, v) :: d' =>
      k' ← quote_plus k;
      v' ← quote_plus (str_of_pyval v);
      rest ← encode_items d';
      Ok ((k' ++ 61 :: v') :: rest)
  end.

(** [urllib.parse.urlencode(d)] for a dictionary [d] *)
Definition urlencode (d : pydict) : result str :=
  ampersand_join <$> encode_items d.
End urllib.

(** ** The world the client runs in

    Dictionaries are objects on a heap, so that a dictionary passed to a
    method and changed there is seen changed by the caller.  The clock and
    the exchange are oracles: what the n-th reading of the clock and the
    n-th HTTP request yield.  Everything observable is appended to a
    trace. *)

Abbreviation loc := nat (only parsing).

Inductive level := DEBUG | INFO | WARNING | ERROR.

Inductive event :=
| Log (lvl : level) (line : string)
| Request (method url : str) (as_query : bool) (params : pydict) (timeout : Z)
| Sleep (seconds : Z).

Record world := World {
  heap : gmap loc pydict;
  clock_reads : nat;
  requests_made : nat;
  trace : list event
}.

(** Outcome of [session.request(...)] followed by [response.json()]. *)
Inductive reply :=
| Fails (e : exn)
| Responds (status_code : Z) (text : str) (body : result json).

Record Response := {
  status_code : Z;
  text : str;
  json_body : result json
}.

(** Computations that read and change the world and may raise; what was
    done before an exception stays done. *)
Definition M (A : Type) : Type := world -> result A * world.

#[global] Instance M_ret : MRet M := fun _ a w => (Ok a, w).
#[global] Instance M_bind : MBind M := fun _ _ f m w =>
  match m w with
  | (Ok a, w') => f a w'
  | (Raise e, w') => (Raise e, w')
  end.
#[global] Instance M_fmap : FMap M := fun _ _ f m w =>
  match m w with
  | (Ok a, w') => (Ok (f a), w')
  | (Raise e, w') => (Raise e, w')
  end.

Definition raise {A} (e : exn) : M A := fun w => (Raise e, w).
Definition lift {A} (r : result A) : M A := fun w => (r, w).

(** [try: m except Exception as exc: h exc] *)
Definition try_except {A} (m : M A) (h : exn -> M A) : M A := fun w =>
  match m w with
  | (Raise e, w') => h e w'
  | r => r
  end.

Definition emit (ev : event) : M unit := fun w =>
  (Ok tt, World (heap w) (clock_reads w) (requests_made w) (trace w ++ [ev])).

Definition log (lvl : level) (line : string) : M unit := emit (Log lvl line).

(** [time.sleep(seconds)] *)
Definition sleep (seconds : Z) : M unit := emit (Sleep seconds).

(** A new dictionary object. *)
Definition alloc (d : pydict) : M loc := fun w =>
  let l := fresh (dom (heap w)) in
  (Ok l, World (<[l := d]> (heap w)) (clock_reads w) (requests_made w) (trace w)).

(** The dictionary a reference points to.  A reference always points to
    an object; the model stops on a location that holds none. *)
Definition load (l : loc) : M pydict := fun w =>
  match heap w !! l with
  | Some d => (Ok d, w)
  | None => (Raise (OtherError 0), w)
  end.

(** [params[k] = v] on the object itself *)
Definition setitem (l : loc) (k : str) (v : pyval) : M unit := fun w =>
  match heap w !! l with
  | Some d =>
      (Ok tt, World (<[l := dict_setitem k v d]> (heap w))
                    (clock_reads w) (requests_made w) (trace w))
  | None => (Raise (OtherError 0), w)
  end.

(** ** bot/client.py *)

Module client.

Definition BASE_URL : str := py "https://testnet.binancefuture.com".
Definition RECV_WINDOW : Z := 5000.

(** The fields [__init__] sets.  The session and its headers belong to
    the exchange oracle. *)
Record BinanceClient := {
  api_key : str;
  api_secret : str;
  base_url : str;
  timeout : Z;
  max_retries : Z
}.

Section Client.
Context `{UnicodeData}.

(** [clock n]: [int(time.time() * 1000)] at the n-th reading. *)
Variable clock : nat -> Z.
(** [exchange n]: what happens to the n-th request sent. *)
Variable exchange : nat -> reply.

(** [s.rstrip("/")] *)
Definition rstrip_slash (s : str) : str :=
  drop_trailing (fun c => c =? 47) s.

(** [BinanceClient.__init__] *)
Definition __init__ (api_key api_secret base_url : str) (timeout max_retries : Z)
  : M BinanceClient :=
  match api_key, api_secret with
  | _ :: _, _ :: _ =>
      let self := {| api_key := api_key; api_secret := api_secret;
                     base_url := rstrip_slash base_url;
                     timeout := timeout; max_retries := max_retries |} in
      log INFO "BinanceClient initialised";;
      mret self
  | _, _ => raise (ValueError API_key_and_secret_must_not_be_empty)
  end.

Definition _timestamp (self : BinanceClient) : M Z := fun w =>
  (Ok (clock (clock_reads w)),
   World (heap w) (S (clock_reads w)) (requests_made w) (trace w)).

(** The signature of a dictionary's entries, in their order. *)
Definition signature_of (secret : str) (d : pydict) : result str :=
  query_string ← urllib.urlencode d;
  key ← encode_utf8 secret;
  msg ← encode_utf8 query_string;
  Ok (hmac.hexdigest key msg).

Definition _sign (self : BinanceClient) (params : loc) : M str :=
  d ← load params;
  lift (signature_of (api_secret self) d).

Definition _build_signed_params (self : BinanceClient) (params : loc) : M loc :=
  ts ← _timestamp self;
  setitem params (py "timestamp") (VInt ts);;
  setitem params (py "recvWindow") (VInt RECV_WINDOW);;
  sig ← _sign self params;
  setitem params (py "signature") (VStr sig);;
  mret params.

(** [session.request(method, url, params=params | data=params, timeout=...)] *)
Definition session_request (self : BinanceClient) (method url : str)
    (as_query : bool) (params : loc) : M Response := fun w =>
  match heap w !! params with
  | None => (Raise (OtherError 0), w)
  | Some d =>
      let w' := World (heap w) (clock_reads w) (S (requests_made w))
                      (trace w ++ [Request method url as_query d (timeout self)]) in
      match exchange (requests_made w) with
      | Fails e => (Raise e, w')
      | Responds sc txt body =>
          (Ok {| status_code := sc; text := txt; json_body := body |}, w')
      end
  end.

(** [v != 200] *)
Definition ne_200 (v : json) : bool :=
  match v with
  | JInt z => negb (z =? 200)%Z
  | JFloat f => negb (PrimFloat.eqb f 200%float)
  | _ => true
  end.

(** [isinstance(data, dict) and "code" in data and data["code"] != 200] *)
Definition is_error_payload (data : json) : bool :=
  match data with
  | JDict d =>
      match dict_get (py "code") d with
      | Some code => ne_200 code
      | None => false
      end
  | _ => false
  end.

(** [data.get(k, dflt)] *)
Definition json_get (k : str) (dflt : json) (data : json) : json :=
  match data with
  | JDict d => default dflt (dict_get k d)
  | _ => dflt
  end.

(** [m in ("GET", "DELETE")] *)
Definition is_get_or_delete (m : str) : bool :=
  str_eqb m (py "GET") || str_eqb m (py "DELETE").

(** The body of the [try] block of one attempt. *)
Definition attempt_body (self : BinanceClient) (method url endpoint : str)
    (params : loc) : M json :=
  response ← session_request self method url
               (is_get_or_delete (upper method)) params;
  log DEBUG "<- status, body";;
  data ← lift (json_body response);
  if is_error_payload data
  then raise (BinanceAPIError (json_get (py "code") (JInt (-1)) data)
                              (json_get (py "msg") (JStr (py "Unknown error")) data)
                              (status_code response))
  else mret data.

(** What the [try] statement of one attempt leaves: the function has
    returned [data], or a handler has recorded the exception. *)
Inductive attempt_outcome :=
| Returned (data : json)
| Recorded (last_exception : exn).

(** The [except] clauses, in the order of the source. *)
Definition handlers (exc : exn) : M attempt_outcome :=
  match exc with
  | BinanceAPIError _ _ _ => raise exc
  | Timeout _ =>
      log WARNING "Request timed out";; mret (Recorded exc)
  | RequestsConnectionError _ =>
      log WARNING "Connection error";; mret (Recorded exc)
  | RequestException _ =>
      log WARNING "Request error";; mret (Recorded exc)
  | _ => raise exc
  end.

(** [for attempt in range(attempt, attempt + n)]: the rest of the loop and
    the [raise] after it. *)
Fixpoint attempts (self : BinanceClient) (method url endpoint : str)
    (params : loc) (n : nat) (attempt : Z) (last_exception : exn) : M json :=
  match n with
  | O => raise (ConnectionError url (max_retries self) last_exception)
  | S n' =>
      r ← try_except (Returned <$> attempt_body self method url endpoint params)
                     handlers;
      match r with
      | Returned data => mret data
      | Recorded exc =>
          (if (attempt <? max_retries self)%Z
           then log INFO "Retrying";; sleep (2 ^ (attempt - 1))%Z
           else mret tt);;
          attempts self method url endpoint params n' (attempt + 1)%Z exc
      end
  end.

Definition _request (self : BinanceClient) (method endpoint : str)
    (params : option loc) (signed : bool) : M json :=
  let url := base_url self ++ endpoint in
  (* params = params or {} *)
  params ← match params with
           | None => alloc []
           | Some l =>
               d ← load l;
               match d with [] => alloc [] | _ => mret l end
           end;
  params ← (if signed then _build_signed_params self params else mret params);
  log DEBUG "-> method endpoint params";;
  attempts self method url endpoint params
           (Z.to_nat (max_retries self)) 1%Z (RuntimeError "No attempts made.").

Definition ping (self : BinanceClient) : M bool :=
  try_except
    (_request self (py "GET") (py "/fapi/v1/ping") None false;;
     log INFO "Ping successful";;
     mret true)
    (fun exc => log ERROR "Ping failed";; mret false).

Definition get_exchange_info (self : BinanceClient) : M json :=
  _request self (py "GET") (py "/fapi/v1/exchangeInfo") None false.

Definition get_account (self : BinanceClient) : M json :=
  _request self (py "GET") (py "/fapi/v2/account") None true.

(** [x or y] on optional strings *)
Definition str_or (x : option str) (y : str) : str :=
  match x with
  | Some (c :: s) => c :: s
  | _ => y
  end.

Definition of_optional (x : option str) : pyval :=
  match x with
  | Some s => VStr s
  | None => VNone
  end.

(** The dictionary [place_order] builds before it sends it. *)
Definition order_params (symbol side order_type quantity : str)
    (price time_in_force stop_price : option str) (reduce_only : bool)
    (position_side : str) : pydict :=
  let params := [(py "symbol", VStr symbol);
                 (py "side", VStr side);
                 (py "type", VStr order_type);
                 (py "quantity", VStr quantity);
                 (py "positionSide", VStr position_side)] in
  let params :=
    if str_eqb order_type (py "LIMIT")
    then dict_setitem (py "timeInForce") (VStr (str_or time_in_force (py "GTC")))
           (dict_setitem (py "price") (of_optional price) params)
    else params in
  let params :=
    if str_eqb order_type (py "STOP_MARKET")
    then dict_setitem (py "stopPrice") (of_optional stop_price) params
    else params in
  let params :=
    if reduce_only
    then dict_setitem (py "reduceOnly") (VStr (py "true")) params
    else params in
  params.

(** [response.get(...)]: only a dictionary has the method. *)
Definition get_of (response : json) : M unit :=
  match response with
  | JDict _ => mret tt
  | _ => raise AttributeError
  end.

Definition place_order (self : BinanceClient)
    (symbol side order_type quantity : str)
    (price time_in_force stop_price : option str) (reduce_only : bool)
    (position_side : str) : M json :=
  params ← alloc (order_params symbol side order_type quantity price
                               time_in_force stop_price reduce_only position_side);
  log INFO "Placing order";;
  response ← _request self (py "POST") (py "/fapi/v1/order") (Some params) true;
  get_of response;;
  log INFO "Order placed successfully";;
  mret response.

Definition cancel_order (self : BinanceClient) (symbol : str) (order_id : Z)
  : M json :=
  params ← alloc [(py "symbol", VStr symbol); (py "orderId", VInt order_id)];
  log INFO "Cancelling order";;
  response ← _request self (py "DELETE") (py "/fapi/v1/order") (Some params) true;
  get_of response;;
  log INFO "Order cancelled";;
  mret response.

Definition get_open_orders (self : BinanceClient) (symbol : option str) : M json :=
  params ← alloc (match symbol with
                  | Some (c :: s) => [(py "symbol", VStr (c :: s))]
                  | _ => []
                  end);
  _request self (py "GET") (py "/fapi/v1/openOrders") (Some params) true.

Definition get_order (self : BinanceClient) (symbol : str) (order_id : Z)
  : M json :=
  params ← alloc [(py "symbol", VStr symbol); (py "orderId", VInt order_id)];
  _request self (py "GET") (py "/fapi/v1/order") (Some params) true.
End Client.
End client.

(** ** Decimals as strings *)

Definition sign_str (sign : bool) : str := if sign then [45] else [].

(** ["%+d" % z] *)
Definition signed_str (z : Z) : str :=
  (if (z <? 0)%Z then 45 else 43) :: str_of_N (Z.abs_N z).

(** [str(d)]: the scientific string of a decimal, as [Decimal.__str__]
    computes it in the default context (exponent letter [E]). *)
Definition Decimal_str (d : Decimal) : str :=
  match d with
  | Infinity sign => sign_str sign ++ py "Infinity"
  | NaN sign signaling payload =>
      sign_str sign ++ (if signaling then py "sNaN" else py "NaN")
        ++ (if payload =? 0 then [] else str_of_N payload)
  | Finite sign coeff exp =>
      let int := str_of_N coeff in
      let len := Z.of_nat (length int) in
      let leftdigits := (exp + len)%Z in
      let dotplace :=
        if ((exp <=? 0) && (-6 <? leftdigits))%Z then leftdigits else 1%Z in
      let '(intpart, fracpart) :=
        if (dotplace <=? 0)%Z
        then (py "0", 46 :: replicate (Z.to_nat (- dotplace)) 48 ++ int)
        else if (len <=? dotplace)%Z
        then (int ++ replicate (Z.to_nat (dotplace - len)) 48, [])
        else (take (Z.to_nat dotplace) int, 46 :: drop (Z.to_nat dotplace) int) in
      let exp :=
        if (leftdigits =? dotplace)%Z then []
        else 69 :: signed_str (leftdigits - dotplace) in
      sign_str sign ++ intpart ++ fracpart ++ exp
  end.

(** [str(x)] for an optional decimal *)
Definition str_of_optional_decimal (x : option Decimal) : str :=
  match x with
  | Some d => Decimal_str d
  | None => py "None"
  end.

(** ** The console

    What [print] and [click.echo] write goes to one of the two streams
    of the console.  As for the log, a line is recorded by its fixed
    text, without the values it interpolates; a rule of 55 box-drawing
    characters is recorded as [=====] or [-----]. *)

Inductive stream := Stdout | Stderr.

Abbreviation console := (list (stream * string)) (only parsing).

(** Computations of the layers above the client: they run in a world
    and write to the console. *)
Definition IO (A : Type) : Type :=
  world * list (stream * string) -> result A * (world * list (stream * string)).

#[global] Instance IO_ret : MRet IO := fun _ a s => (Ok a, s).
#[global] Instance IO_bind : MBind IO := fun _ _ f m s =>
  match m s with
  | (Ok a, s') => f a s'
  | (Raise e, s') => (Raise e, s')
  end.

(** A computation of the client, run where it is. *)
Definition run {A} (m : M A) : IO A := fun s =>
  let '(r, w') := m s.1 in (r, (w', s.2)).

Definition io_raise {A} (e : exn) : IO A := fun s => (Raise e, s).
Definition io_lift {A} (r : result A) : IO A := fun s => (r, s).

(** [try: m except ...: h exc] *)
Definition io_try {A} (m : IO A) (h : exn -> IO A) : IO A := fun s =>
  match m s with
  | (Raise e, s') => h e s'
  | r => r
  end.

Definition write (to : stream) (line : string) : IO unit := fun s =>
  (Ok tt, (s.1, s.2 ++ [(to, line)])).

(** [print(line)] *)
Definition print (line : string) : IO unit := write Stdout line.

(** [bool(v)] for a JSON value *)
Definition truthy (v : json) : bool :=
  match v with
  | JNull => false
  | JBool b => b
  | JInt z => negb (z =? 0)%Z
  | JFloat f => negb (PrimFloat.eqb f 0%float)
  | JStr s => match s with [] => false | _ => true end
  | JList l => match l with [] => false | _ => true end
  | JDict d => match d with [] => false | _ => true end
  end.

(** [bool(d)] for a decimal: false for the zeros only *)
Definition Decimal_bool (d : Decimal) : bool :=
  match d with
  | Finite _ coeff _ => negb (coeff =? 0)
  | _ => true
  end.

(** ** bot/orders.py *)

Module orders.
Import validators client.

(** [_format_order_response(response)]; [get] is a method of
    dictionaries only. *)
Definition _format_order_response (response : json) : result (list (str * json)) :=
  match response with
  | JDict _ =>
      Ok [(py "orderId", json_get (py "orderId") (JStr (py "N/A")) response);
          (py "symbol", json_get (py "symbol") (JStr (py "N/A")) response);
          (py "side", json_get (py "side") (JStr (py "N/A")) response);
          (py "type", json_get (py "type") (JStr (py "N/A")) response);
          (py "status", json_get (py "status") (JStr (py "N/A")) response);
          (py "price", json_get (py "price") (JStr (py "0")) response);
          (py "avgPrice", json_get (py "avgPrice") (JStr (py "0")) response);
          (py "origQty", json_get (py "origQty") (JStr (py "0")) response);
          (py "executedQty", json_get (py "executedQty") (JStr (py "0")) response);
          (py "timeInForce", json_get (py "timeInForce") (JStr (py "N/A")) response);
          (py "updateTime", json_get (py "updateTime") (JStr (py "N/A")) response)]
  | _ => Raise AttributeError
  end.

Section Orders.
Context `{UnicodeData}.
Variable clock : nat -> Z.
Variable exchange : nat -> reply.

(** [float(x)] on a JSON value: the number, or the exception raised for
    a string that is not a number, an integer that is too large, or a
    value of another type. *)
Variable to_float : json -> result float.

(** Whether an exception of another class, known by its [info], is an
    instance of the built-in [ConnectionError]: a [ConnectionResetError]
    is, a [KeyError] is not. *)
Variable is_connection_error : N -> bool.

Definition _print_order_summary (params : ValidatedOrder) : IO unit :=
  print "=====";;
  print "ORDER REQUEST SUMMARY";;
  print "=====";;
  print "Symbol";;
  print "Side";;
  print "Type";;
  print "Quantity";;
  (match v_price params with
   | Some p =>
       if Decimal_bool p
       then print (if str_eqb (v_order_type params) (py "STOP_MARKET")
                   then "Stop Price" else "Price")
       else mret tt
   | None => mret tt
   end);;
  print "=====".

(** [if v and float(v) > 0: print(line)] *)
Definition print_if_positive (v : json) (line : string) : IO unit :=
  if truthy v
  then f ← io_lift (to_float v);
       if PrimFloat.ltb 0%float f then print line else mret tt
  else mret tt.

Definition _print_order_result (result : list (str * json)) (success : bool) : IO unit :=
  print "-----";;
  print "ORDER RESPONSE";;
  print "-----";;
  print (if success then "Status : SUCCESS" else "Status : FAILED");;
  print "Order ID";;
  print "Symbol";;
  print "Side";;
  print "Type";;
  print "Order Status";;
  print "Orig Qty";;
  print "Executed Qty";;
  print_if_positive (default (JStr (py "0")) (dict_get (py "avgPrice") result)) "Avg Price";;
  print_if_positive (default (JStr (py "0")) (dict_get (py "price") result)) "Limit Price";;
  print "-----".

(** The call of [client.place_order] with the keyword arguments built
    from the validated values: the price goes to [price] for LIMIT and to
    [stop_price] for STOP_MARKET, as the string of the decimal. *)
Definition send_order (self : BinanceClient) (v : ValidatedOrder)
    (time_in_force : str) (reduce_only : bool) : M json :=
  let limit := str_eqb (v_order_type v) (py "LIMIT") in
  let stop := negb limit && str_eqb (v_order_type v) (py "STOP_MARKET") in
  client.place_order clock exchange self
    (v_symbol v) (v_side v) (v_order_type v) (Decimal_str (v_quantity v))
    (if limit then Some (str_of_optional_decimal (v_price v)) else None)
    (if limit then Some time_in_force else None)
    (if stop then Some (str_of_optional_decimal (v_price v)) else None)
    reduce_only (py "BOTH").

(** The two [except] clauses around the call; any other exception goes
    through.  [except ConnectionError] names the built-in class, which
    is also that of an exception of one of its subclasses. *)
Definition on_failure (exc : exn) : IO json :=
  let network_error : IO json :=
    run (log ERROR "Network error while placing order");;
    print "Order FAILED - Network error";;
    io_raise exc in
  match exc with
  | BinanceAPIError _ _ _ =>
      run (log ERROR "API error while placing order");;
      print "Order FAILED - Binance API Error";;
      io_raise exc
  | ConnectionError _ _ _ => network_error
  | OtherError info =>
      if is_connection_error info then network_error else io_raise exc
  | _ => io_raise exc
  end.

(** [place_order(client, ...)]; [quantity] and [price] stand for the
    strings of the arguments, which is all the function uses of them. *)
Definition place_order (self : BinanceClient)
    (symbol side order_type quantity : str) (price : option str)
    (time_in_force : str) (reduce_only : bool) : IO (list (str * json)) :=
  run (log DEBUG "Validating inputs");;
  validated ← io_lift (validate_all symbol side order_type quantity price);
  _print_order_summary validated;;
  raw ← io_try (run (send_order self validated time_in_force reduce_only)) on_failure;
  result ← io_lift (_format_order_response raw);
  _print_order_result result true;;
  run (log INFO "Order complete");;
  mret result.
End Orders.
End orders.

(** ** cli.py: the commands

    A command is the function that click calls once it has read the
    options and run their callbacks. *)

Module cli.
Import validators client.

(** How a command ends: with [sys.exit(code)], with the
    [click.UsageError] made of an exception, or by returning. *)
Inductive outcome (A : Type) :=
| Exit (code : Z)
| UsageError (exc : exn)
| Return (a : A).
Arguments Exit {A} code.
Arguments UsageError {A} exc.
Arguments Return {A} a.

Section Cli.
Context `{UnicodeData}.

(** [os.environ]: the value of a variable, if it is set. *)
Variable environ : str -> option str.

Variable clock : nat -> Z.
Variable exchange : nat -> reply.
Variable to_float : json -> result float.
Variable is_connection_error : N -> bool.

(** Whether an exception known by its [info], of [requests] or of
    another class, is also a [ValueError], as [InvalidURL] and
    [JSONDecodeError] of [requests] are. *)
Variable is_value_error : N -> bool.

Definition _get_client : IO (outcome BinanceClient) :=
  let api_key := strip (default [] (environ (py "BINANCE_API_KEY"))) in
  let api_secret := strip (default [] (environ (py "BINANCE_API_SECRET"))) in
  let base_url :=
    strip (default (py "https://testnet.binancefuture.com")
                   (environ (py "BINANCE_BASE_URL"))) in
  match api_key, api_secret with
  | _ :: _, _ :: _ =>
      self ← run (__init__ api_key api_secret base_url 10 3);
      mret (Return self)
  | _, _ =>
      write Stderr "Missing credentials.";;
      mret (Exit 1)
  end.

(** [isinstance(exc, ValueError)]; [UnicodeEncodeError] derives from
    [ValueError], [decimal.InvalidOperation] does not. *)
Definition is_ValueError (exc : exn) : bool :=
  match exc with
  | ValueError _ | UnicodeEncodeError => true
  | RequestException info | OtherError info => is_value_error info
  | _ => false
  end.

(** [isinstance(exc, (ValueError, BinanceAPIError, ConnectionError))] *)
Definition is_expected (exc : exn) : bool :=
  is_ValueError exc
  || match exc with
     | BinanceAPIError _ _ _ | ConnectionError _ _ _ => true
     | OtherError info => is_connection_error info
     | _ => false
     end.

(** [cmd_place_order(symbol, side, order_type, quantity, price, tif,
    reduce_only)]: [symbol], [side], [order_type] and [quantity] are
    what the callbacks of their options returned, the quantity a
    decimal. *)
Definition cmd_place_order (symbol side order_type : str) (quantity : Decimal)
    (price : option str) (tif : str) (reduce_only : bool) : IO (outcome unit) :=
  match validate_price price order_type with
  | Raise exc => if is_ValueError exc then mret (UsageError exc) else io_raise exc
  | Ok _ =>
      run (log INFO "CLI place-order");;
      c ← _get_client;
      match c with
      | Return self =>
          io_try
            (orders.place_order clock exchange to_float is_connection_error self
               symbol side order_type (Decimal_str quantity) price (upper tif)
               reduce_only;;
             mret (Return tt))
            (fun exc =>
               if is_expected exc then mret (Exit 1)
               else run (log ERROR "Unexpected error");;
                    write Stderr "Unexpected error";;
                    mret (Exit 1))
      | Exit code => mret (Exit code)
      | UsageError exc => mret (UsageError exc)
      end
  end.

Definition cmd_ping : IO (outcome unit) :=
  c ← _get_client;
  match c with
  | Return self =>
      reachable ← run (ping clock exchange self);
      if reachable : bool
      then write Stdout "Testnet is reachable.";; mret (Return tt)
      else write Stderr "Testnet is NOT reachable.";; mret (Exit 1)
  | Exit code => mret (Exit code)
  | UsageError exc => mret (UsageError exc)
  end.
End Cli.
End cli.

(** * Vocabulary of the properties

    What the statements below speak of: the claims as the specification
    words them, what is observed of a run, and the concrete clients,
    exchanges and worlds of the examples. *)

Section ValidatorClaims.
Context `{UnicodeData}.
Import validators.

(** The contract of [validate_symbol] as the specification words it,
    with the test for letters made on [strip s]. *)
Definition symbol_claim (s : str) : Prop :=
  (strip s <> [] /\ Forall (fun c => isalpha_cp c = true) (strip s) ->
     validate_symbol s = Ok (upper (strip s))) /\
  (strip s = [] \/ Exists (fun c => isalpha_cp c = false) (strip s) ->
     exists m, validate_symbol s = Raise (ValueError m)).

(** An exception raised for the symbol. *)
Definition about_symbol (e : exn) : bool :=
  match e with
  | ValueError Symbol_cannot_be_empty => true
  | ValueError (Symbol_is_invalid _) => true
  | _ => false
  end.

(** The contract of [validate_price] as the specification words it:
    when a price is required, every value that parses and is not [<= 0]
    is returned. *)
Definition price_claim (price : option str) (order_type : str) : Prop :=
  (order_type = py "MARKET" -> validate_price price order_type = Ok None) /\
  (order_type = py "LIMIT" \/ order_type = py "STOP_MARKET" ->
     match price with
     | None => exists e, validate_price price order_type = Raise e
     | Some s =>
         match Decimal_of_str s with
         | None => exists e, validate_price price order_type = Raise e
         | Some d =>
             if nonpositive d
             then exists e, validate_price price order_type = Raise e
             else validate_price price order_type = Ok (Some d)
         end
     end).

End ValidatorClaims.

(** ** Observations of a run *)

(** Transport-layer failures: the exception classes the loop records and
    retries. *)
Definition retryable (e : exn) : bool :=
  match e with
  | Timeout _ | RequestsConnectionError _ | RequestException _ => true
  | _ => false
  end.

Definition warning_line (e : exn) : string :=
  match e with
  | Timeout _ => "Request timed out"
  | RequestsConnectionError _ => "Connection error"
  | _ => "Request error"
  end.

(** The world after some more events. *)
Definition emitted (evs : list event) (w : world) : world :=
  World (heap w) (clock_reads w) (requests_made w) (trace w ++ evs).

(** The world after one more request. *)
Definition sent (rq : event) (w : world) : world :=
  World (heap w) (clock_reads w) (S (requests_made w)) (trace w ++ [rq]).

Definition sleeps (evs : list event) : list Z :=
  omap (fun ev => match ev with Sleep s => Some s | _ => None end) evs.

Definition is_request (ev : event) : bool :=
  match ev with Request _ _ _ _ _ => true | _ => false end.

Definition requests (evs : list event) : list event :=
  filter (fun ev => is_request ev) evs.

Section LoopVocabulary.
Context `{UnicodeData}.
Variable exchange : nat -> reply.
Import client.
Variable self : BinanceClient.
Variables method url endpoint : str.
Variable params : loc.

Local Abbreviation attempts := (attempts exchange self method url endpoint params).

(** The request event of an attempt made with dictionary [d]. *)
Definition request_of (d : pydict) : event :=
  Request method url (is_get_or_delete (upper method)) d (timeout self).

(** The events between a recorded failure and the next attempt. *)
Definition backoff (attempt : Z) (e : exn) : list event :=
  Log WARNING (warning_line e)
  :: (if (attempt <? max_retries self)%Z
      then [Log INFO "Retrying"; Sleep (2 ^ (attempt - 1))%Z]
      else []).

(** The exception raised for an error payload. *)
Definition api_error (data : json) (sc : Z) : exn :=
  BinanceAPIError (json_get (py "code") (JInt (-1)) data)
                  (json_get (py "msg") (JStr (py "Unknown error")) data) sc.

(** What an attempt does with an exception raised in its [try] block. *)
Definition on_exception (n : nat) (attempt : Z) (e : exn) (w : world)
  : result json * world :=
  if retryable e
  then attempts n (attempt + 1)%Z e (emitted (backoff attempt e) w)
  else (Raise e, w).

(** The transport-layer exception an attempt fails with, given the reply
    to its request: raised by the request itself, or by the decoding of
    the body of the response. *)
Definition transport_failure (r : reply) : option exn :=
  match r with
  | Fails e | Responds _ _ (Raise e) => if retryable e then Some e else None
  | Responds _ _ (Ok _) => None
  end.

(** What is logged on receiving the reply. *)
Definition received (r : reply) : list event :=
  match r with
  | Fails _ => []
  | Responds _ _ _ => [Log DEBUG "<- status, body"]
  end.

(** The events of [n] attempts that all fail, the first of them being
    attempt number [attempt] and request number [first]. *)
Fixpoint failure_trace (d : pydict) (n : nat) (attempt : Z) (first : nat)
  : list event :=
  match n with
  | O => []
  | S n' =>
      request_of d
      :: received (exchange first)
      ++ backoff attempt (default AttributeError (transport_failure (exchange first)))
      ++ failure_trace d n' (attempt + 1)%Z (S first)
  end.

(** The exception that is current after [n] failing attempts. *)
Definition last_failure (n : nat) (first : nat) (last : exn) : exn :=
  match n with
  | O => last
  | S m => default last (transport_failure (exchange (first + m)))
  end.

End LoopVocabulary.

(** The parameters with the time stamp and the validity window set. *)
Definition extended (ts : Z) (d : pydict) : pydict :=
  dict_setitem (py "recvWindow") (VInt client.RECV_WINDOW)
    (dict_setitem (py "timestamp") (VInt ts) d).

(** The contract of [_build_signed_params] as the specification words it:
    in the result the time stamp and the window are set, and the signature
    is the one of all the other entries. *)
Definition signed_params_claim (secret : str) (ts : Z) (result : pydict) : Prop :=
  dict_get (py "timestamp") result = Some (VInt ts) /\
  dict_get (py "recvWindow") result = Some (VInt client.RECV_WINDOW) /\
  exists sig,
    dict_get (py "signature") result = Some (VStr sig) /\
    client.signature_of secret (dict_remove (py "signature") result) = Ok sig.

Section RequestVocabulary.
Variable clock : nat -> Z.
Import client.
Variable self : BinanceClient.

(** The statements of [_request] before its loop: they settle the
    dictionary to send. *)
Definition prepare (params : option loc) (signed : bool) : M loc :=
  params ← match params with
           | None => alloc []
           | Some l =>
               d ← load l;
               match d with [] => alloc [] | _ => mret l end
           end;
  params ← (if signed then _build_signed_params clock self params else mret params);
  log DEBUG "-> method endpoint params";;
  mret params.

(** The dictionary that [_request] works on: the caller's, unless that
    one is empty. *)
Definition working (l : loc) (w : world) (d : pydict) : loc :=
  match d with
  | [] => fresh (dom (heap w))
  | _ => l
  end.

End RequestVocabulary.

(** A digit or a letter of [a .. f]. *)
Definition is_lower_hex (c : codepoint) : bool :=
  ascii_isdigit c || ((97 <=? c) && (c <=? 102)).

(** The signature as the specification words it: the lower-case
    hexadecimal digest of HMAC-SHA256, keyed by the UTF-8 bytes of the
    secret, over the UTF-8 bytes of the URL-encoded query string of the
    parameters; there is none when a string has no UTF-8 encoding. *)
Definition sign_spec (secret : str) (d : pydict) : option str :=
  match utf8 secret, urllib.urlencode d with
  | Some key, Ok query_string =>
      match utf8 query_string with
      | Some msg => Some (hmac.hex (hmac.digest key msg))
      | None => None
      end
  | _, _ => None
  end.

(** C2 as the specification words it, for the outcome [out] of a call
    started in [w]: when every attempt made has failed with a
    transport-layer exception, [max_retries] requests were sent and the
    call raised [ConnectionError] from a transport-layer exception. *)
Definition exhaustion_claim (self : client.BinanceClient) (url : str)
    (exchange : nat -> reply) (w : world) (out : result json * world) : Prop :=
  (forall i, (i < requests_made out.2 - requests_made w)%nat ->
     exists e, transport_failure (exchange (requests_made w + i)%nat) = Some e) ->
  Z.of_nat (requests_made out.2 - requests_made w)%nat = client.max_retries self /\
  exists cause,
    out.1 = Raise (ConnectionError url (client.max_retries self) cause) /\
    retryable cause = true.

(** C9 as the specification words its last part: after the call the
    caller's dictionary holds the three entries. *)
Definition mutated_in_place (l : loc) (w' : world) : Prop :=
  exists d',
    heap w' !! l = Some d' /\
    dict_contains (py "timestamp") d' = true /\
    dict_contains (py "recvWindow") d' = true /\
    dict_contains (py "signature") d' = true.

(** ** Concrete clients, exchanges and worlds *)

(** A client as the command line builds it, and one that may not try. *)
Definition demo_client : client.BinanceClient :=
  {| client.api_key := py "key"; client.api_secret := py "s";
     client.base_url := py "https://testnet.binancefuture.com";
     client.timeout := 10; client.max_retries := 3 |}.

Definition idle_client : client.BinanceClient :=
  {| client.api_key := py "key"; client.api_secret := py "s";
     client.base_url := py "https://testnet.binancefuture.com";
     client.timeout := 10; client.max_retries := 0 |}.

Definition demo_clock (n : nat) : Z := (1000 + Z.of_nat n)%Z.

(** An exchange that rejects every request as the specification's
    scenario does. *)
Definition rejecting (n : nat) : reply :=
  Responds 400 (py "{...}")
    (Ok (JDict [(py "code", JInt (-1121)); (py "msg", JStr (py "Invalid symbol."))])).

(** An exchange that cannot be reached. *)
Definition unreachable (n : nat) : reply := Fails (RequestsConnectionError (N.of_nat n)).

(** An exchange that accepts every request. *)
Definition accepting (n : nat) : reply := Responds 200 (py "{}") (Ok (JDict [])).

Definition empty_world : world := World ∅ 0 0 [].

(** A world where location 0 holds the given dictionary. *)
Definition world_with (d : pydict) : world := World {[ 0%nat := d ]} 0 0 [].

Definition demo_request (self : client.BinanceClient) (exchange : nat -> reply)
    (params : option loc) (signed : bool) (w : world) : result json * world :=
  @client._request ucd_basic_latin demo_clock exchange self
    (py "GET") (py "/fapi/v1/openOrders") params signed w.

(** The parameters of an order query, and their signature under the demo
    secret at time 1000. *)
Definition demo_params : pydict := [(py "symbol", VStr (py "BTCUSDT"))].

Definition demo_signature : str :=
  py "ea2e9c320e8c9680f7eb521212c54a001a5bea62c4f09156fbe635e4dfcb0d72".

Definition demo_signed : pydict :=
  [(py "symbol", VStr (py "BTCUSDT"));
   (py "timestamp", VInt 1000);
   (py "recvWindow", VInt 5000);
   (py "signature", VStr demo_signature)].

(** An exchange that times out twice and then accepts. *)
Definition flaky (n : nat) : reply :=
  match n with
  | 0%nat | 1%nat => Fails (Timeout 0)
  | _ => accepting n
  end.


(** ** Vocabulary of the further properties *)

(** A code point that has a UTF-8 encoding: a Unicode scalar value, that
    is, in range and not a surrogate. *)
Definition is_scalar (c : codepoint) : bool :=
  (c <? 0x110000) && negb ((0xD800 <=? c) && (c <=? 0xDFFF)).

(** A string without surrogates. *)
Definition encodable (s : str) : bool := forallb is_scalar s.

(** The strings a dictionary holds once it is URL-encoded. *)
Definition dict_encodable (d : pydict) : bool :=
  forallb (fun kv => encodable kv.1 && encodable (str_of_pyval kv.2)) d.

(** An exchange that answers with a JSON list. *)
Definition listing (n : nat) : reply := Responds 200 (py "[]") (Ok (JList [])).

(** An exchange whose transport raises an exception of no class the loop
    knows. *)
Definition broken (n : nat) : reply := Fails (OtherError 7).

(** A decimal greater than zero: a finite one that stands for a positive
    number, or the positive infinity. *)
Definition is_positive (d : Decimal) : Prop :=
  d = Infinity false \/ exists q, Decimal_value d = Some q /\ (0 < q)%Q.

(** A decimal that is zero or less: a finite one that stands for such a
    number (a zero of either sign among them), or the negative
    infinity. *)
Definition is_nonpositive (d : Decimal) : Prop :=
  d = Infinity true \/ exists q, Decimal_value d = Some q /\ (q <= 0)%Q.

(** The number of digits of a coefficient, none for zero. *)
Definition coefficient_digits (coeff : N) : Z :=
  if coeff =? 0 then 0%Z else Z.of_nat (length (str_of_N coeff)).

(** The decimals the constructor can yield from a string: those within
    the bounds of the module. *)
Definition in_range (d : Decimal) : bool :=
  match d with
  | Finite _ coeff e =>
      (coefficient_digits coeff <=? MAX_PREC)%Z
      && representable coeff (coefficient_digits coeff) e
  | Infinity _ => true
  | NaN _ _ payload => (coefficient_digits payload <=? MAX_PREC)%Z
  end.

(** A coefficient of fewer than [MAX_PREC - 5] digits. *)
Definition short (d : Decimal) : Prop :=
  match d with
  | Finite _ coeff _ => (Z.of_nat (length (str_of_N coeff)) + 6 <= MAX_PREC)%Z
  | _ => True
  end.

(** A visible Basic Latin character other than the underscore: the
    constructor of decimals takes it as it is. *)
Definition plain (c : codepoint) : bool :=
  (32 <? c) && (c <=? 127) && negb (c =? 95).

(** The keys of a formatted order response. *)
Definition response_keys : list str :=
  [py "orderId"; py "symbol"; py "side"; py "type"; py "status"; py "price";
   py "avgPrice"; py "origQty"; py "executedQty"; py "timeInForce"; py "updateTime"].

(** What stands for a key the response does not have. *)
Definition missing_field (k : str) : json :=
  if existsb (str_eqb k) [py "price"; py "avgPrice"; py "origQty"; py "executedQty"]
  then JStr (py "0")
  else JStr (py "N/A").

(** The fields of a validated order as the exchange is to receive them:
    the five of every order, then the price of a LIMIT order with its
    time in force or the stop price of a STOP_MARKET order, then the
    reduce-only mark if asked for. *)
Definition order_fields (v : validators.ValidatedOrder) (time_in_force : str)
    (reduce_only : bool) : pydict :=
  [(py "symbol", VStr (validators.v_symbol v));
   (py "side", VStr (validators.v_side v));
   (py "type", VStr (validators.v_order_type v));
   (py "quantity", VStr (Decimal_str (validators.v_quantity v)));
   (py "positionSide", VStr (py "BOTH"))]
  ++ match validators.v_price v with
     | Some p =>
         if str_eqb (validators.v_order_type v) (py "LIMIT")
         then [(py "price", VStr (Decimal_str p));
               (py "timeInForce",
                VStr (match time_in_force with [] => py "GTC" | _ => time_in_force end))]
         else [(py "stopPrice", VStr (Decimal_str p))]
     | None => []
     end
  ++ (if reduce_only then [(py "reduceOnly", VStr (py "true"))] else []).

(** Exceptions the order layer reports before it raises them again:
    instances of [BinanceAPIError] and of the built-in [ConnectionError]. *)
Definition reported (is_connection_error : N -> bool) (e : exn) : bool :=
  match e with
  | BinanceAPIError _ _ _ | ConnectionError _ _ _ => true
  | OtherError info => is_connection_error info
  | _ => false
  end.

(** No exception of the examples is of a subclass of the built-in
    [ConnectionError]. *)
Definition demo_classes (info : N) : bool := false.

(** An exchange that fills every order. *)
Definition filling (n : nat) : reply :=
  Responds 200 (py "{...}")
    (Ok (JDict [(py "orderId", JInt 7); (py "symbol", JStr (py "BTCUSDT"));
                (py "status", JStr (py "FILLED")); (py "avgPrice", JStr (py "42000.5"));
                (py "executedQty", JStr (py "0.0010"))])).

(** An exchange that fills every order and reports no average price. *)
Definition filling_blank (n : nat) : reply :=
  Responds 200 (py "{...}")
    (Ok (JDict [(py "orderId", JInt 7); (py "avgPrice", JStr (py "n/a"))])).

(** An excerpt of [float]: the values of the examples. *)
Definition demo_float (v : json) : result float :=
  match v with
  | JFloat f => Ok f
  | JStr s =>
      if str_eqb s (py "0") then Ok 0%float
      else if str_eqb s (py "42000.5") then Ok 42000.5%float
      else Raise (OtherError 1)
  | _ => Raise (OtherError 2)
  end.

(** The environment of a command: the variables that are set. *)
Definition demo_environ (k : str) : option str :=
  if str_eqb k (py "BINANCE_API_KEY") then Some (py " key ")
  else if str_eqb k (py "BINANCE_API_SECRET") then Some (py "s")
  else if str_eqb k (py "BINANCE_BASE_URL") then Some (py "https://example.test/ ")
  else None.

Definition blank_environ (k : str) : option str :=
  if str_eqb k (py "BINANCE_API_KEY") then Some (py "   ")
  else if str_eqb k (py "BINANCE_API_SECRET") then Some (py "s")
  else None.

(** The exception of [if v and float(v) > 0], if it raises one. *)
Definition float_failure (to_float : json -> result float) (v : json) : option exn :=
  if truthy v
  then match to_float v with Raise e => Some e | Ok _ => None end
  else None.

(** The exception that printing a formatted response raises, if it
    raises one: that of [float] on the average price, else on the
    price. *)
Definition printing_failure (to_float : json -> result float)
    (result : list (str * json)) : option exn :=
  match float_failure to_float (default (JStr (py "0")) (dict_get (py "avgPrice") result)) with
  | Some e => Some e
  | None =>
      float_failure to_float (default (JStr (py "0")) (dict_get (py "price") result))
  end.

(** ** The order of requests and sleeps *)

Definition is_log (ev : event) : bool :=
  match ev with Log _ _ => true | _ => false end.

(** The events of a trace that are not log lines: the requests and the
    sleeps, in the order in which they happened. *)
Definition wire (evs : list event) : list event :=
  filter (fun ev => negb (is_log ev)) evs.

(** [n] requests and the pauses between them: the request; then, as
    long as requests remain, a sleep and the request again, each sleep
    twice as long as the one before.  It ends with a request. *)
Fixpoint timeline (rq : event) (pause : Z) (n : nat) : list event :=
  match n with
  | O => []
  | S n' =>
      rq :: match n' with
            | O => []
            | S _ => Sleep pause :: timeline rq (2 * pause) n'
            end
  end.

(** An integer that [str] renders under the default limit of the
    interpreter, 4300 digits: beyond it CPython 3.10.7 and later raise
    [ValueError], which [str_of_Z] leaves out. *)
Definition printable_int (z : Z) : bool := (Z.abs z <? 10 ^ 4300)%Z.

(** A dictionary whose integers are all of that kind. *)
Definition ints_printable (d : pydict) : bool :=
  forallb (fun kv => match kv.2 with VInt z => printable_int z | _ => true end) d.

(** * Properties *)

(** ** Strings *)

(** Decide every comparison of code points in sight, then arithmetic. *)
Ltac cmp_cases :=
  repeat match goal with
         | |- context [N.leb ?a ?b] => destruct (N.leb_spec a b)
         | |- context [N.ltb ?a ?b] => destruct (N.ltb_spec a b)
         | |- context [N.eqb ?a ?b] => destruct (N.eqb_spec a b)
         | H : context [N.leb ?a ?b] |- _ => destruct (N.leb_spec a b)
         | H : context [N.ltb ?a ?b] |- _ => destruct (N.ltb_spec a b)
         | H : context [N.eqb ?a ?b] |- _ => destruct (N.eqb_spec a b)
         end;
  simpl in *; try reflexivity; try discriminate; try lia.

Lemma Forall_drop_leading (P : N -> Prop) p s :
  Forall P s -> Forall P (drop_leading p s).
Proof.
  induction 1 as [|c s Hc Hs IH]; simpl; [constructor|].
  destruct (p c); [exact IH | constructor; assumption].
Qed.

Lemma Forall_drop_trailing (P : N -> Prop) p s :
  Forall P s -> Forall P (drop_trailing p s).
Proof.
  intros Hs. unfold drop_trailing.
  apply Forall_rev, Forall_drop_leading, Forall_rev, Hs.
Qed.

Lemma ascii_upper_is_ascii c : is_ascii c = true -> is_ascii (ascii_upper c) = true.
Proof. unfold is_ascii, ascii_upper, ascii_islower. intros Hc. cmp_cases. Qed.

Lemma ascii_upper_isalpha c : ascii_isalpha (ascii_upper c) = ascii_isalpha c.
Proof.
  unfold ascii_isalpha, ascii_upper, ascii_isupper, ascii_islower. cmp_cases.
Qed.

Section StrProperties.
Context `{UnicodeData}.

Lemma strip_Forall (P : N -> Prop) s : Forall P s -> Forall P (strip s).
Proof.
  intros Hs. unfold strip, rstrip, lstrip.
  apply Forall_drop_trailing, Forall_drop_leading, Hs.
Qed.

Lemma upper_ascii s :
  Forall (fun c => is_ascii c = true) s -> upper s = map ascii_upper s.
Proof.
  induction 1 as [|c s Hc Hs IH]; [reflexivity|].
  unfold upper in *. simpl. unfold upper_cp at 1. rewrite Hc. simpl.
  f_equal. exact IH.
Qed.

Lemma isalpha_cp_upper c :
  is_ascii c = true -> isalpha_cp (ascii_upper c) = isalpha_cp c.
Proof.
  intros Hc. unfold isalpha_cp.
  rewrite (ascii_upper_is_ascii c Hc), Hc. apply ascii_upper_isalpha.
Qed.

(** On Basic Latin, upper-casing changes neither the length of a string
    nor whether it is made of letters. *)
Lemma isalpha_upper_ascii s :
  Forall (fun c => is_ascii c = true) s -> isalpha (upper s) = isalpha s.
Proof.
  intros Hs. rewrite (upper_ascii s Hs).
  destruct Hs as [|c s Hc Hs]; [reflexivity|].
  unfold isalpha. simpl. rewrite (isalpha_cp_upper c Hc). f_equal.
  induction Hs as [|d s Hd Hs IH]; [reflexivity|].
  simpl. rewrite (isalpha_cp_upper d Hd), IH. reflexivity.
Qed.

(** [isalpha] in words: not empty, and every character a letter. *)
Lemma isalpha_spec s :
  isalpha s = true <-> s <> [] /\ Forall (fun c => isalpha_cp c = true) s.
Proof.
  unfold isalpha. destruct s as [|c s].
  - split; [discriminate | intros [Hne _]; congruence].
  - rewrite forallb_forall, Forall_forall. split.
    + intros Hall. split; [discriminate|]. intros x Hx. apply Hall, list_elem_of_In, Hx.
    + intros [_ Hall] x Hx. apply Hall, list_elem_of_In, Hx.
Qed.
End StrProperties.

(** ** Validators *)

Section ValidatorProperties.
Context `{UnicodeData}.
Import validators.

(** What [validate_symbol] does on every string: the test for letters
    is made on the upper-cased, stripped string. *)
Lemma validate_symbol_spec symbol :
  validate_symbol symbol =
    if isalpha (upper (strip symbol)) then Ok (upper (strip symbol))
    else Raise (ValueError
                  match upper (strip symbol) with
                  | [] => Symbol_cannot_be_empty
                  | u => Symbol_is_invalid u
                  end).
Proof.
  unfold validate_symbol.
  destruct (upper (strip symbol)) as [|c u] eqn:E; [reflexivity|].
  destruct (isalpha (c :: u)); reflexivity.
Qed.

(** C7 (amended).  [validate_symbol s] returns [upper (strip s)] when
    that string is not empty and made of letters only, and raises
    [ValueError] otherwise; for a string [s] of Basic Latin characters
    this is the case exactly when [strip s] is not empty and made of
    letters only, so that on such strings: a non-empty alphabetic
    [strip s] is returned upper-cased, and an empty one or one with a
    character that is not a letter is refused. *)
Theorem validate_symbol_contract (s : str) :
  (isalpha (upper (strip s)) = true ->
     validate_symbol s = Ok (upper (strip s))) /\
  (isalpha (upper (strip s)) = false ->
     exists m, validate_symbol s = Raise (ValueError m)) /\
  (Forall (fun c => is_ascii c = true) s -> symbol_claim s).
Proof.
  unfold symbol_claim.
  rewrite validate_symbol_spec. split; [|split].
  - intros ->. reflexivity.
  - intros ->. eauto.
  - intros Hs.
    rewrite (isalpha_upper_ascii (strip s) (strip_Forall _ s Hs)). split.
    + intros Hok. apply isalpha_spec in Hok. rewrite Hok. reflexivity.
    + intros Hbad.
      destruct (isalpha (strip s)) eqn:E; [|eauto].
      apply isalpha_spec in E. destruct E as [Hne Hall].
      destruct Hbad as [He | Hex]; [contradiction|].
      apply Exists_exists in Hex. destruct Hex as (c & Hc & Hf).
      rewrite Forall_forall in Hall. rewrite (Hall c Hc) in Hf. discriminate.
Qed.

Lemma validate_symbol_raises symbol e :
  validate_symbol symbol = Raise e -> about_symbol e = true.
Proof.
  rewrite validate_symbol_spec.
  destruct (isalpha (upper (strip symbol))); [discriminate|].
  intros [= <-]. destruct (upper (strip symbol)); reflexivity.
Qed.

Lemma validate_side_raises side e :
  validate_side side = Raise e -> about_symbol e = false.
Proof.
  unfold validate_side.
  destruct (negb (member (upper (strip side)) VALID_SIDES)); [|discriminate].
  intros [= <-]. reflexivity.
Qed.

(** C6.  [validate_all] calls the validators in the order symbol, side,
    order type, quantity, price and raises what the first failing one
    raises; when the symbol and the side are both invalid, the exception
    is the one for the symbol and not the one for the side. *)
Theorem validate_all_fail_fast (symbol side order_type quantity : str)
    (price : option str) :
  (forall e, validate_symbol symbol = Raise e ->
     validate_all symbol side order_type quantity price = Raise e) /\
  (forall s e, validate_symbol symbol = Ok s ->
     validate_side side = Raise e ->
     validate_all symbol side order_type quantity price = Raise e) /\
  (forall s d e, validate_symbol symbol = Ok s ->
     validate_side side = Ok d ->
     validate_order_type order_type = Raise e ->
     validate_all symbol side order_type quantity price = Raise e) /\
  (forall s d t e, validate_symbol symbol = Ok s ->
     validate_side side = Ok d ->
     validate_order_type order_type = Ok t ->
     validate_quantity quantity = Raise e ->
     validate_all symbol side order_type quantity price = Raise e) /\
  (forall s d t q e, validate_symbol symbol = Ok s ->
     validate_side side = Ok d ->
     validate_order_type order_type = Ok t ->
     validate_quantity quantity = Ok q ->
     validate_price price t = Raise e ->
     validate_all symbol side order_type quantity price = Raise e) /\
  (forall s d t q p, validate_symbol symbol = Ok s ->
     validate_side side = Ok d ->
     validate_order_type order_type = Ok t ->
     validate_quantity quantity = Ok q ->
     validate_price price t = Ok p ->
     validate_all symbol side order_type quantity price =
       Ok {| v_symbol := s; v_side := d; v_order_type := t;
             v_quantity := q; v_price := p |}) /\
  (forall e1 e2, validate_symbol symbol = Raise e1 ->
     validate_side side = Raise e2 ->
     validate_all symbol side order_type quantity price = Raise e1 /\
     about_symbol e1 = true /\ about_symbol e2 = false).
Proof.
  assert (Ht : forall t, validate_order_type order_type = Ok t ->
                         upper (strip order_type) = t).
  { unfold validate_order_type. intros t.
    destruct (negb _); [discriminate | intros [= <-]; reflexivity]. }
  unfold validate_all.
  repeat split; intros.
  - rewrite H0. reflexivity.
  - rewrite H0, H1. reflexivity.
  - rewrite H0, H1, H2. reflexivity.
  - rewrite H0, H1, H2, H3. reflexivity.
  - rewrite H0, H1, H2, H3, (Ht _ H2), H4. reflexivity.
  - rewrite H0, H1, H2, H3, (Ht _ H2), H4. reflexivity.
  - rewrite H0. reflexivity.
  - eapply validate_symbol_raises; eassumption.
  - eapply validate_side_raises; eassumption.
Qed.
End ValidatorProperties.

Section PriceProperties.
Context `{UnicodeData}.
Import validators.

(** The two branches of [validate_price] that require a price check it
    the same way. *)
Lemma validate_price_required (price : option str) (order_type : str) :
  order_type = py "LIMIT" \/ order_type = py "STOP_MARKET" ->
  match price with
  | None => exists m, validate_price price order_type = Raise (ValueError m)
  | Some s =>
      match Decimal_of_str s with
      | None => exists m, validate_price price order_type = Raise (ValueError m)
      | Some d =>
          if is_nan d
          then validate_price price order_type = Raise InvalidOperation
          else if nonpositive d
               then exists m, validate_price price order_type = Raise (ValueError m)
               else validate_price price order_type = Ok (Some d)
      end
  end.
Proof.
  intros [-> | ->]; unfold validate_price; simpl;
    (destruct price as [s|]; [|eauto]);
    (destruct (Decimal_of_str s) as [d|]; [|eauto]);
    unfold le_zero; destruct (is_nan d); simpl; try reflexivity;
    destruct (nonpositive d); eauto.
Qed.

(** C5 (amended).  For order type MARKET [validate_price] returns no
    price whatever the argument.  For order type LIMIT or STOP_MARKET it
    raises [ValueError] when the price is missing, when it does not parse
    as a decimal, and when it parses to a value that is not a NaN and is
    [<= 0]; when it parses to a value that is not a NaN and is [> 0] it
    returns exactly the parsed decimal, and ["10.5"] yields coefficient
    105 with exponent -1, the number 10.5. *)
Theorem validate_price_contract (price : option str) (order_type : str) :
  (order_type = py "MARKET" -> validate_price price order_type = Ok None) /\
  (order_type = py "LIMIT" \/ order_type = py "STOP_MARKET" ->
     (price = None ->
        exists m, validate_price price order_type = Raise (ValueError m)) /\
     (forall s, price = Some s -> Decimal_of_str s = None ->
        exists m, validate_price price order_type = Raise (ValueError m)) /\
     (forall s d, price = Some s -> Decimal_of_str s = Some d ->
        is_nan d = false -> nonpositive d = true ->
        exists m, validate_price price order_type = Raise (ValueError m)) /\
     (forall s d, price = Some s -> Decimal_of_str s = Some d ->
        is_nan d = false -> nonpositive d = false ->
        validate_price price order_type = Ok (Some d)) /\
     validate_price (Some (py "10.5")) order_type
       = Ok (Some (Finite false 105 (-1))) /\
     Decimal_value (Finite false 105 (-1)) = Some (21 # 2)%Q /\
     (exists m, validate_price (Some (py "0")) order_type = Raise (ValueError m))).
Proof.
  split; [intros ->; reflexivity|].
  intros Hot. pose proof (validate_price_required price order_type Hot) as Hp.
  split; [|split; [|split; [|split; [|split; [|split]]]]].
  - intros ->. exact Hp.
  - intros s -> Hs. rewrite Hs in Hp. exact Hp.
  - intros s d -> Hs Hnan Hle. rewrite Hs, Hnan, Hle in Hp. exact Hp.
  - intros s d -> Hs Hnan Hle. rewrite Hs, Hnan, Hle in Hp. exact Hp.
  - destruct Hot as [-> | ->]; vm_compute; reflexivity.
  - vm_compute. reflexivity.
  - destruct Hot as [-> | ->]; vm_compute; eauto.
Qed.

(** C10.  ["Infinity"] passes [validate_quantity], and [validate_price]
    for LIMIT and STOP_MARKET, which return the infinite decimal; ["NaN"]
    parses, and the comparison with 0 raises [decimal.InvalidOperation],
    which is not a [ValueError]. *)
Theorem non_finite_decimals :
  validate_quantity (py "Infinity") = Ok (Infinity false) /\
  validate_price (Some (py "Infinity")) (py "LIMIT") = Ok (Some (Infinity false)) /\
  validate_price (Some (py "Infinity")) (py "STOP_MARKET")
    = Ok (Some (Infinity false)) /\
  Decimal_of_str (py "NaN") = Some (NaN false false 0) /\
  validate_quantity (py "NaN") = Raise InvalidOperation /\
  validate_price (Some (py "NaN")) (py "LIMIT") = Raise InvalidOperation /\
  validate_price (Some (py "NaN")) (py "STOP_MARKET") = Raise InvalidOperation /\
  (forall m, InvalidOperation <> ValueError m).
Proof.
  repeat split; try (vm_compute; reflexivity). intros m. discriminate.
Qed.
End PriceProperties.

(** *** The validators on concrete inputs *)

(** C7 as stated fails outside Basic Latin: U+01F0 is a letter whose
    upper case, U+004A U+030C, is not made of letters, so the symbol is
    refused; U+0345 is not a letter but its upper case U+0399 is, so the
    symbol is accepted. *)
Lemma symbol_claim_fails :
  ~ @symbol_claim ucd_excerpt [0x1F0] /\
  ~ @symbol_claim ucd_excerpt [0x345].
Proof.
  split; intros [Hok Hbad].
  - assert (E : @validators.validate_symbol ucd_excerpt [0x1F0]
                = Ok (@upper ucd_excerpt (@strip ucd_excerpt [0x1F0]))).
    { apply Hok. split; [discriminate|]. repeat constructor. }
    vm_compute in E. discriminate.
  - destruct Hbad as [m Hm].
    { right. constructor. reflexivity. }
    vm_compute in Hm. discriminate.
Qed.

Lemma validate_symbol_contract_witness :
  @validators.validate_symbol ucd_basic_latin (py " btcusdt ") = Ok (py "BTCUSDT") /\
  (exists m, @validators.validate_symbol ucd_basic_latin (py "btc1") = Raise (ValueError m)) /\
  @symbol_claim ucd_basic_latin (py " btcusdt ").
Proof.
  split; [|split].
  - apply (proj1 (@validate_symbol_contract ucd_basic_latin (py " btcusdt "))).
    vm_compute. reflexivity.
  - apply (proj1 (proj2 (@validate_symbol_contract ucd_basic_latin (py "btc1")))).
    vm_compute. reflexivity.
  - apply (proj2 (proj2 (@validate_symbol_contract ucd_basic_latin (py " btcusdt ")))).
    repeat constructor.
Defined.

Lemma validate_all_fail_fast_witness :
  @validators.validate_all ucd_basic_latin (py "btc-1") (py "hold") (py "limit")
                           (py "1") None
  = Raise (ValueError (Symbol_is_invalid (py "BTC-1"))) /\
  @validators.validate_side ucd_basic_latin (py "hold")
  = Raise (ValueError (Side_is_invalid (py "HOLD"))).
Proof.
  destruct (@validate_all_fail_fast ucd_basic_latin (py "btc-1") (py "hold")
              (py "limit") (py "1") None) as (_ & _ & _ & _ & _ & _ & Hboth).
  destruct (Hboth (ValueError (Symbol_is_invalid (py "BTC-1")))
                  (ValueError (Side_is_invalid (py "HOLD")))) as (Hall & _ & _).
  - vm_compute. reflexivity.
  - vm_compute. reflexivity.
  - split; [exact Hall | vm_compute; reflexivity].
Defined.

(** C5 as stated fails on ["NaN"]: it parses, it is not [<= 0], and it is
    not returned. *)
Lemma price_claim_fails :
  ~ @price_claim ucd_basic_latin (Some (py "NaN")) (py "LIMIT").
Proof.
  intros [_ Hreq]. specialize (Hreq (or_introl eq_refl)).
  vm_compute in Hreq. discriminate.
Qed.

Lemma validate_price_contract_witness :
  @validators.validate_price ucd_basic_latin None (py "MARKET") = Ok None /\
  @validators.validate_price ucd_basic_latin (Some (py "10.5")) (py "STOP_MARKET")
  = Ok (Some (Finite false 105 (-1))) /\
  (exists m, @validators.validate_price ucd_basic_latin (Some (py "-3")) (py "LIMIT")
             = Raise (ValueError m)) /\
  (exists m, @validators.validate_price ucd_basic_latin (Some (py "abc")) (py "LIMIT")
             = Raise (ValueError m)) /\
  (exists m, @validators.validate_price ucd_basic_latin None (py "LIMIT")
             = Raise (ValueError m)).
Proof.
  split; [|split; [|split; [|split]]].
  - apply (proj1 (@validate_price_contract ucd_basic_latin None (py "MARKET"))).
    reflexivity.
  - destruct (proj2 (@validate_price_contract ucd_basic_latin (Some (py "10.5"))
                       (py "STOP_MARKET")) (or_intror eq_refl))
      as (_ & _ & _ & Hret & _).
    apply (Hret (py "10.5")); vm_compute; reflexivity.
  - destruct (proj2 (@validate_price_contract ucd_basic_latin (Some (py "-3"))
                       (py "LIMIT")) (or_introl eq_refl))
      as (_ & _ & Hle & _).
    apply (Hle (py "-3") (Finite true 3 0)); vm_compute; reflexivity.
  - destruct (proj2 (@validate_price_contract ucd_basic_latin (Some (py "abc"))
                       (py "LIMIT")) (or_introl eq_refl))
      as (_ & Hbad & _).
    apply (Hbad (py "abc")); vm_compute; reflexivity.
  - destruct (proj2 (@validate_price_contract ucd_basic_latin None
                       (py "LIMIT")) (or_introl eq_refl))
      as (Hnone & _).
    apply Hnone. reflexivity.
Defined.

(** ** Client: the retry loop *)

Lemma emitted_nil w : emitted [] w = w.
Proof. unfold emitted. rewrite app_nil_r. destruct w; reflexivity. Qed.

Section LoopProperties.
Context `{UnicodeData}.
Variable clock : nat -> Z.
Variable exchange : nat -> reply.
Import client.

Variable self : BinanceClient.
Variables method url endpoint : str.
Variable params : loc.

Local Abbreviation attempts := (attempts exchange self method url endpoint params).
Local Abbreviation rq := (request_of self method url).
Local Abbreviation on_exc := (on_exception exchange self method url endpoint params).
Local Abbreviation failures := (failure_trace exchange self method url).

(** One turn of the loop, by the reply of the exchange. *)
Lemma attempts_step n attempt last w d :
  heap w !! params = Some d ->
  attempts (S n) attempt last w =
    let w1 := sent (rq d) w in
    match exchange (requests_made w) with
    | Fails e => on_exc n attempt e w1
    | Responds sc txt body =>
        let w2 := emitted [Log DEBUG "<- status, body"] w1 in
        match body with
        | Raise e => on_exc n attempt e w2
        | Ok data =>
            if is_error_payload data
            then (Raise (api_error data sc), w2)
            else (Ok data, w2)
        end
    end.
Proof.
  intros Hd. unfold on_exception, backoff.
  cbn [client.attempts]. unfold mbind, M_bind, try_except, fmap, M_fmap.
  unfold attempt_body, mbind, M_bind, session_request. rewrite Hd.
  destruct (exchange (requests_made w)) as [e | sc txt [data | e]]; simpl.
  - destruct e; simpl; try reflexivity;
      destruct (attempt <? max_retries self)%Z; simpl;
      unfold emitted, sent; simpl; rewrite <- ?app_assoc; reflexivity.
  - unfold lift, api_error. simpl.
    destruct (is_error_payload data); reflexivity.
  - destruct e; simpl; try reflexivity;
      destruct (attempt <? max_retries self)%Z; simpl;
      unfold emitted, sent; simpl; rewrite <- ?app_assoc; reflexivity.
Qed.

(** The loop sends requests and never takes one back. *)
Lemma attempts_requests_made n : forall attempt last w,
  (requests_made w <= requests_made (attempts n attempt last w).2)%nat.
Proof.
  induction n as [|n IH]; intros attempt last w; [simpl; lia|].
  destruct (heap w !! params) as [d|] eqn:Hd.
  - rewrite (attempts_step n attempt last w d Hd). cbv zeta. unfold on_exception.
    destruct (exchange (requests_made w)) as [e | sc txt [data | e]].
    + destruct (retryable e); [|simpl; lia].
      etransitivity; [|apply IH]. simpl. lia.
    + destruct (is_error_payload data); simpl; lia.
    + destruct (retryable e); [|simpl; lia].
      etransitivity; [|apply IH]. simpl. lia.
  - cbn [client.attempts]. unfold mbind, M_bind, try_except, fmap, M_fmap.
    unfold attempt_body, mbind, M_bind, session_request. rewrite Hd. simpl. lia.
Qed.

(** An error payload ends the loop at the attempt that receives it,
    whatever the number of attempts left. *)
Lemma attempts_api_error n : forall attempt last w d k r w' sc txt data,
  heap w !! params = Some d ->
  attempts n attempt last w = (r, w') ->
  exchange (requests_made w + k) = Responds sc txt (Ok data) ->
  is_error_payload data = true ->
  (requests_made w + k < requests_made w')%nat ->
  r = Raise (api_error data sc) /\
  requests_made w' = S (requests_made w + k) /\
  exists pre, trace w' = pre ++ [rq d; Log DEBUG "<- status, body"].
Proof.
  induction n as [|n IH]; intros attempt last w d k r w' sc txt data Hd Hrun Hk Herr Hlt.
  { simpl in Hrun. injection Hrun as <- <-. lia. }
  rewrite (attempts_step n attempt last w d Hd) in Hrun. cbv zeta in Hrun.
  destruct k as [|k].
  - rewrite Nat.add_0_r in Hk. rewrite Hk, Herr in Hrun.
    injection Hrun as <- <-. simpl. split; [reflexivity|]. split; [lia|].
    exists (trace w). rewrite <- app_assoc. reflexivity.
  - assert (Hnext : forall e w1,
               heap w1 !! params = Some d ->
               requests_made w1 = S (requests_made w) ->
               on_exc n attempt e w1 = (r, w') ->
               r = Raise (api_error data sc) /\
               requests_made w' = S (requests_made w + S k) /\
               exists pre, trace w' = pre ++ [rq d; Log DEBUG "<- status, body"]).
    { intros e w1 Hd1 Hrm Hon. unfold on_exception in Hon.
      destruct (retryable e).
      - assert (Hk1 : exchange (requests_made (emitted (backoff self attempt e) w1) + k)
                      = Responds sc txt (Ok data)).
        { simpl. rewrite Hrm, <- Hk. f_equal. lia. }
        assert (Hlt1 : (requests_made (emitted (backoff self attempt e) w1) + k
                        < requests_made w')%nat).
        { simpl. rewrite Hrm. lia. }
        destruct (IH _ _ (emitted (backoff self attempt e) w1) d k r w' sc txt data Hd1 Hon Hk1 Herr Hlt1)
          as (Hr & Hrm' & Hpre).
        simpl in Hrm'. rewrite Hrm in Hrm'.
        split; [exact Hr|]. split; [lia | exact Hpre].
      - injection Hon as <- <-. lia. }
    destruct (exchange (requests_made w)) as [e | sc' txt' [data' | e]].
    + eapply Hnext; [| | exact Hrun]; [exact Hd | reflexivity].
    + destruct (is_error_payload data'); injection Hrun as <- <-; simpl in Hlt; lia.
    + eapply Hnext; [| | exact Hrun]; [exact Hd | reflexivity].
Qed.

(** When every attempt fails with a transport-layer exception the loop
    makes all its attempts and raises [ConnectionError] from the last
    failure. *)
Lemma attempts_all_fail n : forall attempt last w d,
  heap w !! params = Some d ->
  (forall i, (i < n)%nat ->
     exists e, transport_failure (exchange (requests_made w + i)) = Some e) ->
  attempts n attempt last w =
    (Raise (ConnectionError url (max_retries self)
              (last_failure exchange n (requests_made w) last)),
     World (heap w) (clock_reads w) (requests_made w + n)
           (trace w ++ failures d n attempt (requests_made w))).
Proof.
  induction n as [|n IH]; intros attempt last w d Hd Hall.
  { simpl. unfold raise. rewrite Nat.add_0_r, app_nil_r. destruct w; reflexivity. }
  rewrite (attempts_step n attempt last w d Hd). cbv zeta.
  destruct (Hall 0%nat ltac:(lia)) as (e & He).
  rewrite Nat.add_0_r in He.
  assert (Hlast : last_failure exchange (S n) (requests_made w) last
                  = last_failure exchange n (S (requests_made w)) e).
  { unfold last_failure. destruct n as [|m].
    - rewrite Nat.add_0_r, He. reflexivity.
    - destruct (Hall (S m) ltac:(lia)) as (e' & He').
      replace (S (requests_made w) + m)%nat with (requests_made w + S m)%nat by lia.
      rewrite He'. reflexivity. }
  assert (Hrest : forall i, (i < n)%nat ->
            exists e', transport_failure (exchange (S (requests_made w) + i)) = Some e').
  { intros i Hi. destruct (Hall (S i) ltac:(lia)) as (e' & He').
    exists e'. rewrite <- He'. f_equal. f_equal. lia. }
  assert (Hgo : forall evs,
            received (exchange (requests_made w)) = evs ->
            on_exc n attempt e (emitted evs (sent (rq d) w)) =
            (Raise (ConnectionError url (max_retries self)
                      (last_failure exchange (S n) (requests_made w) last)),
             World (heap w) (clock_reads w) (requests_made w + S n)
                   (trace w ++ failures d (S n) attempt (requests_made w)))).
  { intros evs Hevs. unfold on_exception.
    assert (Hre : retryable e = true).
    { unfold transport_failure in He.
      destruct (exchange (requests_made w)) as [e0 | sc txt [data | e0]];
        try discriminate; destruct (retryable e0) eqn:E; congruence. }
    rewrite Hre, (IH _ _ _ d) by (simpl; auto).
    rewrite Hlast. cbn [failure_trace]. rewrite Hevs, He. simpl.
    f_equal. f_equal; [lia|]. rewrite <- !app_assoc. reflexivity. }
  unfold transport_failure in He.
  destruct (exchange (requests_made w)) as [e0 | sc txt [data | e0]] eqn:Ex;
    try discriminate.
  - destruct (retryable e0); [|discriminate]. injection He as <-.
    rewrite <- (emitted_nil (sent (rq d) w)). apply Hgo. reflexivity.
  - destruct (retryable e0); [|discriminate]. injection He as <-.
    apply Hgo. reflexivity.
Qed.
End LoopProperties.

(** ** Dictionaries *)

Lemma str_eqb_eq (a b : str) : str_eqb a b = true <-> a = b.
Proof. unfold str_eqb. apply bool_decide_eq_true. Qed.

Lemma str_eqb_refl (a : str) : str_eqb a a = true.
Proof. apply str_eqb_eq. reflexivity. Qed.

Lemma str_eqb_ne (a b : str) : a <> b -> str_eqb a b = false.
Proof. unfold str_eqb. apply bool_decide_eq_false. Qed.

Section DictProperties.
Context {V : Type}.
Implicit Types (d : list (str * V)) (k : str) (v : V).

Lemma dict_get_setitem_eq k v d : dict_get k (dict_setitem k v d) = Some v.
Proof.
  induction d as [|[k' v'] d IH]; simpl.
  - rewrite str_eqb_refl. reflexivity.
  - destruct (str_eqb k' k) eqn:E; simpl; rewrite E; [reflexivity | exact IH].
Qed.

Lemma dict_get_setitem_ne k k' v d :
  k <> k' -> dict_get k (dict_setitem k' v d) = dict_get k d.
Proof.
  intros Hne. induction d as [|[k0 v0] d IH]; simpl.
  - rewrite str_eqb_ne by congruence. reflexivity.
  - destruct (str_eqb k0 k') eqn:E; simpl.
    + apply str_eqb_eq in E. subst k0.
      rewrite str_eqb_ne by congruence. reflexivity.
    + destruct (str_eqb k0 k); [reflexivity | exact IH].
Qed.

(** Assigning to a key the dictionary does not have appends the entry. *)
Lemma dict_setitem_new k v d :
  dict_get k d = None -> dict_setitem k v d = d ++ [(k, v)].
Proof.
  induction d as [|[k' v'] d IH]; simpl; [reflexivity|].
  destruct (str_eqb k' k); [discriminate|].
  intros Hnone. rewrite (IH Hnone). reflexivity.
Qed.

Lemma dict_remove_absent k d : dict_get k d = None -> dict_remove k d = d.
Proof.
  unfold dict_remove.
  induction d as [|[k' v'] d IH]; simpl; [reflexivity|].
  destruct (str_eqb k' k) eqn:E; [discriminate|].
  intros Hnone. rewrite filter_cons. simpl.
  destruct (decide (k' <> k)) as [_|Heq].
  - rewrite (IH Hnone). reflexivity.
  - exfalso. apply Heq. intros ->. rewrite str_eqb_refl in E. discriminate.
Qed.

Lemma dict_remove_appended k v d :
  dict_get k d = None -> dict_remove k (d ++ [(k, v)]) = d.
Proof.
  intros Hnone. unfold dict_remove. rewrite filter_app.
  change (filter (fun kv : str * V => kv.1 <> k) d) with (dict_remove k d).
  rewrite (dict_remove_absent k d Hnone).
  rewrite filter_cons. simpl.
  destruct (decide (k <> k)) as [Hne|_]; [congruence|].
  rewrite filter_nil, app_nil_r. reflexivity.
Qed.
End DictProperties.

(** ** Client: signing *)

Section SigningProperties.
Context `{UnicodeData}.
Variable clock : nat -> Z.
Import client.
Variable self : BinanceClient.

(** [_build_signed_params] on a dictionary [d]: the three assignments in
    the order of the source, on the object itself; when signing raises,
    the first two have been made. *)
Lemma build_signed_params_spec (l : loc) (w : world) (d : pydict) :
  heap w !! l = Some d ->
  _build_signed_params clock self l w =
    let ext := extended (clock (clock_reads w)) d in
    match signature_of (api_secret self) ext with
    | Ok sig =>
        (Ok l, World (<[l := dict_setitem (py "signature") (VStr sig) ext]> (heap w))
                     (S (clock_reads w)) (requests_made w) (trace w))
    | Raise e =>
        (Raise e, World (<[l := ext]> (heap w))
                        (S (clock_reads w)) (requests_made w) (trace w))
    end.
Proof.
  intros Hd. unfold _build_signed_params, _timestamp, _sign, setitem, load.
  unfold mbind, M_bind, mret, M_ret, lift. simpl. rewrite Hd. simpl.
  rewrite lookup_insert_eq. simpl. rewrite lookup_insert_eq. simpl.
  rewrite insert_insert_eq. fold (extended (clock (clock_reads w)) d).
  destruct (signature_of (api_secret self) (extended (clock (clock_reads w)) d));
    simpl; [|reflexivity].
  rewrite lookup_insert_eq. simpl. rewrite insert_insert_eq. reflexivity.
Qed.

(** C4 (amended).  For a dictionary that has no [signature] entry yet,
    [_build_signed_params] sets [timestamp] to the clock's reading and
    [recvWindow] to 5000 and leaves every other entry as it was; then,
    when these entries can be signed, it appends a [signature] entry
    holding the signature of exactly these entries: removing it from the
    result gives back what was signed.  When they cannot be signed (a
    string has no UTF-8 encoding) the exception of the signing is raised
    and the dictionary keeps the two entries set before. *)
Theorem build_signed_params_contract (l : loc) (w : world) (d : pydict) :
  heap w !! l = Some d ->
  dict_get (py "signature") d = None ->
  let ts := clock (clock_reads w) in
  (forall k, k <> py "timestamp" -> k <> py "recvWindow" ->
             dict_get k (extended ts d) = dict_get k d) /\
  (forall sig, signature_of (api_secret self) (extended ts d) = Ok sig ->
     let result := extended ts d ++ [(py "signature", VStr sig)] in
     (exists w', _build_signed_params clock self l w = (Ok l, w') /\
                 heap w' !! l = Some result /\
                 clock_reads w' = S (clock_reads w)) /\
     dict_remove (py "signature") result = extended ts d /\
     signed_params_claim (api_secret self) ts result) /\
  (forall e, signature_of (api_secret self) (extended ts d) = Raise e ->
     exists w', _build_signed_params clock self l w = (Raise e, w') /\
                heap w' !! l = Some (extended ts d)).
Proof.
  intros Hd Hnosig ts.
  assert (Hext : dict_get (py "signature") (extended ts d) = None).
  { unfold extended. rewrite !dict_get_setitem_ne by discriminate. exact Hnosig. }
  split; [|split].
  - intros k Hts Hrw. unfold extended.
    rewrite !dict_get_setitem_ne by assumption. reflexivity.
  - intros sig Hsig result.
    assert (Hrm : dict_remove (py "signature") result = extended ts d).
    { apply dict_remove_appended, Hext. }
    assert (Hres : result = dict_setitem (py "signature") (VStr sig) (extended ts d)).
    { symmetry. apply dict_setitem_new, Hext. }
    split; [|split; [exact Hrm|]].
    + eexists. rewrite (build_signed_params_spec l w d Hd). cbv zeta.
      fold ts. rewrite Hsig. split; [reflexivity|]. simpl.
      rewrite lookup_insert_eq, <- Hres. split; reflexivity.
    + unfold signed_params_claim. rewrite Hrm, Hres.
      rewrite !dict_get_setitem_ne by discriminate.
      unfold extended at 1 2. rewrite dict_get_setitem_ne by discriminate.
      rewrite !dict_get_setitem_eq. split; [reflexivity|]. split; [reflexivity|].
      exists sig. split; [reflexivity | exact Hsig].
  - intros e Hsig. eexists. rewrite (build_signed_params_spec l w d Hd). cbv zeta.
    fold ts. rewrite Hsig. split; [reflexivity|]. simpl. apply lookup_insert_eq.
Qed.
End SigningProperties.

(** ** Client: a whole call of [_request] *)

Lemma requests_app evs evs' : requests (evs ++ evs') = requests evs ++ requests evs'.
Proof. unfold requests. apply filter_app. Qed.

Lemma sleeps_app evs evs' : sleeps (evs ++ evs') = sleeps evs ++ sleeps evs'.
Proof. unfold sleeps. apply omap_app. Qed.

Section RequestProperties.
Context `{UnicodeData}.
Variable clock : nat -> Z.
Variable exchange : nat -> reply.
Import client.

Variable self : BinanceClient.
Variables method endpoint : str.

Local Abbreviation url := (base_url self ++ endpoint).
Local Abbreviation _request := (_request clock exchange self method endpoint).
Local Abbreviation attempts p :=
  (attempts exchange self method url endpoint p).
Local Abbreviation no_attempts := (RuntimeError "No attempts made.").
Local Abbreviation prep := (prepare clock self).

Lemma request_prepare params signed w :
  _request params signed w =
    match prep params signed w with
    | (Ok p, w1) => attempts p (Z.to_nat (max_retries self)) 1%Z no_attempts w1
    | (Raise e, w1) => (Raise e, w1)
    end.
Proof.
  unfold client._request, prepare, mbind, M_bind.
  destruct params as [l|]; [unfold load; destruct (heap w !! l) as [[|kv d]|]|];
    simpl; try reflexivity;
    (destruct signed; [|reflexivity]);
    match goal with
    | |- context [_build_signed_params ?c ?s ?p ?w0] =>
        destruct (_build_signed_params c s p w0) as [[p'|e] w1]; reflexivity
    end.
Qed.

Lemma working_fresh l w d : heap w !! l = Some d -> d = [] -> working l w d <> l.
Proof.
  intros Hd -> Heq. unfold working in Heq.
  pose proof (is_fresh (dom (heap w))) as Hfresh.
  rewrite Heq in Hfresh. apply Hfresh, elem_of_dom. rewrite Hd. eauto.
Qed.

(** Preparing a signed call on the caller's dictionary [d]. *)
Lemma prepare_signed l w d :
  heap w !! l = Some d ->
  prep (Some l) true w =
    let ext := extended (clock (clock_reads w)) d in
    let p := working l w d in
    match signature_of (api_secret self) ext with
    | Ok sig =>
        (Ok p, World (<[p := dict_setitem (py "signature") (VStr sig) ext]> (heap w))
                     (S (clock_reads w)) (requests_made w)
                     (trace w ++ [Log DEBUG "-> method endpoint params"]))
    | Raise e =>
        (Raise e, World (<[p := ext]> (heap w))
                        (S (clock_reads w)) (requests_made w) (trace w))
    end.
Proof.
  intros Hd. unfold prepare. unfold mbind, M_bind. unfold load. rewrite Hd.
  destruct d as [|kv d'].
  - unfold alloc. cbv zeta.
    change (working l w []) with (fresh (dom (heap w))).
    set (p := fresh (dom (heap w))).
    rewrite (build_signed_params_spec clock self p _ []) by apply lookup_insert_eq.
    cbv zeta. simpl.
    destruct (signature_of _ _); rewrite insert_insert_eq; reflexivity.
  - unfold mret at 1, M_ret.
    rewrite (build_signed_params_spec clock self l w (kv :: d') Hd).
    cbv zeta. change (working l w (kv :: d')) with l.
    destruct (signature_of _ _); reflexivity.
Qed.

(** Preparing sends nothing, and when it succeeds the dictionary to send
    exists. *)
Lemma prepare_spec params signed w r w1 :
  prep params signed w = (r, w1) ->
  requests_made w1 = requests_made w /\
  match r with
  | Ok p => exists d, heap w1 !! p = Some d
  | Raise _ => True
  end.
Proof.
  unfold prepare, mbind at 1, M_bind.
  assert (Hfirst : forall r0 w0,
            match params with
            | Some l => d ← load l; match d with [] => alloc [] | _ => mret l end
            | None => alloc []
            end w = (r0, w0) ->
            requests_made w0 = requests_made w /\
            match r0 with
            | Ok p => exists d, heap w0 !! p = Some d
            | Raise _ => True
            end).
  { intros r0 w0. destruct params as [l|].
    - unfold mbind, M_bind, load. destruct (heap w !! l) as [d|] eqn:Hd.
      + destruct d as [|kv d'].
        * unfold alloc. intros [= <- <-]. simpl. split; [reflexivity|].
          rewrite lookup_insert_eq. eauto.
        * unfold mret, M_ret. intros [= <- <-]. split; [reflexivity | eauto].
      + intros [= <- <-]. split; [reflexivity | exact I].
    - unfold alloc. intros [= <- <-]. simpl. split; [reflexivity|].
      rewrite lookup_insert_eq. eauto. }
  intros Hrun.
  destruct (match params with
            | Some l => d ← load l; match d with [] => alloc [] | _ => mret l end
            | None => alloc []
            end w) as [[p|e] w0] eqn:E0.
  - destruct (Hfirst _ _ eq_refl) as (Hrm0 & d0 & Hd0).
    unfold mbind, M_bind in Hrun. destruct signed.
    + rewrite (build_signed_params_spec clock self p w0 d0 Hd0) in Hrun.
      cbv zeta in Hrun.
      destruct (signature_of _ _); injection Hrun as <- <-; simpl.
      * split; [exact Hrm0|]. rewrite lookup_insert_eq. eauto.
      * split; [exact Hrm0 | exact I].
    + unfold mret, M_ret in Hrun. simpl in Hrun. injection Hrun as <- <-. simpl.
      split; [exact Hrm0 | eauto].
  - injection Hrun as <- <-. destruct (Hfirst _ _ eq_refl) as (Hrm0 & _).
    split; [exact Hrm0 | exact I].
Qed.

Local Abbreviation rq d := (request_of self method url d).
Local Abbreviation failures d n attempt first :=
  (failure_trace exchange self method url d n attempt first).

(** The code an error payload carries. *)
Lemma error_payload_code data :
  is_error_payload data = true ->
  exists d code,
    data = JDict d /\ dict_get (py "code") d = Some code /\ ne_200 code = true /\
    api_error data =
      BinanceAPIError code (default (JStr (py "Unknown error")) (dict_get (py "msg") d)).
Proof.
  unfold is_error_payload, api_error, json_get.
  destruct data as [| | | | |l|d]; try discriminate.
  destruct (dict_get (py "code") d) as [code|] eqn:E; [|discriminate].
  intros Hne. exists d, code. simpl. rewrite E. repeat split; assumption.
Qed.

(** C1.  If an attempt of a call of [_request] (the attempt number
    [k + 1], which sends request number [requests_made w + k]) receives
    a response whose JSON body is a dictionary with a [code] entry
    different from 200, the call raises [BinanceAPIError] with that
    code, the message and the HTTP status; that request is the last one
    sent, and the trace ends with it and the logging of its response:
    no sleep, no further attempt.  For the first attempt ([k = 0])
    exactly one request is made. *)
Theorem api_error_not_retried (params : option loc) (signed : bool)
    (w w' : world) (r : result json) (k : nat) (sc : Z) (txt : str) (data : json) :
  _request params signed w = (r, w') ->
  exchange (requests_made w + k) = Responds sc txt (Ok data) ->
  is_error_payload data = true ->
  (requests_made w + k < requests_made w')%nat ->
  (exists d code,
      data = JDict d /\ dict_get (py "code") d = Some code /\ ne_200 code = true /\
      r = Raise (BinanceAPIError code
                   (default (JStr (py "Unknown error")) (dict_get (py "msg") d)) sc)) /\
  requests_made w' = S (requests_made w + k) /\
  (exists pre sent_params,
      trace w' = pre ++ [rq sent_params; Log DEBUG "<- status, body"]).
Proof.
  intros Hrun Hk Herr Hlt. rewrite request_prepare in Hrun.
  destruct (prep params signed w) as [[p|e] w1] eqn:Hprep;
    destruct (prepare_spec _ _ _ _ _ Hprep) as (Hrm & Hd).
  - destruct Hd as (d & Hd). rewrite <- Hrm in Hk, Hlt.
    destruct (attempts_api_error exchange self method url endpoint p _ _ _ _ _ _ _ _ _ _ _
                Hd Hrun Hk Herr Hlt) as (Hr & Hrm' & pre & Hpre).
    destruct (error_payload_code data Herr) as (dd & code & Hdata & Hcode & Hne & Hapi).
    split; [|split].
    + exists dd, code. rewrite Hr, Hapi. repeat split; assumption.
    + rewrite Hrm', Hrm. reflexivity.
    + exists pre, d. exact Hpre.
  - injection Hrun as <- <-. lia.
Qed.

Lemma requests_backoff attempt e : requests (backoff self attempt e) = [].
Proof. unfold backoff. destruct (attempt <? max_retries self)%Z; reflexivity. Qed.

Lemma requests_received r : requests (received r) = [].
Proof. destruct r; reflexivity. Qed.

Lemma sleeps_received r : sleeps (received r) = [].
Proof. destruct r; reflexivity. Qed.

Lemma requests_failure_trace d n : forall attempt first,
  requests (failures d n attempt first) = replicate n (rq d).
Proof.
  induction n as [|n IH]; intros attempt first; [reflexivity|].
  cbn [failure_trace].
  change (rq d :: ?l) with ([rq d] ++ l).
  rewrite !requests_app, requests_received, requests_backoff, IH. reflexivity.
Qed.

(** Sleeps of [n] failing attempts the last of which is attempt number
    [max_retries]: one after each attempt but the last, doubling. *)
Lemma sleeps_failure_trace d n : forall attempt first,
  (attempt + Z.of_nat n - 1 = max_retries self)%Z ->
  sleeps (failures d n attempt first)
  = map (fun i => 2 ^ (attempt - 1 + Z.of_nat i))%Z (seq 0 (n - 1)).
Proof.
  induction n as [|n IH]; intros attempt first Hlast; [reflexivity|].
  cbn [failure_trace].
  change (rq d :: ?l) with ([rq d] ++ l).
  rewrite !sleeps_app, sleeps_received. unfold backoff.
  destruct n as [|m].
  - replace (attempt <? max_retries self)%Z with false
      by (symmetry; apply Z.ltb_ge; lia).
    reflexivity.
  - replace (attempt <? max_retries self)%Z with true
      by (symmetry; apply Z.ltb_lt; lia).
    rewrite IH by lia.
    cbn [sleeps omap app "≫=" option_bind]. simpl.
    rewrite Nat.sub_0_r. change (Z.of_nat 0) with 0%Z.
    rewrite Z.add_0_r. f_equal.
    rewrite <- seq_shift, map_map. apply map_ext. intros i. f_equal. lia.
Qed.

(** C2 (amended).  Take a call of [_request] that gets as far as its
    loop, every attempt of which fails with a transport-layer exception
    (raised by the request or on decoding the response).
    With [max_retries >= 1] exactly [max_retries] requests are sent, each
    failed attempt but the last is followed by a sleep of
    [2 ^ (attempt - 1)] seconds before the next request, and the call
    then raises [ConnectionError] from the exception of the last attempt.
    With [max_retries <= 0] no request is sent and [ConnectionError] is
    raised from the placeholder [RuntimeError("No attempts made.")]. *)
Theorem retry_exhaustion (params : option loc) (signed : bool)
    (w w1 : world) (p : loc) :
  prep params signed w = (Ok p, w1) ->
  (forall i, (i < Z.to_nat (max_retries self))%nat ->
     exists e, transport_failure (exchange (requests_made w + i)) = Some e) ->
  let n := Z.to_nat (max_retries self) in
  exists d evs cause w',
    heap w1 !! p = Some d /\
    _request params signed w
      = (Raise (ConnectionError url (max_retries self) cause), w') /\
    trace w' = trace w1 ++ evs /\
    evs = failures d n 1%Z (requests_made w) /\
    requests evs = replicate n (rq d) /\
    requests_made w' = (requests_made w + n)%nat /\
    sleeps evs = map (fun i => 2 ^ Z.of_nat i)%Z (seq 0 (n - 1)) /\
    ((1 <= max_retries self)%Z ->
       transport_failure (exchange (requests_made w + (n - 1))) = Some cause) /\
    ((max_retries self <= 0)%Z -> cause = no_attempts /\ evs = []).
Proof.
  intros Hprep Hall n.
  destruct (prepare_spec _ _ _ _ _ Hprep) as (Hrm & d & Hd).
  rewrite <- Hrm in Hall.
  exists d, (failures d n 1%Z (requests_made w)),
         (last_failure exchange n (requests_made w) no_attempts).
  eexists. split; [exact Hd|]. split.
  { rewrite request_prepare, Hprep.
    rewrite (attempts_all_fail exchange self method url endpoint p n 1%Z _ w1 d Hd Hall).
    rewrite Hrm. reflexivity. }
  split; [reflexivity|]. split; [reflexivity|].
  split; [apply requests_failure_trace|]. split; [reflexivity|].
  split; [|split].
  - destruct (Z_le_gt_dec (max_retries self) 0) as [Hle|Hgt].
    + subst n. replace (Z.to_nat (max_retries self)) with 0%nat by lia. reflexivity.
    + rewrite sleeps_failure_trace by (subst n; lia).
      apply map_ext. intros i. f_equal.
  - intros Hpos. subst n.
    destruct (Z.to_nat (max_retries self)) as [|m] eqn:En; [lia|].
    destruct (Hall m ltac:(lia)) as (e & He).
    rewrite Hrm in He.
    replace (S m - 1)%nat with m by lia.
    unfold last_failure. rewrite He. reflexivity.
  - intros Hle. subst n.
    replace (Z.to_nat (max_retries self)) with 0%nat by lia.
    split; reflexivity.
Qed.

(** The loop changes neither the heap nor the clock, and every request
    it sends carries the dictionary as it is when the loop starts. *)
Lemma attempts_frame p n : forall attempt last w d,
  heap w !! p = Some d ->
  exists evs,
    (attempts p n attempt last w).2
    = World (heap w) (clock_reads w)
            (requests_made w + length (requests evs)) (trace w ++ evs) /\
    Forall (fun ev => is_request ev = true -> ev = rq d) evs.
Proof.
  induction n as [|n IH]; intros attempt last w d Hd.
  { exists []. simpl. rewrite Nat.add_0_r, app_nil_r. destruct w; split; [reflexivity|constructor]. }
  rewrite (attempts_step exchange self method url endpoint p n attempt last w d Hd).
  cbv zeta.
  assert (Hstop : forall (r : result json) evs,
            Forall (fun ev => is_request ev = true -> ev = rq d) evs ->
            requests evs = [] ->
            exists evs',
              (r, emitted evs (sent (rq d) w)).2
              = World (heap w) (clock_reads w)
                      (requests_made w + length (requests evs')) (trace w ++ evs') /\
              Forall (fun ev => is_request ev = true -> ev = rq d) evs').
  { intros r evs Hevs Hnone. exists (rq d :: evs). split.
    - change (rq d :: evs) with ([rq d] ++ evs).
      rewrite requests_app, Hnone. simpl. unfold emitted, sent. simpl.
      rewrite <- app_assoc. f_equal. lia.
    - constructor; [reflexivity | exact Hevs]. }
  assert (Hnext : forall e evs,
            Forall (fun ev => is_request ev = true -> ev = rq d) evs ->
            requests evs = [] ->
            exists evs',
              (on_exception exchange self method url endpoint p n attempt e
                 (emitted evs (sent (rq d) w))).2
              = World (heap w) (clock_reads w)
                      (requests_made w + length (requests evs')) (trace w ++ evs') /\
              Forall (fun ev => is_request ev = true -> ev = rq d) evs').
  { intros e evs Hevs Hnone. unfold on_exception.
    destruct (retryable e); [|apply Hstop; assumption].
    destruct (IH (attempt + 1)%Z e
                (emitted (backoff self attempt e) (emitted evs (sent (rq d) w))) d Hd)
      as (evs' & Hw' & Hall').
    exists (rq d :: evs ++ backoff self attempt e ++ evs'). split.
    - assert (Hreq : requests (rq d :: evs ++ backoff self attempt e ++ evs')
                     = rq d :: requests evs').
      { change (rq d :: ?l) with ([rq d] ++ l).
        rewrite !requests_app, Hnone, requests_backoff. reflexivity. }
      rewrite Hw', Hreq. unfold emitted, sent.
      cbn [heap clock_reads requests_made trace length].
      rewrite <- !app_assoc. f_equal. lia.
    - constructor; [reflexivity|].
      apply Forall_app. split; [exact Hevs|].
      apply Forall_app. split; [|exact Hall'].
      unfold backoff. destruct (attempt <? max_retries self)%Z;
        repeat constructor; discriminate. }
  destruct (exchange (requests_made w)) as [e | sc txt [data | e]].
  - rewrite <- (emitted_nil (sent (rq d) w)).
    apply (Hnext e []); [constructor | reflexivity].
  - destruct (is_error_payload data);
      apply (Hstop _ [Log DEBUG "<- status, body"]);
      try reflexivity; repeat constructor; discriminate.
  - apply (Hnext e [Log DEBUG "<- status, body"]);
      try reflexivity; repeat constructor; discriminate.
Qed.

(** A signed call that can sign its parameters: the dictionary worked on
    ends up signed, and every request carries it. *)
Lemma signed_request_sends (l : loc) (w w' : world) (d : pydict) (r : result json)
    (sig : str) :
  heap w !! l = Some d ->
  _request (Some l) true w = (r, w') ->
  signature_of (api_secret self) (extended (clock (clock_reads w)) d) = Ok sig ->
  clock_reads w' = S (clock_reads w) /\
  heap w' = <[working l w d :=
                dict_setitem (py "signature") (VStr sig)
                  (extended (clock (clock_reads w)) d)]> (heap w) /\
  exists evs,
    trace w' = trace w ++ Log DEBUG "-> method endpoint params" :: evs /\
    Forall (fun ev => is_request ev = true ->
              ev = rq (dict_setitem (py "signature") (VStr sig)
                         (extended (clock (clock_reads w)) d))) evs.
Proof.
  intros Hd Hrun Hsig.
  rewrite request_prepare, (prepare_signed l w d Hd) in Hrun. cbv zeta in Hrun.
  rewrite Hsig in Hrun.
  set (p := working l w d) in *.
  set (sd := dict_setitem (py "signature") (VStr sig)
               (extended (clock (clock_reads w)) d)) in *.
  set (w1 := World (<[p := sd]> (heap w)) (S (clock_reads w)) (requests_made w)
                   (trace w ++ [Log DEBUG "-> method endpoint params"])) in *.
  assert (Hsd : heap w1 !! p = Some sd) by apply lookup_insert_eq.
  destruct (attempts_frame p (Z.to_nat (max_retries self)) 1%Z no_attempts w1 sd Hsd)
    as (evs & Hw' & Hall).
  rewrite Hrun in Hw'. simpl in Hw'. subst w'. simpl.
  split; [reflexivity|]. split; [reflexivity|].
  exists evs. rewrite <- app_assoc. split; [reflexivity | exact Hall].
Qed.

(** C9 (amended).  In a signed call of [_request] on the caller's
    dictionary [d] the clock is read once, and [timestamp], [recvWindow]
    and [signature] are set once, before the loop: every request of the
    call, first attempt or retry, carries the same signed dictionary.
    The three entries are written into the caller's dictionary itself
    when it is not empty; an empty one is left as it is and a new
    dictionary is signed and sent in its place.  When signing raises,
    the call raises the same exception and nothing is sent. *)
Theorem signed_call_frame (l : loc) (w w' : world) (d : pydict) (r : result json) :
  heap w !! l = Some d ->
  _request (Some l) true w = (r, w') ->
  let ts := clock (clock_reads w) in
  let p := working l w d in
  clock_reads w' = S (clock_reads w) /\
  (d <> [] -> p = l) /\
  (d = [] -> p <> l /\ heap w' !! l = Some []) /\
  match signature_of (api_secret self) (extended ts d) with
  | Ok sig =>
      let sent_params := dict_setitem (py "signature") (VStr sig) (extended ts d) in
      heap w' = <[p := sent_params]> (heap w) /\
      exists evs,
        trace w' = trace w ++ Log DEBUG "-> method endpoint params" :: evs /\
        Forall (fun ev => is_request ev = true -> ev = rq sent_params) evs
  | Raise e =>
      r = Raise e /\ trace w' = trace w /\ requests_made w' = requests_made w
  end.
Proof.
  intros Hd Hrun ts p.
  assert (Hp : d = [] -> p <> l) by (apply working_fresh; exact Hd).
  assert (Hnonempty : d <> [] -> p = l).
  { intros Hne. subst p. destruct d; [congruence | reflexivity]. }
  assert (Hkept : forall h v, heap w' = <[p := v]> h -> h = heap w ->
                              d = [] -> p <> l /\ heap w' !! l = Some []).
  { intros h v Hh -> He. split; [exact (Hp He)|].
    rewrite Hh, lookup_insert_ne by exact (Hp He). subst d. exact Hd. }
  destruct (signature_of (api_secret self) (extended ts d)) as [sig|e] eqn:Hsig.
  - destruct (signed_request_sends l w w' d r sig Hd Hrun Hsig)
      as (Hclock & Hheap & Hevs).
    split; [exact Hclock|]. split; [exact Hnonempty|].
    split; [exact (Hkept _ _ Hheap eq_refl)|].
    split; [exact Hheap | exact Hevs].
  - rewrite request_prepare, (prepare_signed l w d Hd) in Hrun. cbv zeta in Hrun.
    fold ts p in Hrun. rewrite Hsig in Hrun. injection Hrun as <- <-. simpl.
    split; [reflexivity|]. split; [exact Hnonempty|].
    split; [|repeat split].
    intros He. split; [exact (Hp He)|].
    rewrite lookup_insert_ne by exact (Hp He). subst d. exact Hd.
Qed.
End RequestProperties.

(** ** Client: the signature *)

Lemma hex_digit_lower n : n < 16 -> is_lower_hex (hmac.hex_digit n) = true.
Proof. intros Hn. unfold is_lower_hex, hmac.hex_digit, ascii_isdigit. cmp_cases. Qed.

Lemma hex_spec bs :
  Forall (fun b => b < 256) bs ->
  length (hmac.hex bs) = (2 * length bs)%nat /\
  Forall (fun c => is_lower_hex c = true) (hmac.hex bs).
Proof.
  induction 1 as [|b bs Hb Hbs [IHlen IHall]]; [split; [reflexivity | constructor]|].
  unfold hmac.hex in *. simpl. split; [rewrite IHlen; lia|].
  constructor; [|constructor; [|exact IHall]]; apply hex_digit_lower.
  - apply N.Div0.div_lt_upper_bound. lia.
  - apply N.mod_lt. discriminate.
Qed.

Lemma round_length st kw : length (sha256.round st kw) = length st.
Proof.
  unfold sha256.round.
  destruct st as [|a [|b [|c [|d [|e [|f [|g [|h [|i st]]]]]]]]]; reflexivity.
Qed.

Lemma compress_length h block : length (sha256.compress h block) = length h.
Proof.
  unfold sha256.compress. rewrite length_zip_with.
  assert (Hfold : forall l st, length (fold_left sha256.round l st) = length st).
  { induction l as [|kw l IH]; intros st; [reflexivity|].
    simpl. rewrite IH. apply round_length. }
  rewrite Hfold. lia.
Qed.

Lemma absorb_length n : forall h bs, length (sha256.absorb n h bs) = length h.
Proof.
  induction n as [|n IH]; intros h bs; [reflexivity|].
  simpl. rewrite IH. apply compress_length.
Qed.

(** A digest is 32 bytes. *)
Lemma digest_spec msg :
  length (sha256.digest msg) = 32%nat /\
  Forall (fun b => b < 256) (sha256.digest msg).
Proof.
  unfold sha256.digest.
  set (hs := sha256.absorb _ _ _).
  assert (Hlen : length hs = 8%nat) by (subst hs; rewrite absorb_length; reflexivity).
  clearbody hs. split.
  - destruct hs as [|a [|b [|c [|d [|e [|f [|g [|h [|i hs]]]]]]]]]; try discriminate.
    reflexivity.
  - clear Hlen. induction hs as [|x hs IH]; [constructor|].
    simpl. repeat (constructor; [apply N.mod_lt; discriminate|]). exact IH.
Qed.

(** A signature is 64 lower-case hexadecimal digits. *)
Lemma hexdigest_spec key msg :
  length (hmac.hexdigest key msg) = 64%nat /\
  Forall (fun c => is_lower_hex c = true) (hmac.hexdigest key msg).
Proof.
  unfold hmac.hexdigest, hmac.digest.
  match goal with
  | |- context [hmac.hex (sha256.digest ?m)] =>
      destruct (digest_spec m) as [Hlen Hbytes];
      destruct (hex_spec _ Hbytes) as [Hhl Hha]
  end.
  split; [rewrite Hhl, Hlen; reflexivity | exact Hha].
Qed.

Lemma quote_plus_raises s e : urllib.quote_plus s = Raise e -> e = UnicodeEncodeError.
Proof.
  unfold urllib.quote_plus, encode_utf8. destruct (utf8 s); simpl; congruence.
Qed.

Lemma urlencode_raises d e : urllib.urlencode d = Raise e -> e = UnicodeEncodeError.
Proof.
  unfold urllib.urlencode.
  assert (Hitems : forall d e, urllib.encode_items d = Raise e -> e = UnicodeEncodeError).
  { clear. induction d as [|[k v] d IH]; intros e; simpl; [discriminate|].
    destruct (urllib.quote_plus k) as [k'|ek] eqn:Ek; simpl.
    - destruct (urllib.quote_plus (str_of_pyval v)) as [v'|ev] eqn:Ev; simpl.
      + destruct (urllib.encode_items d) as [rest|er]; simpl; [discriminate|].
        intros [= <-]. apply (IH er). reflexivity.
      + intros [= <-]. apply (quote_plus_raises _ _ Ev).
    - intros [= <-]. apply (quote_plus_raises _ _ Ek). }
  destruct (urllib.encode_items d) as [items|e'] eqn:E; simpl; [discriminate|].
  intros [= <-]. apply (Hitems d e' E).
Qed.

Section SignProperties.
Context `{UnicodeData}.
Import client.
Variable self : BinanceClient.

Lemma signature_of_spec (d : pydict) :
  signature_of (api_secret self) d =
    match sign_spec (api_secret self) d with
    | Some sig => Ok sig
    | None => Raise UnicodeEncodeError
    end.
Proof.
  unfold signature_of, sign_spec, encode_utf8, hmac.hexdigest.
  destruct (urllib.urlencode d) as [q|e] eqn:Eq; simpl.
  - destruct (utf8 (api_secret self)); simpl; [|reflexivity].
    destruct (utf8 q); reflexivity.
  - rewrite (urlencode_raises d e Eq).
    destruct (utf8 (api_secret self)); reflexivity.
Qed.

(** C3.  [_sign] is deterministic: run on dictionaries with the same
    entries in the same order, in whatever worlds, it returns the same
    result and changes nothing; the result is the lower-case hexadecimal
    digest (64 digits) of HMAC-SHA256, keyed by the UTF-8 bytes of the
    secret, over the UTF-8 bytes of the URL-encoded parameters. *)
Theorem sign_deterministic (l1 l2 : loc) (w1 w2 : world) (d : pydict) :
  heap w1 !! l1 = Some d ->
  heap w2 !! l2 = Some d ->
  let r := match sign_spec (api_secret self) d with
           | Some sig => Ok sig
           | None => Raise UnicodeEncodeError
           end in
  _sign self l1 w1 = (r, w1) /\
  _sign self l2 w2 = (r, w2) /\
  (forall sig, r = Ok sig ->
     length sig = 64%nat /\ Forall (fun c => is_lower_hex c = true) sig).
Proof.
  intros H1 H2 r.
  assert (Hrun : forall l w, heap w !! l = Some d -> _sign self l w = (r, w)).
  { intros l w Hl. unfold _sign, load, mbind, M_bind, lift. rewrite Hl.
    rewrite signature_of_spec. reflexivity. }
  split; [apply Hrun, H1|]. split; [apply Hrun, H2|].
  intros sig Hsig. subst r. unfold sign_spec in Hsig.
  destruct (utf8 (api_secret self)) as [key|]; [|discriminate].
  destruct (urllib.urlencode d) as [q|e]; [|discriminate].
  destruct (utf8 q) as [msg|]; [|discriminate].
  injection Hsig as <-. apply hexdigest_spec.
Qed.
End SignProperties.

(** ** Client: the fields of an order *)

Section OrderProperties.
Import client.

(** The dictionary [place_order] builds has [price] and
    [timeInForce] exactly when the order type is LIMIT ([timeInForce]
    being ["GTC"] when none is given), [stopPrice] exactly when it is
    STOP_MARKET, [reduceOnly] exactly when the flag is set, and always
    [symbol], [side], [type], [quantity] and [positionSide]. *)
Lemma order_params_fields (symbol side order_type quantity : str)
    (price time_in_force stop_price : option str) (reduce_only : bool)
    (position_side : str) :
  let d := order_params symbol side order_type quantity price time_in_force
                        stop_price reduce_only position_side in
  (dict_get (py "price") d
     = if str_eqb order_type (py "LIMIT") then Some (of_optional price) else None) /\
  (dict_get (py "timeInForce") d
     = if str_eqb order_type (py "LIMIT")
       then Some (VStr (str_or time_in_force (py "GTC"))) else None) /\
  str_or None (py "GTC") = py "GTC" /\
  (dict_get (py "stopPrice") d
     = if str_eqb order_type (py "STOP_MARKET")
       then Some (of_optional stop_price) else None) /\
  (dict_get (py "reduceOnly") d
     = if reduce_only then Some (VStr (py "true")) else None) /\
  dict_get (py "symbol") d = Some (VStr symbol) /\
  dict_get (py "side") d = Some (VStr side) /\
  dict_get (py "type") d = Some (VStr order_type) /\
  dict_get (py "quantity") d = Some (VStr quantity) /\
  dict_get (py "positionSide") d = Some (VStr position_side).
Proof.
  unfold order_params.
  destruct (str_eqb order_type (py "LIMIT"));
    destruct (str_eqb order_type (py "STOP_MARKET"));
    destruct reduce_only; repeat split; reflexivity.
Qed.
End OrderProperties.

Section PlaceOrderProperties.
Context `{UnicodeData}.
Variable clock : nat -> Z.
Variable exchange : nat -> reply.
Import client.
Variable self : BinanceClient.

Lemma order_params_nonempty symbol side order_type quantity price time_in_force
    stop_price reduce_only position_side :
  order_params symbol side order_type quantity price time_in_force stop_price
               reduce_only position_side <> [].
Proof.
  unfold order_params.
  destruct (str_eqb order_type (py "LIMIT"));
    destruct (str_eqb order_type (py "STOP_MARKET"));
    destruct reduce_only; discriminate.
Qed.

(** X6.  What [place_order] puts on the wire: every request it sends, first
    attempt or retry, is a POST to the order endpoint whose body is the
    dictionary of [order_params] with [timestamp], [recvWindow] and
    [signature] added. *)
Lemma place_order_requests (symbol side order_type quantity : str)
    (price time_in_force stop_price : option str) (reduce_only : bool)
    (position_side : str) (w w' : world) (r : result json) (sig : str) :
  place_order clock exchange self symbol side order_type quantity price
              time_in_force stop_price reduce_only position_side w = (r, w') ->
  signature_of (api_secret self)
    (extended (clock (clock_reads w))
       (order_params symbol side order_type quantity price time_in_force
                     stop_price reduce_only position_side)) = Ok sig ->
  exists evs,
    trace w' = trace w ++ evs /\
    Forall (fun ev => is_request ev = true ->
              ev = Request (py "POST") (base_url self ++ py "/fapi/v1/order") false
                     (dict_setitem (py "signature") (VStr sig)
                        (extended (clock (clock_reads w))
                           (order_params symbol side order_type quantity price
                              time_in_force stop_price reduce_only position_side)))
                     (timeout self)) evs.
Proof.
  set (d := order_params symbol side order_type quantity price time_in_force
                         stop_price reduce_only position_side).
  intros Hrun Hsig.
  unfold place_order, mbind, M_bind, alloc, log, emit in Hrun. fold d in Hrun.
  set (p := fresh (dom (heap w))) in *.
  match type of Hrun with
  | context [_request _ _ _ _ _ _ _ ?x] => set (w0 := x) in *
  end.
  destruct (_request clock exchange self (py "POST") (py "/fapi/v1/order")
                     (Some p) true w0) as [r1 w1] eqn:Hreq.
  assert (Hd : heap w0 !! p = Some d) by apply lookup_insert_eq.
  destruct (signed_request_sends clock exchange self (py "POST") (py "/fapi/v1/order")
              p w0 w1 d r1 sig Hd Hreq Hsig) as (_ & _ & evs & Htrace & Hall).
  change (clock_reads w0) with (clock_reads w) in Hall.
  assert (Hmore : forall more,
            Forall (fun ev => is_request ev = true -> False) more ->
            exists evs',
              trace w1 ++ more = trace w ++ evs' /\
              Forall (fun ev => is_request ev = true ->
                        ev = Request (py "POST") (base_url self ++ py "/fapi/v1/order")
                               false
                               (dict_setitem (py "signature") (VStr sig)
                                  (extended (clock (clock_reads w)) d))
                               (timeout self)) evs').
  { intros more Hnone.
    exists (Log INFO "Placing order" :: Log DEBUG "-> method endpoint params"
              :: evs ++ more).
    split.
    - rewrite Htrace. simpl. rewrite <- !app_assoc. reflexivity.
    - constructor; [discriminate|]. constructor; [discriminate|].
      apply Forall_app. split.
      + exact Hall.
      + eapply Forall_impl; [exact Hnone|]. intros ev Hev Hreq'. destruct (Hev Hreq'). }
  destruct r1 as [response|e].
  - unfold get_of, raise, mret, M_ret in Hrun.
    destruct response; simpl in Hrun; injection Hrun as <- <-;
      try (rewrite <- (app_nil_r (trace w1)); apply Hmore; constructor).
    simpl. apply Hmore. repeat constructor. discriminate.
  - injection Hrun as <- <-. rewrite <- (app_nil_r (trace w1)).
    apply Hmore. constructor.
Qed.
End PlaceOrderProperties.

(** ** The client on concrete runs *)

Lemma api_error_not_retried_witness :
  (demo_request demo_client rejecting None false empty_world).1
  = Raise (BinanceAPIError (JInt (-1121)) (JStr (py "Invalid symbol.")) 400) /\
  requests_made (demo_request demo_client rejecting None false empty_world).2 = 1%nat.
Proof.
  pose (run := demo_request demo_client rejecting None false empty_world).
  destruct (@api_error_not_retried ucd_basic_latin demo_clock rejecting demo_client
              (py "GET") (py "/fapi/v1/openOrders") None false empty_world
              run.2 run.1 0%nat 400 (py "{...}")
              (JDict [(py "code", JInt (-1121)); (py "msg", JStr (py "Invalid symbol."))]))
    as ((d & code & Hdata & Hcode & _ & Hr) & Hrm & _).
  - apply surjective_pairing.
  - reflexivity.
  - reflexivity.
  - vm_compute. lia.
  - injection Hdata as <-. injection Hcode as <-.
    split; [exact Hr | exact Hrm].
Defined.

(** The preparation of the unsigned demo call. *)
Lemma demo_prepare :
  prepare demo_clock demo_client None false empty_world
  = (Ok 0%nat, World {[ 0%nat := [] ]} 0 0 [Log DEBUG "-> method endpoint params"]).
Proof. vm_compute. reflexivity. Qed.

Lemma retry_exhaustion_witness :
  exists w',
    demo_request demo_client unreachable None false empty_world
    = (Raise (ConnectionError (py "https://testnet.binancefuture.com/fapi/v1/openOrders")
                3 (RequestsConnectionError 2)), w') /\
    requests_made w' = 3%nat /\
    sleeps (trace w') = [1; 2]%Z.
Proof.
  destruct (@retry_exhaustion ucd_basic_latin demo_clock unreachable demo_client
              (py "GET") (py "/fapi/v1/openOrders") None false empty_world _ _
              demo_prepare)
    as (d & evs & cause & w' & Hd & Hrun & Htr & Hevs & _ & Hrm & Hsl & Hlast & _).
  - intros i _. exists (RequestsConnectionError (N.of_nat (0 + i))).
    reflexivity.
  - specialize (Hlast ltac:(vm_compute; discriminate)).
    injection Hlast as <-.
    exists w'. split; [exact Hrun|]. split; [exact Hrm|].
    rewrite Htr, sleeps_app, Hsl. reflexivity.
Defined.

(** C2 as stated fails for [max_retries = 0]: no request is sent, and the
    [ConnectionError] raised is not from a transport exception but from
    the placeholder [RuntimeError]. *)
Lemma exhaustion_claim_fails :
  ~ exhaustion_claim idle_client
      (py "https://testnet.binancefuture.com/fapi/v1/openOrders")
      unreachable empty_world
      (demo_request idle_client unreachable None false empty_world).
Proof.
  intros Hclaim. destruct Hclaim as (_ & cause & Hout & Hre).
  - intros i Hi. vm_compute in Hi. lia.
  - vm_compute in Hout. injection Hout as <-. discriminate.
Qed.

(** The example of the exchange's API documentation. *)
Example documented_signature :
  client.signature_of
    (py "NhqPtmdSJYdKjVHjA7PZj4Mge3R5YNiP1e3UZjInClVN65XAbvqqM6A7H5fATj0j")
    [(py "symbol", VStr (py "LTCBTC")); (py "side", VStr (py "BUY"));
     (py "type", VStr (py "LIMIT")); (py "timeInForce", VStr (py "GTC"));
     (py "quantity", VInt 1); (py "price", VStr (py "0.1"));
     (py "recvWindow", VInt 5000); (py "timestamp", VInt 1499827319559)]
  = Ok (py "c8db56825ae71d6d79447849e617115f4a920fa2acdcab2b053c4b2838bd6b71").
Proof. vm_compute. reflexivity. Qed.

Lemma sign_deterministic_witness :
  client._sign demo_client 0%nat (world_with (extended 1000 demo_params))
  = (Ok demo_signature, world_with (extended 1000 demo_params)) /\
  client._sign demo_client 7%nat
    (World {[ 7%nat := extended 1000 demo_params ]} 3 2 [Sleep 1])
  = (Ok demo_signature,
     World {[ 7%nat := extended 1000 demo_params ]} 3 2 [Sleep 1]) /\
  length demo_signature = 64%nat.
Proof.
  destruct (sign_deterministic demo_client 0%nat 7%nat
              (world_with (extended 1000 demo_params))
              (World {[ 7%nat := extended 1000 demo_params ]} 3 2 [Sleep 1])
              (extended 1000 demo_params))
    as (H1 & H2 & Hfmt).
  - reflexivity.
  - reflexivity.
  - split; [exact H1|]. split; [exact H2|].
    apply (Hfmt demo_signature). vm_compute. reflexivity.
Defined.

Lemma build_signed_params_contract_witness :
  exists w',
    client._build_signed_params demo_clock demo_client 0%nat (world_with demo_params)
    = (Ok 0%nat, w') /\
    heap w' !! 0%nat = Some demo_signed /\
    signed_params_claim (py "s") 1000 demo_signed.
Proof.
  destruct (build_signed_params_contract demo_clock demo_client 0%nat
              (world_with demo_params) demo_params eq_refl eq_refl)
    as (_ & Hsigned & _).
  destruct (Hsigned demo_signature) as ((w' & Hrun & Hheap & _) & _ & Hclaim).
  - vm_compute. reflexivity.
  - exists w'. split; [exact Hrun|]. split; [exact Hheap | exact Hclaim].
Defined.

(** C4 as stated fails on a dictionary that already has a [signature]
    entry, such as one signed before: the old entry is signed with the
    rest, so the new signature is not the one of the other entries. *)
Lemma signed_params_claim_fails :
  exists result,
    heap (client._build_signed_params demo_clock demo_client 0%nat
            (world_with [(py "signature", VStr (py "abc"))])).2 !! 0%nat
    = Some result /\
    ~ signed_params_claim (py "s") 1000 result.
Proof.
  eexists. split; [vm_compute; reflexivity|].
  intros (_ & _ & sig & Hget & Hsig).
  vm_compute in Hget. injection Hget as <-.
  vm_compute in Hsig. discriminate.
Qed.

Lemma signed_call_frame_witness :
  clock_reads (demo_request demo_client flaky (Some 0%nat) true
                 (world_with demo_params)).2 = 1%nat /\
  heap (demo_request demo_client flaky (Some 0%nat) true
          (world_with demo_params)).2 !! 0%nat = Some demo_signed /\
  exists evs,
    trace (demo_request demo_client flaky (Some 0%nat) true (world_with demo_params)).2
    = Log DEBUG "-> method endpoint params" :: evs /\
    Forall (fun ev => is_request ev = true ->
              ev = Request (py "GET")
                     (py "https://testnet.binancefuture.com/fapi/v1/openOrders")
                     true demo_signed 10) evs /\
    length (requests evs) = 3%nat.
Proof.
  pose proof (@signed_call_frame ucd_basic_latin demo_clock flaky demo_client
                (py "GET") (py "/fapi/v1/openOrders") 0%nat (world_with demo_params)
                (demo_request demo_client flaky (Some 0%nat) true
                   (world_with demo_params)).2
                demo_params
                (demo_request demo_client flaky (Some 0%nat) true
                   (world_with demo_params)).1
                eq_refl (surjective_pairing _)) as Hframe.
  cbv zeta in Hframe. destruct Hframe as (Hclock & _ & _ & Hsigned).
  assert (Hsig : client.signature_of (client.api_secret demo_client)
                   (extended (demo_clock (clock_reads (world_with demo_params)))
                             demo_params) = Ok demo_signature)
    by (vm_compute; reflexivity).
  rewrite Hsig in Hsigned. destruct Hsigned as (Hheap & evs & Htrace & Hall).
  split; [exact Hclock|]. split.
  - rewrite Hheap. apply lookup_insert_eq.
  - exists evs. split; [exact Htrace|]. split; [exact Hall|].
    assert (Hevs : Log DEBUG "-> method endpoint params" :: evs
                   = trace (demo_request demo_client flaky (Some 0%nat) true
                              (world_with demo_params)).2)
      by (symmetry; exact Htrace).
    vm_compute in Hevs. injection Hevs as ->. vm_compute. reflexivity.
Defined.

(** C9 as stated fails when the caller's dictionary is empty: it is
    still empty after the call.  So it is for the dictionary that
    [get_open_orders] creates (at location 0 of the empty world) when no
    symbol is given. *)
Lemma empty_params_not_mutated :
  ~ mutated_in_place 0%nat
      (demo_request demo_client accepting (Some 0%nat) true (world_with [])).2 /\
  ~ mutated_in_place 0%nat
      (@client.get_open_orders ucd_basic_latin demo_clock accepting demo_client
         None empty_world).2.
Proof.
  split; intros (d' & Hd' & Hts & _);
    vm_compute in Hd'; injection Hd' as <-; vm_compute in Hts; discriminate.
Qed.

(** ** Client: the loop under any exchange *)

Section ScheduleProperties.
Context `{UnicodeData}.
Variable exchange : nat -> reply.
Import client.

Variable self : BinanceClient.
Variables method url endpoint : str.
Variable params : loc.

Local Abbreviation attempts := (attempts exchange self method url endpoint params).
Local Abbreviation rq := (request_of self method url).
Local Abbreviation on_exc := (on_exception exchange self method url endpoint params).
Local Abbreviation failures := (failure_trace exchange self method url).

(** After [k] attempts that fail with a transport-layer exception the loop
    is where it would be had it started there. *)
Lemma attempts_skip k : forall n attempt last w d,
  heap w !! params = Some d ->
  (forall i, (i < k)%nat ->
     exists e, transport_failure (exchange (requests_made w + i)) = Some e) ->
  attempts (k + n) attempt last w =
  attempts n (attempt + Z.of_nat k)%Z (last_failure exchange k (requests_made w) last)
    (World (heap w) (clock_reads w) (requests_made w + k)
           (trace w ++ failures d k attempt (requests_made w))).
Proof.
  induction k as [|k IH]; intros n attempt last w d Hd Hall.
  { cbn [failure_trace last_failure Nat.add]. rewrite Z.add_0_r, Nat.add_0_r, app_nil_r.
    destruct w; reflexivity. }
  change (S k + n)%nat with (S (k + n)).
  rewrite (attempts_step exchange self method url endpoint params (k + n) attempt last w d Hd).
  cbv zeta.
  destruct (Hall 0%nat ltac:(lia)) as (e & He).
  rewrite Nat.add_0_r in He.
  assert (Hlast : last_failure exchange (S k) (requests_made w) last
                  = last_failure exchange k (S (requests_made w)) e).
  { unfold last_failure. destruct k as [|m].
    - rewrite Nat.add_0_r, He. reflexivity.
    - destruct (Hall (S m) ltac:(lia)) as (e' & He').
      replace (S (requests_made w) + m)%nat with (requests_made w + S m)%nat by lia.
      rewrite He'. reflexivity. }
  assert (Hgo : forall evs,
            received (exchange (requests_made w)) = evs ->
            on_exc (k + n) attempt e (emitted evs (sent (rq d) w)) =
            attempts n (attempt + Z.of_nat (S k))%Z
              (last_failure exchange (S k) (requests_made w) last)
              (World (heap w) (clock_reads w) (requests_made w + S k)
                     (trace w ++ failures d (S k) attempt (requests_made w)))).
  { intros evs Hevs. unfold on_exception.
    assert (Hre : retryable e = true).
    { unfold transport_failure in He.
      destruct (exchange (requests_made w)) as [e0 | sc txt [data | e0]];
        try discriminate; destruct (retryable e0) eqn:E; congruence. }
    rewrite Hre, (IH _ _ _ _ d).
    - rewrite Hlast. cbn [failure_trace]. rewrite Hevs, He. simpl.
      f_equal; [lia|]. f_equal; [lia|]. rewrite <- !app_assoc. reflexivity.
    - exact Hd.
    - intros i Hi. destruct (Hall (S i) ltac:(lia)) as (e' & He').
      exists e'. rewrite <- He'. simpl. f_equal. f_equal. lia. }
  unfold transport_failure in He.
  destruct (exchange (requests_made w)) as [e0 | sc txt [data | e0]] eqn:Ex;
    try discriminate.
  - destruct (retryable e0); [|discriminate]. injection He as <-.
    rewrite <- (emitted_nil (sent (rq d) w)). apply Hgo. reflexivity.
  - destruct (retryable e0); [|discriminate]. injection He as <-.
    apply Hgo. reflexivity.
Qed.

(** Failed attempts that are not the last one allowed are each followed
    by a sleep, twice as long each time. *)
Lemma sleeps_failure_trace_early d k : forall attempt first,
  (attempt + Z.of_nat k <= max_retries self)%Z ->
  sleeps (failures d k attempt first)
  = map (fun i => 2 ^ (attempt - 1 + Z.of_nat i))%Z (seq 0 k).
Proof.
  induction k as [|k IH]; intros attempt first Hle; [reflexivity|].
  cbn [failure_trace]. change (rq d :: ?l) with ([rq d] ++ l).
  rewrite !sleeps_app, sleeps_received. unfold backoff.
  replace (attempt <? max_retries self)%Z with true by (symmetry; apply Z.ltb_lt; lia).
  rewrite IH by lia. simpl. rewrite Z.add_0_r. f_equal.
  rewrite <- seq_shift, map_map. apply map_ext. intros i. f_equal. lia.
Qed.

(** Whatever the exchange does, the loop sends at most [n] requests, and
    it has slept once, twice as long each time, before every request but
    the first. *)
Lemma attempts_schedule n : forall attempt last w d,
  heap w !! params = Some d ->
  ((0 < n)%nat -> (attempt + Z.of_nat n - 1)%Z = max_retries self) ->
  exists evs,
    (attempts n attempt last w).2
    = World (heap w) (clock_reads w) (requests_made w + length (requests evs))
            (trace w ++ evs) /\
    (length (requests evs) <= n)%nat /\
    ((0 < n)%nat -> (1 <= length (requests evs))%nat) /\
    sleeps evs = map (fun i => 2 ^ (attempt - 1 + Z.of_nat i))%Z
                     (seq 0 (length (requests evs) - 1)).
Proof.
  induction n as [|n IH]; intros attempt last w d Hd Hmax.
  { exists []. simpl. rewrite Nat.add_0_r, app_nil_r.
    split; [destruct w; reflexivity|]. split; [lia|]. split; [lia | reflexivity]. }
  specialize (Hmax ltac:(lia)).
  rewrite (attempts_step exchange self method url endpoint params n attempt last w d Hd).
  cbv zeta.
  assert (Hstop : forall (r : result json) evs,
            requests evs = [] -> sleeps evs = [] ->
            exists evs',
              (r, emitted evs (sent (rq d) w)).2
              = World (heap w) (clock_reads w)
                      (requests_made w + length (requests evs')) (trace w ++ evs') /\
              (length (requests evs') <= S n)%nat /\
              ((0 < S n)%nat -> (1 <= length (requests evs'))%nat) /\
              sleeps evs' = map (fun i => 2 ^ (attempt - 1 + Z.of_nat i))%Z
                                (seq 0 (length (requests evs') - 1))).
  { intros r evs Hrq Hsl. exists (rq d :: evs).
    change (rq d :: evs) with ([rq d] ++ evs).
    rewrite requests_app, sleeps_app, Hrq, Hsl. simpl.
    unfold emitted, sent. simpl. rewrite <- app_assoc.
    split; [f_equal; lia|]. split; [lia|]. split; [lia | reflexivity]. }
  assert (Hnext : forall e evs,
            requests evs = [] -> sleeps evs = [] ->
            exists evs',
              (on_exc n attempt e (emitted evs (sent (rq d) w))).2
              = World (heap w) (clock_reads w)
                      (requests_made w + length (requests evs')) (trace w ++ evs') /\
              (length (requests evs') <= S n)%nat /\
              ((0 < S n)%nat -> (1 <= length (requests evs'))%nat) /\
              sleeps evs' = map (fun i => 2 ^ (attempt - 1 + Z.of_nat i))%Z
                                (seq 0 (length (requests evs') - 1))).
  { intros e evs Hrq Hsl. unfold on_exception.
    destruct (retryable e); [|apply Hstop; assumption].
    destruct (IH (attempt + 1)%Z e
                 (emitted (backoff self attempt e) (emitted evs (sent (rq d) w))) d)
      as (evs' & Hw & Hle & Hge & Hsleeps).
    { exact Hd. }
    { intros Hn. lia. }
    exists (rq d :: evs ++ backoff self attempt e ++ evs').
    rewrite Hw.
    change (rq d :: evs ++ backoff self attempt e ++ evs')
      with ([rq d] ++ evs ++ backoff self attempt e ++ evs').
    rewrite !requests_app, !sleeps_app, Hrq, Hsl.
    assert (Hb : requests (backoff self attempt e) = []).
    { unfold backoff. destruct (attempt <? max_retries self)%Z; reflexivity. }
    rewrite Hb. simpl.
    split; [|split; [|split]].
    - f_equal; [lia|]. rewrite <- !app_assoc. reflexivity.
    - lia.
    - lia.
    - unfold backoff. destruct n as [|n].
      + assert (Hz : length (requests evs') = 0%nat) by lia.
        rewrite Hz in Hsleeps |- *.
        replace (attempt <? max_retries self)%Z with false
          by (symmetry; apply Z.ltb_ge; lia).
        simpl. exact Hsleeps.
      + specialize (Hge ltac:(lia)).
        replace (attempt <? max_retries self)%Z with true
          by (symmetry; apply Z.ltb_lt; lia).
        simpl. rewrite Hsleeps.
        destruct (length (requests evs')) as [|m] eqn:Hm; [lia|].
        simpl. rewrite Nat.sub_0_r, Z.add_0_r. f_equal.
        rewrite <- seq_shift, map_map. apply map_ext. intros i. f_equal. lia. }
  destruct (exchange (requests_made w)) as [e | sc txt [data | e]].
  - rewrite <- (emitted_nil (sent (rq d) w)). apply Hnext; reflexivity.
  - destruct (is_error_payload data); apply Hstop; reflexivity.
  - apply Hnext; reflexivity.
Qed.
End ScheduleProperties.

(** The sleeps of a call add up to one less than a power of two. *)
Lemma powers_of_two_sum (k : nat) : forall j,
  fold_right Z.add 0%Z (map (fun i => 2 ^ Z.of_nat i)%Z (seq j k))
  = (2 ^ Z.of_nat (j + k) - 2 ^ Z.of_nat j)%Z.
Proof.
  induction k as [|k IH]; intros j.
  - rewrite Nat.add_0_r. simpl. lia.
  - cbn [seq map fold_right]. rewrite IH.
    replace (Z.of_nat (S j + k)) with (Z.of_nat (j + S k)) by lia.
    replace (Z.of_nat (S j)) with (Z.succ (Z.of_nat j)) by lia.
    rewrite Z.pow_succ_r by lia. lia.
Qed.

(** ** Client: the order of requests and sleeps *)

Lemma wire_app (l1 l2 : list event) : wire (l1 ++ l2) = wire l1 ++ wire l2.
Proof. apply filter_app. Qed.

(** A trace without requests and without sleeps has log lines only. *)
Lemma wire_logs (evs : list event) :
  requests evs = [] -> sleeps evs = [] -> wire evs = [].
Proof.
  induction evs as [|ev evs IH]; [reflexivity|].
  destruct ev; [intros Hrq Hsl; exact (IH Hrq Hsl) | discriminate | discriminate].
Qed.

Lemma timeline_next (rq : event) (pause : Z) (n : nat) :
  timeline rq pause (S (S n)) = rq :: Sleep pause :: timeline rq (2 * pause) (S n).
Proof. reflexivity. Qed.

Section TimelineProperties.
Context `{UnicodeData}.
Variable exchange : nat -> reply.
Import client.

Variable self : BinanceClient.
Variables method url endpoint : str.
Variable params : loc.

Local Abbreviation attempts := (attempts exchange self method url endpoint params).
Local Abbreviation rq := (request_of self method url).
Local Abbreviation on_exc := (on_exception exchange self method url endpoint params).
Local Abbreviation failures := (failure_trace exchange self method url).

Lemma wire_received (r : reply) : wire (received r) = [].
Proof. destruct r; reflexivity. Qed.

Lemma wire_backoff (attempt : Z) (e : exn) :
  wire (backoff self attempt e)
  = if (attempt <? max_retries self)%Z then [Sleep (2 ^ (attempt - 1))%Z] else [].
Proof. unfold backoff. destruct (attempt <? max_retries self)%Z; reflexivity. Qed.

(** Failed attempts that are not the last one allowed, and the request
    after them: every request but the last is followed by its sleep. *)
Lemma wire_failure_trace_early d k : forall attempt first,
  (1 <= attempt)%Z ->
  (attempt + Z.of_nat k <= max_retries self)%Z ->
  wire (failures d k attempt first) ++ [rq d]
  = timeline (rq d) (2 ^ (attempt - 1))%Z (S k).
Proof.
  induction k as [|k IH]; intros attempt first Hpos Hle; [reflexivity|].
  cbn [failure_trace]. change (rq d :: ?l) with ([rq d] ++ l).
  rewrite !wire_app, wire_received, wire_backoff.
  replace (attempt <? max_retries self)%Z with true by (symmetry; apply Z.ltb_lt; lia).
  cbn [app]. rewrite <- !app_assoc. cbn [app].
  rewrite (IH (attempt + 1)%Z (S first)) by lia.
  rewrite timeline_next.
  replace (2 ^ (attempt + 1 - 1))%Z with (2 * 2 ^ (attempt - 1))%Z; [reflexivity|].
  replace (attempt + 1 - 1)%Z with (Z.succ (attempt - 1)) by lia.
  rewrite Z.pow_succ_r by lia. reflexivity.
Qed.

(** Whatever the exchange does, the requests and the sleeps of the loop
    alternate: it begins with a request if it makes any, sleeps only
    between two requests, and doubles the sleep each time. *)
Lemma attempts_timeline n : forall attempt last w d,
  heap w !! params = Some d ->
  (1 <= attempt)%Z ->
  ((0 < n)%nat -> (attempt + Z.of_nat n - 1)%Z = max_retries self) ->
  exists evs,
    trace (attempts n attempt last w).2 = trace w ++ evs /\
    (length (requests evs) <= n)%nat /\
    ((0 < n)%nat -> (1 <= length (requests evs))%nat) /\
    wire evs = timeline (rq d) (2 ^ (attempt - 1))%Z (length (requests evs)).
Proof.
  induction n as [|n IH]; intros attempt last w d Hd Hpos Hmax.
  { exists []. simpl. rewrite app_nil_r.
    split; [reflexivity|]. split; [lia|]. split; [lia | reflexivity]. }
  specialize (Hmax ltac:(lia)).
  rewrite (attempts_step exchange self method url endpoint params n attempt last w d Hd).
  cbv zeta.
  assert (Hstop : forall (r : result json) evs,
            requests evs = [] -> wire evs = [] ->
            exists evs',
              trace (r, emitted evs (sent (rq d) w)).2 = trace w ++ evs' /\
              (length (requests evs') <= S n)%nat /\
              ((0 < S n)%nat -> (1 <= length (requests evs'))%nat) /\
              wire evs' = timeline (rq d) (2 ^ (attempt - 1))%Z (length (requests evs'))).
  { intros r evs Hrq Hwire. exists (rq d :: evs).
    change (rq d :: evs) with ([rq d] ++ evs).
    rewrite requests_app, wire_app, Hrq, Hwire. simpl. rewrite <- app_assoc.
    split; [reflexivity|]. split; [lia|]. split; [lia | reflexivity]. }
  assert (Hnext : forall e evs,
            requests evs = [] -> wire evs = [] ->
            exists evs',
              trace (on_exc n attempt e (emitted evs (sent (rq d) w))).2 = trace w ++ evs' /\
              (length (requests evs') <= S n)%nat /\
              ((0 < S n)%nat -> (1 <= length (requests evs'))%nat) /\
              wire evs' = timeline (rq d) (2 ^ (attempt - 1))%Z (length (requests evs'))).
  { intros e evs Hrq Hwire. unfold on_exception.
    destruct (retryable e); [|apply Hstop; assumption].
    destruct (IH (attempt + 1)%Z e
                 (emitted (backoff self attempt e) (emitted evs (sent (rq d) w))) d)
      as (evs' & Hw & Hle & Hge & Htimeline).
    { exact Hd. }
    { lia. }
    { intros Hn. lia. }
    exists (rq d :: evs ++ backoff self attempt e ++ evs').
    rewrite Hw.
    change (rq d :: evs ++ backoff self attempt e ++ evs')
      with ([rq d] ++ evs ++ backoff self attempt e ++ evs').
    rewrite !requests_app, !wire_app, Hrq, Hwire, wire_backoff.
    assert (Hb : requests (backoff self attempt e) = []).
    { unfold backoff. destruct (attempt <? max_retries self)%Z; reflexivity. }
    rewrite Hb. simpl.
    split; [|split; [|split]].
    - rewrite <- !app_assoc. reflexivity.
    - lia.
    - lia.
    - destruct n as [|n].
      + assert (Hz : length (requests evs') = 0%nat) by lia.
        rewrite Hz in Htimeline |- *.
        replace (attempt <? max_retries self)%Z with false
          by (symmetry; apply Z.ltb_ge; lia).
        rewrite Htimeline. reflexivity.
      + specialize (Hge ltac:(lia)).
        replace (attempt <? max_retries self)%Z with true
          by (symmetry; apply Z.ltb_lt; lia).
        rewrite Htimeline.
        destruct (length (requests evs')) as [|m] eqn:Hm; [lia|].
        cbn [app].
        replace (2 ^ (attempt + 1 - 1))%Z with (2 * 2 ^ (attempt - 1))%Z; [reflexivity|].
        replace (attempt + 1 - 1)%Z with (Z.succ (attempt - 1)) by lia.
        rewrite Z.pow_succ_r by lia. reflexivity. }
  destruct (exchange (requests_made w)) as [e | sc txt [data | e]].
  - rewrite <- (emitted_nil (sent (rq d) w)). apply Hnext; reflexivity.
  - destruct (is_error_payload data); apply Hstop; reflexivity.
  - apply Hnext; reflexivity.
Qed.
End TimelineProperties.

Section CallProperties.
Context `{UnicodeData}.
Variable clock : nat -> Z.
Variable exchange : nat -> reply.
Import client.

Variable self : BinanceClient.
Variables method endpoint : str.

Local Abbreviation url := (base_url self ++ endpoint).
Local Abbreviation _request := (_request clock exchange self method endpoint).
Local Abbreviation attempts p :=
  (attempts exchange self method url endpoint p).
Local Abbreviation no_attempts := (RuntimeError "No attempts made.").
Local Abbreviation prep := (prepare clock self).
Local Abbreviation rq d := (request_of self method url d).
Local Abbreviation failures d n attempt first :=
  (failure_trace exchange self method url d n attempt first).

(** Preparing an unsigned call: the caller's dictionary is the one to
    send, unless there is none or it is empty; the clock is not read. *)
Lemma prepare_unsigned l w d :
  heap w !! l = Some d ->
  prep (Some l) false w =
    (Ok (working l w d),
     World (match d with [] => <[working l w d := []]> (heap w) | _ => heap w end)
           (clock_reads w) (requests_made w)
           (trace w ++ [Log DEBUG "-> method endpoint params"])).
Proof.
  intros Hd. unfold prepare, mbind, M_bind, load. rewrite Hd.
  destruct d as [|kv d']; reflexivity.
Qed.

Lemma prepare_unsigned_none w :
  prep None false w =
    (Ok (fresh (dom (heap w))),
     World (<[fresh (dom (heap w)) := []]> (heap w))
           (clock_reads w) (requests_made w)
           (trace w ++ [Log DEBUG "-> method endpoint params"])).
Proof. reflexivity. Qed.

(** Preparing a signed call without parameters: a new dictionary is
    signed. *)
Lemma prepare_signed_none w :
  prep None true w =
    let ext := extended (clock (clock_reads w)) [] in
    let p := fresh (dom (heap w)) in
    match signature_of (api_secret self) ext with
    | Ok sig =>
        (Ok p, World (<[p := dict_setitem (py "signature") (VStr sig) ext]> (heap w))
                     (S (clock_reads w)) (requests_made w)
                     (trace w ++ [Log DEBUG "-> method endpoint params"]))
    | Raise e =>
        (Raise e, World (<[p := ext]> (heap w))
                        (S (clock_reads w)) (requests_made w) (trace w))
    end.
Proof.
  unfold prepare, mbind, M_bind, alloc. cbv zeta.
  set (p := fresh (dom (heap w))).
  rewrite (build_signed_params_spec clock self p _ []) by apply lookup_insert_eq.
  cbv zeta. simpl.
  destruct (signature_of _ _); rewrite insert_insert_eq; reflexivity.
Qed.

(** Preparing logs at most one line: it sends nothing and does not
    sleep. *)
Lemma prepare_trace params signed w :
  exists evs,
    trace (prep params signed w).2 = trace w ++ evs /\
    requests evs = [] /\ sleeps evs = [].
Proof.
  assert (Hnone : exists evs, trace w = trace w ++ evs /\
                              requests evs = [] /\ sleeps evs = []).
  { exists []. rewrite app_nil_r. repeat split. }
  assert (Hlog : forall t, t = trace w ++ [Log DEBUG "-> method endpoint params"] ->
                 exists evs, t = trace w ++ evs /\ requests evs = [] /\ sleeps evs = []).
  { intros t ->. exists [Log DEBUG "-> method endpoint params"]. repeat split. }
  destruct params as [l|].
  - destruct (heap w !! l) as [d|] eqn:Hd.
    + destruct signed.
      * rewrite (prepare_signed clock self l w d Hd). cbv zeta.
        destruct (signature_of _ _); simpl; [apply Hlog; reflexivity | exact Hnone].
      * rewrite (prepare_unsigned l w d Hd). simpl. apply Hlog. reflexivity.
    + unfold prepare, mbind, M_bind, load. rewrite Hd. simpl. exact Hnone.
  - destruct signed.
    + rewrite prepare_signed_none. cbv zeta.
      destruct (signature_of _ _); simpl; [apply Hlog; reflexivity | exact Hnone].
    + rewrite prepare_unsigned_none. simpl. apply Hlog. reflexivity.
Qed.

(** The requests and the sleeps of one call. *)
Lemma request_trace (params : option loc) (signed : bool) (w : world) :
  exists evs,
    trace (_request params signed w).2 = trace w ++ evs /\
    requests_made (_request params signed w).2
    = (requests_made w + length (requests evs))%nat /\
    (length (requests evs) <= Z.to_nat (max_retries self))%nat /\
    sleeps evs = map (fun i => 2 ^ Z.of_nat i)%Z (seq 0 (length (requests evs) - 1)).
Proof.
  rewrite request_prepare.
  destruct (prepare_trace params signed w) as (evs0 & Htrace0 & Hrq0 & Hsl0).
  destruct (prep params signed w) as [[p|e] w1] eqn:Hprep.
  - destruct (prepare_spec clock self params signed w _ _ Hprep) as (Hrm & d & Hd).
    destruct (attempts_schedule exchange self method url endpoint p
                (Z.to_nat (max_retries self)) 1%Z no_attempts w1 d Hd)
      as (evs & Hw & Hle & _ & Hsleeps); [lia|].
    assert (Hsl : sleeps (evs0 ++ evs)
                  = map (fun i => 2 ^ Z.of_nat i)%Z
                        (seq 0 (length (requests (evs0 ++ evs)) - 1))).
    { rewrite requests_app, sleeps_app, Hrq0, Hsl0. simpl.
      rewrite Hsleeps. apply map_ext. intros i. f_equal. }
    exists (evs0 ++ evs). rewrite Hw. simpl in Htrace0 |- *.
    split; [rewrite Htrace0, app_assoc; reflexivity|].
    split; [rewrite requests_app, Hrq0, Hrm; reflexivity|].
    split; [rewrite requests_app, Hrq0; exact Hle | exact Hsl].
  - destruct (prepare_spec clock self params signed w _ _ Hprep) as (Hrm & _).
    exists evs0. simpl in Htrace0 |- *. rewrite Hrq0, Hsl0, Hrm. simpl.
    split; [exact Htrace0|]. split; [lia|]. split; [lia | reflexivity].
Qed.

(** The requests and the sleeps of one call, in their order. *)
Lemma request_wire (params : option loc) (signed : bool) (w : world) :
  exists evs ev,
    trace (_request params signed w).2 = trace w ++ evs /\
    is_request ev = true /\
    wire evs = timeline ev 1 (length (requests evs)).
Proof.
  rewrite request_prepare.
  destruct (prepare_trace params signed w) as (evs0 & Htrace0 & Hrq0 & Hsl0).
  pose proof (wire_logs evs0 Hrq0 Hsl0) as Hwire0.
  destruct (prep params signed w) as [[p|e] w1] eqn:Hprep.
  - destruct (prepare_spec clock self params signed w _ _ Hprep) as (Hrm & d & Hd).
    destruct (attempts_timeline exchange self method url endpoint p
                (Z.to_nat (max_retries self)) 1%Z no_attempts w1 d Hd)
      as (evs & Hw & _ & _ & Hwire); [lia | lia |].
    exists (evs0 ++ evs), (rq d). rewrite Hw. simpl in Htrace0 |- *.
    split; [rewrite Htrace0, app_assoc; reflexivity|].
    split; [reflexivity|].
    rewrite wire_app, requests_app, Hwire0, Hrq0. exact Hwire.
  - exists evs0, (rq []). simpl in Htrace0 |- *. rewrite Hwire0, Hrq0.
    split; [exact Htrace0|]. split; reflexivity.
Qed.

(** X1.  Whatever the exchange answers, one call of [_request] sends at
    most [max_retries] requests (none when [max_retries <= 0]), all of
    them the same, and its requests and sleeps alternate: the call
    begins with a request, sleeps once before each request after the
    first, 1, 2, 4, ... seconds, [2 ^ (requests - 1) - 1] seconds in
    all, and never sleeps after its last request. *)
Theorem request_schedule (params : option loc) (signed : bool) (w : world) :
  exists evs ev,
    trace (_request params signed w).2 = trace w ++ evs /\
    requests_made (_request params signed w).2
    = (requests_made w + length (requests evs))%nat /\
    (length (requests evs) <= Z.to_nat (max_retries self))%nat /\
    is_request ev = true /\
    wire evs = timeline ev 1 (length (requests evs)) /\
    sleeps evs = map (fun i => 2 ^ Z.of_nat i)%Z (seq 0 (length (requests evs) - 1)) /\
    fold_right Z.add 0%Z (sleeps evs)
    = (2 ^ Z.of_nat (length (requests evs) - 1) - 1)%Z.
Proof.
  destruct (request_trace params signed w)
    as (evs & Htrace & Hrm & Hle & Hsl).
  destruct (request_wire params signed w) as (evs' & ev & Htrace' & Hev & Hwire).
  assert (evs' = evs) as ->.
  { rewrite Htrace in Htrace'. apply app_inv_head in Htrace'. congruence. }
  exists evs, ev. repeat (split; [assumption|]).
  rewrite Hsl at 1. rewrite powers_of_two_sum. simpl. lia.
Qed.

(** X2.  Take a call of [_request] that reaches its loop and whose first
    [k] attempts, [k < max_retries], fail with a transport-layer
    exception.  If the next reply decodes to a value that is not an
    error payload, the call returns that value, whatever the HTTP status
    of the reply.  Its trace is that of the [k] failures, each a request
    followed by its warning and its sleep, and then the request that is
    answered: [k + 1] identical requests with sleeps of
    1, 2, ..., [2 ^ (k - 1)] seconds between them, none before the first
    request and none after the last, and nothing more is sent. *)
Theorem retry_then_success (params : option loc) (signed : bool)
    (w w1 : world) (p : loc) (k : nat) (sc : Z) (txt : str) (data : json) :
  prep params signed w = (Ok p, w1) ->
  (k < Z.to_nat (max_retries self))%nat ->
  (forall i, (i < k)%nat ->
     exists e, transport_failure (exchange (requests_made w + i)) = Some e) ->
  exchange (requests_made w + k) = Responds sc txt (Ok data) ->
  is_error_payload data = false ->
  exists d evs w',
    heap w1 !! p = Some d /\
    _request params signed w = (Ok data, w') /\
    heap w' = heap w1 /\
    trace w' = trace w1 ++ evs /\
    evs = failures d k 1%Z (requests_made w) ++ [rq d; Log DEBUG "<- status, body"] /\
    wire evs = timeline (rq d) 1 (S k) /\
    requests evs = replicate (S k) (rq d) /\
    requests_made w' = (requests_made w + S k)%nat /\
    sleeps evs = map (fun i => 2 ^ Z.of_nat i)%Z (seq 0 k).
Proof.
  intros Hprep Hk Hfail Hreply Hdata.
  destruct (prepare_spec clock self _ _ _ _ _ Hprep) as (Hrm & d & Hd).
  rewrite <- Hrm in Hfail, Hreply.
  exists d, (failures d k 1%Z (requests_made w1) ++ [rq d; Log DEBUG "<- status, body"]).
  eexists. split; [exact Hd|].
  rewrite request_prepare, Hprep.
  replace (Z.to_nat (max_retries self))
    with (k + S (Z.to_nat (max_retries self) - S k))%nat by lia.
  rewrite (attempts_skip exchange self method url endpoint p k _ _ _ w1 d Hd Hfail).
  rewrite (attempts_step exchange self method url endpoint p _ _ _ _ d) by exact Hd.
  cbv zeta. cbn [requests_made]. rewrite Hreply, Hdata.
  split; [reflexivity|]. cbn [heap trace emitted sent requests_made clock_reads].
  split; [reflexivity|]. split; [rewrite <- !app_assoc; reflexivity|].
  split; [rewrite Hrm; reflexivity|].
  split.
  { change [rq d; Log DEBUG "<- status, body"]
      with ([rq d] ++ [Log DEBUG "<- status, body"]).
    rewrite app_assoc, wire_app.
    rewrite (wire_app (failures d k 1%Z (requests_made w1)) [rq d]).
    change (wire [rq d]) with [rq d].
    rewrite (wire_failure_trace_early exchange self method url d k 1%Z) by lia.
    apply app_nil_r. }
  rewrite requests_app, sleeps_app, requests_failure_trace.
  rewrite (sleeps_failure_trace_early exchange self method url d k 1%Z) by lia.
  split; [|split].
  - change (S k) with (1 + k)%nat. rewrite Nat.add_comm, replicate_add. reflexivity.
  - lia.
  - simpl. rewrite app_nil_r. apply map_ext. intros i. f_equal.
Qed.

(** X3.  An exception of an attempt that is none of [requests] ends the
    call, be it a [BinanceAPIError], which the loop raises again, or one
    the loop has no clause for: the call raises it as it is, without
    another attempt and without wrapping it in [ConnectionError]. *)
Theorem unexpected_exception_ends_call (params : option loc) (signed : bool)
    (w w1 : world) (p : loc) (k : nat) (e : exn) :
  prep params signed w = (Ok p, w1) ->
  (k < Z.to_nat (max_retries self))%nat ->
  (forall i, (i < k)%nat ->
     exists e', transport_failure (exchange (requests_made w + i)) = Some e') ->
  (exchange (requests_made w + k) = Fails e \/
   exists sc txt, exchange (requests_made w + k) = Responds sc txt (Raise e)) ->
  retryable e = false ->
  exists w',
    _request params signed w = (Raise e, w') /\
    requests_made w' = (requests_made w + S k)%nat /\
    heap w' = heap w1.
Proof.
  intros Hprep Hk Hfail Hreply He.
  destruct (prepare_spec clock self _ _ _ _ _ Hprep) as (Hrm & d & Hd).
  rewrite <- Hrm in Hfail, Hreply.
  rewrite request_prepare, Hprep.
  replace (Z.to_nat (max_retries self))
    with (k + S (Z.to_nat (max_retries self) - S k))%nat by lia.
  rewrite (attempts_skip exchange self method url endpoint p k _ _ _ w1 d Hd Hfail).
  rewrite (attempts_step exchange self method url endpoint p _ _ _ _ d) by exact Hd.
  cbv zeta. cbn [requests_made]. unfold on_exception.
  destruct Hreply as [Hreply | (sc & txt & Hreply)]; rewrite Hreply, He;
    eexists; (split; [reflexivity|]); simpl; (split; [lia | reflexivity]).
Qed.

(** A call without parameters and without signature. *)
Lemma unsigned_request_none (w w' : world) (r : result json) :
  _request None false w = (r, w') ->
  clock_reads w' = clock_reads w /\
  heap w' = <[fresh (dom (heap w)) := []]> (heap w) /\
  exists evs,
    trace w' = trace w ++ Log DEBUG "-> method endpoint params" :: evs /\
    requests_made w' = (requests_made w + length (requests evs))%nat /\
    (length (requests evs) <= Z.to_nat (max_retries self))%nat /\
    Forall (fun ev => is_request ev = true -> ev = rq []) evs.
Proof.
  intros Hrun. rewrite request_prepare, prepare_unsigned_none in Hrun.
  set (p := fresh (dom (heap w))) in *.
  set (w1 := World (<[p := []]> (heap w)) (clock_reads w) (requests_made w)
                   (trace w ++ [Log DEBUG "-> method endpoint params"])) in *.
  assert (Hp : heap w1 !! p = Some []) by apply lookup_insert_eq.
  destruct (attempts_frame exchange self method endpoint p
              (Z.to_nat (max_retries self)) 1%Z no_attempts w1 [] Hp)
    as (evs & Hw' & Hall).
  destruct (attempts_schedule exchange self method url endpoint p
              (Z.to_nat (max_retries self)) 1%Z no_attempts w1 [] Hp)
    as (evs' & Hw'' & Hle & _); [lia|].
  rewrite Hrun in Hw', Hw''. simpl in Hw', Hw''. subst w'.
  injection Hw'' as Hlen Htr. apply app_inv_head in Htr. subst evs'.
  simpl. split; [reflexivity|]. split; [reflexivity|].
  exists evs. rewrite <- app_assoc. repeat split; assumption.
Qed.

(** An unsigned call with a dictionary of the caller. *)
Lemma unsigned_request_some (l : loc) (w w' : world) (d : pydict) (r : result json) :
  heap w !! l = Some d ->
  _request (Some l) false w = (r, w') ->
  clock_reads w' = clock_reads w /\
  heap w' = match d with [] => <[fresh (dom (heap w)) := []]> (heap w) | _ => heap w end /\
  exists evs,
    trace w' = trace w ++ Log DEBUG "-> method endpoint params" :: evs /\
    Forall (fun ev => is_request ev = true -> ev = rq d) evs.
Proof.
  intros Hd Hrun. rewrite request_prepare, (prepare_unsigned l w d Hd) in Hrun.
  set (p := working l w d) in *.
  set (h := match d with [] => <[p := []]> (heap w) | _ => heap w end) in *.
  set (w1 := World h (clock_reads w) (requests_made w)
                   (trace w ++ [Log DEBUG "-> method endpoint params"])) in *.
  assert (Hp : heap w1 !! p = Some d).
  { subst w1 h p. destruct d; [apply lookup_insert_eq | exact Hd]. }
  destruct (attempts_frame exchange self method endpoint p
              (Z.to_nat (max_retries self)) 1%Z no_attempts w1 d Hp)
    as (evs & Hw' & Hall).
  rewrite Hrun in Hw'. simpl in Hw'. subst w'. simpl.
  split; [reflexivity|]. split.
  - subst h p. destruct d; reflexivity.
  - exists evs. rewrite <- app_assoc. split; [reflexivity | exact Hall].
Qed.

(** X4.  An unsigned call of [_request], with a dictionary [d] of the
    caller or with none ([d] is empty then), does not read the clock and
    sets no entry: every dictionary that existed before the call is
    after it what it was, the caller's among them; nothing else has
    changed unless [d] is empty (then a new empty dictionary exists);
    and every request of the call carries the entries of [d] and nothing
    else. *)
Theorem unsigned_call_frame (params : option loc) (w w' : world) (d : pydict)
    (r : result json) :
  match params with
  | Some l => heap w !! l = Some d
  | None => d = []
  end ->
  _request params false w = (r, w') ->
  clock_reads w' = clock_reads w /\
  (forall l d0, heap w !! l = Some d0 -> heap w' !! l = Some d0) /\
  (d <> [] -> heap w' = heap w) /\
  exists evs,
    trace w' = trace w ++ Log DEBUG "-> method endpoint params" :: evs /\
    Forall (fun ev => is_request ev = true -> ev = rq d) evs.
Proof.
  intros Hparams Hrun.
  assert (Hkept : forall l d0, heap w !! l = Some d0 ->
                    <[fresh (dom (heap w)) := []]> (heap w) !! l = Some d0).
  { intros l d0 Hl. rewrite lookup_insert_ne; [exact Hl|].
    intros Heq. apply (is_fresh (dom (heap w))). rewrite Heq.
    apply elem_of_dom. eauto. }
  destruct params as [l|].
  - destruct (unsigned_request_some l w w' d r Hparams Hrun)
      as (Hclock & Hheap & Hevs).
    split; [exact Hclock|]. split; [|split; [|exact Hevs]].
    + intros l0 d0 Hl. rewrite Hheap. destruct d; [apply Hkept, Hl | exact Hl].
    + intros Hne. rewrite Hheap. destruct d; [congruence | reflexivity].
  - subst d. destruct (unsigned_request_none w w' r Hrun)
      as (Hclock & Hheap & evs & Htrace & _ & _ & Hall).
    split; [exact Hclock|]. split; [|split; [congruence|]].
    + intros l0 d0 Hl. rewrite Hheap. apply Hkept, Hl.
    + exists evs. split; [exact Htrace | exact Hall].
Qed.
End CallProperties.

Section PingProperties.
Context `{UnicodeData}.
Variable clock : nat -> Z.
Variable exchange : nat -> reply.
Import client.
Variable self : BinanceClient.

(** The first attempt of a call without parameters and without
    signature, by what the exchange answers to it. *)
Lemma unsigned_request_first (method endpoint : str) (w : world) :
  ((max_retries self <= 0)%Z ->
   exists e w',
     _request clock exchange self method endpoint None false w = (Raise e, w') /\
     requests_made w' = requests_made w) /\
  ((1 <= max_retries self)%Z ->
   forall sc txt data,
     exchange (requests_made w) = Responds sc txt (Ok data) ->
     exists w',
       _request clock exchange self method endpoint None false w
       = (if is_error_payload data
          then Raise (api_error data sc)
          else Ok data, w') /\
       requests_made w' = S (requests_made w)).
Proof.
  rewrite request_prepare, prepare_unsigned_none.
  split.
  - intros Hmax. replace (Z.to_nat (max_retries self)) with 0%nat by lia.
    eexists _, _. split; reflexivity.
  - intros Hmax sc txt data Hreply.
    replace (Z.to_nat (max_retries self))
      with (S (Z.to_nat (max_retries self) - 1)) by lia.
    rewrite (attempts_step exchange self method _ endpoint _ _ _ _ _ [])
      by apply lookup_insert_eq.
    cbv zeta. cbn [requests_made]. rewrite Hreply.
    destruct (is_error_payload data); eexists; split; reflexivity.
Qed.

(** X5.  [ping] never raises, whatever the exchange does: it returns
    [True] exactly when its request returns a value and [False] when
    that raises anything (an [exn] is an exception that
    [except Exception] catches), having logged which.  So it returns
    [False] without sending anything when [max_retries <= 0]; otherwise,
    when the first request is answered with a body that decodes, it
    returns [False] for an error payload and [True] for anything else,
    after that one request.  It sends at most [max_retries] requests,
    all of them a GET of the ping endpoint without any parameter; it
    does not read the clock and changes no dictionary that existed
    before. *)
Theorem ping_never_raises (w : world) :
  let call := _request clock exchange self (py "GET") (py "/fapi/v1/ping") None false w in
  let b := match call.1 with Ok _ => true | Raise _ => false end in
  ping clock exchange self w
  = (Ok b,
     emitted [if b then Log INFO "Ping successful" else Log ERROR "Ping failed"] call.2) /\
  clock_reads call.2 = clock_reads w /\
  (forall l d, heap w !! l = Some d -> heap call.2 !! l = Some d) /\
  (exists evs,
     trace call.2 = trace w ++ evs /\
     requests_made call.2 = (requests_made w + length (requests evs))%nat /\
     (length (requests evs) <= Z.to_nat (max_retries self))%nat /\
     Forall (fun ev => is_request ev = true ->
               ev = Request (py "GET") (base_url self ++ py "/fapi/v1/ping") true []
                            (timeout self)) evs) /\
  ((max_retries self <= 0)%Z ->
   b = false /\ requests_made call.2 = requests_made w) /\
  ((1 <= max_retries self)%Z ->
   forall sc txt data,
     exchange (requests_made w) = Responds sc txt (Ok data) ->
     b = negb (is_error_payload data) /\
     requests_made call.2 = S (requests_made w)).
Proof.
  intros call b.
  destruct call as [r w1] eqn:Hrun. cbn [fst snd] in *.
  destruct (unsigned_request_none clock exchange self _ _ w w1 r Hrun)
    as (Hclock & Hheap & evs & Htrace & Hrm & Hle & Hall).
  destruct (unsigned_request_first (py "GET") (py "/fapi/v1/ping") w) as (Hnone & Hfirst).
  fold call in Hnone, Hfirst. rewrite Hrun in Hnone, Hfirst.
  split; [|split; [|split; [|split; [|split]]]].
  - unfold ping, try_except, mbind, M_bind. fold call. rewrite Hrun.
    subst b. destruct r; reflexivity.
  - exact Hclock.
  - intros l d Hd. rewrite Hheap, lookup_insert_ne; [exact Hd|].
    intros <-. pose proof (is_fresh (dom (heap w))) as Hfresh.
    apply Hfresh, elem_of_dom. rewrite Hd. eauto.
  - exists (Log DEBUG "-> method endpoint params" :: evs).
    split; [exact Htrace|]. split; [exact Hrm|]. split; [exact Hle|].
    constructor; [discriminate | exact Hall].
  - intros Hmax. destruct (Hnone Hmax) as (e & w' & [= -> ->] & Hsame).
    split; [reflexivity | exact Hsame].
  - intros Hmax sc txt data Hreply.
    destruct (Hfirst Hmax sc txt data Hreply) as (w' & Heq & Hone).
    injection Heq as -> ->. subst b.
    split; [destruct (is_error_payload data); reflexivity | exact Hone].
Qed.
End PingProperties.

(** A new dictionary is none of those that exist. *)
Lemma lookup_fresh (h : gmap loc pydict) (l : loc) (d : pydict) :
  h !! l = Some d -> l <> fresh (dom h).
Proof.
  intros Hl Heq. apply (is_fresh (dom h)). rewrite <- Heq.
  apply elem_of_dom. eauto.
Qed.

Section ApiMethodProperties.
Context `{UnicodeData}.
Variable clock : nat -> Z.
Variable exchange : nat -> reply.
Import client.
Variable self : BinanceClient.

(** A signed call on a dictionary made for it: the requests of the call,
    among the events [pre] logged before it and [post] logged after. *)
Lemma new_dict_signed_requests (method endpoint : str) (d : pydict) (w w1 : world)
    (pre post : list event) (r : result json) (sig : str) :
  _request clock exchange self method endpoint (Some (fresh (dom (heap w)))) true
    (World (<[fresh (dom (heap w)) := d]> (heap w)) (clock_reads w) (requests_made w)
           (trace w ++ pre)) = (r, w1) ->
  signature_of (api_secret self) (extended (clock (clock_reads w)) d) = Ok sig ->
  requests pre = [] ->
  requests post = [] ->
  clock_reads w1 = S (clock_reads w) /\
  (forall l d0, heap w !! l = Some d0 -> heap w1 !! l = Some d0) /\
  exists evs,
    trace w1 ++ post = trace w ++ evs /\
    Forall (fun ev => is_request ev = true ->
              ev = Request method (base_url self ++ endpoint)
                     (is_get_or_delete (upper method))
                     (dict_setitem (py "signature") (VStr sig)
                        (extended (clock (clock_reads w)) d))
                     (timeout self)) evs.
Proof.
  intros Hrun Hsig Hpre Hpost.
  set (p := fresh (dom (heap w))) in *.
  destruct (signed_request_sends clock exchange self method endpoint p _ w1 d r sig
              (lookup_insert_eq _ _ _) Hrun Hsig)
    as (Hclock & Hheap & evs & Htrace & Hall).
  split; [exact Hclock|]. split.
  { intros l d0 Hl. rewrite Hheap. cbn [heap].
    assert (Hp : l <> p) by exact (lookup_fresh _ _ _ Hl).
    assert (Hl' : <[p := d]> (heap w) !! l = Some d0)
      by (rewrite lookup_insert_ne by congruence; exact Hl).
    rewrite lookup_insert_ne; [exact Hl'|].
    unfold working. destruct d; [|congruence]. cbn [heap].
    intros Heq. apply (lookup_fresh _ _ _ Hl'). symmetry. exact Heq. }
  exists (pre ++ Log DEBUG "-> method endpoint params" :: evs ++ post).
  split.
  - rewrite Htrace. simpl. rewrite <- !app_assoc. reflexivity.
  - assert (Hnone : forall l, requests l = [] ->
              Forall (fun ev => is_request ev = true ->
                ev = Request method (base_url self ++ endpoint)
                       (is_get_or_delete (upper method))
                       (dict_setitem (py "signature") (VStr sig)
                          (extended (clock (clock_reads w)) d))
                       (timeout self)) l).
    { intros l Hl. apply Forall_forall. intros ev Hin Hev. exfalso.
      assert (Hmem : ev ∈ requests l).
      { unfold requests. apply list_elem_of_filter. split; [|exact Hin].
        rewrite Hev. exact I. }
      rewrite Hl in Hmem. inversion Hmem. }
    apply Forall_app. split; [apply Hnone, Hpre|].
    constructor; [discriminate|].
    apply Forall_app. split; [exact Hall | apply Hnone, Hpost].
Qed.

(** X7.  Every request [cancel_order] and [get_order] send, first
    attempt or retry, is for the order endpoint and carries, in this
    order, [symbol], [orderId], [timestamp], [recvWindow] and
    [signature] in the query string; the method is DELETE for the first
    and GET for the second.  Each call reads the clock once and leaves
    every dictionary that existed before as it was. *)
Theorem order_query_requests (symbol : str) (order_id : Z) (sig : str) (w : world) :
  signature_of (api_secret self)
    [(py "symbol", VStr symbol); (py "orderId", VInt order_id);
     (py "timestamp", VInt (clock (clock_reads w)));
     (py "recvWindow", VInt 5000)] = Ok sig ->
  let sent_params :=
    [(py "symbol", VStr symbol); (py "orderId", VInt order_id);
     (py "timestamp", VInt (clock (clock_reads w)));
     (py "recvWindow", VInt 5000); (py "signature", VStr sig)] in
  let sends (method : str) (w' : world) :=
    clock_reads w' = S (clock_reads w) /\
    (forall l d0, heap w !! l = Some d0 -> heap w' !! l = Some d0) /\
    exists evs,
      trace w' = trace w ++ evs /\
      Forall (fun ev => is_request ev = true ->
                ev = Request method (base_url self ++ py "/fapi/v1/order") true
                             sent_params (timeout self)) evs in
  sends (py "DELETE") (cancel_order clock exchange self symbol order_id w).2 /\
  sends (py "GET") (get_order clock exchange self symbol order_id w).2.
Proof.
  intros Hsig sent_params sends. subst sends. cbv beta.
  set (d := [(py "symbol", VStr symbol); (py "orderId", VInt order_id)]).
  assert (Hsig' : signature_of (api_secret self) (extended (clock (clock_reads w)) d)
                  = Ok sig) by exact Hsig.
  split.
  - unfold cancel_order, mbind, M_bind, alloc, log, emit. fold d.
    destruct (_request clock exchange self (py "DELETE") (py "/fapi/v1/order") _ true _)
      as [r1 w1] eqn:Hreq.
    cbn [heap clock_reads requests_made trace] in Hreq.
    assert (Hcases : exists post,
              requests post = [] /\
              (match r1 with
               | Ok response =>
                   match get_of response w1 with
                   | (Ok _, w2) =>
                       (Ok response,
                        World (heap w2) (clock_reads w2) (requests_made w2)
                              (trace w2 ++ [Log INFO "Order cancelled"]))
                   | (Raise e, w2) => (Raise e, w2)
                   end
               | Raise e => (Raise e, w1)
               end).2 = emitted post w1).
    { destruct r1 as [response|e].
      - destruct response; simpl;
          try (exists []; split; [reflexivity | symmetry; apply emitted_nil]).
        exists [Log INFO "Order cancelled"]. split; reflexivity.
      - exists []. split; [reflexivity | symmetry; apply emitted_nil]. }
    destruct Hcases as (post & Hpost & Hw).
    destruct (new_dict_signed_requests (py "DELETE") (py "/fapi/v1/order") d w w1
                [Log INFO "Cancelling order"] post r1 sig Hreq Hsig' eq_refl Hpost)
      as (Hclock & Hframe & evs & Htrace & Hall).
    match goal with
    | |- clock_reads ?x.2 = _ /\ _ => replace x.2 with (emitted post w1)
    end.
    split; [exact Hclock|]. split; [exact Hframe|]. exists evs. split; [exact Htrace | exact Hall].
  - unfold get_order, mbind, M_bind, alloc. fold d.
    destruct (_request clock exchange self (py "GET") (py "/fapi/v1/order") _ true _)
      as [r1 w1] eqn:Hreq.
    cbn [heap clock_reads requests_made trace] in Hreq.
    rewrite <- (app_nil_r (trace w)) in Hreq.
    destruct (new_dict_signed_requests (py "GET") (py "/fapi/v1/order") d w w1
                [] [] r1 sig Hreq Hsig' eq_refl eq_refl)
      as (Hclock & Hframe & evs & Htrace & Hall).
    rewrite app_nil_r in Htrace.
    split; [exact Hclock|]. split; [exact Hframe|]. exists evs. split; [exact Htrace | exact Hall].
Qed.

(** X8.  [get_open_orders] and [get_account] send GET requests with the
    parameters in the query string.  Without a symbol, and so it is for
    the empty string, [get_open_orders] sends no [symbol] entry, only
    [timestamp], [recvWindow] and [signature]; [get_account] sends the
    same three.  With a symbol, that entry comes first.  Each call reads
    the clock once and leaves every dictionary that existed before as it
    was. *)
Theorem open_orders_requests (symbol : option str) (sig : str) (w : world) :
  let filter_entry :=
    match symbol with
    | Some (c :: s) => [(py "symbol", VStr (c :: s))]
    | _ => []
    end in
  signature_of (api_secret self)
    (filter_entry ++ [(py "timestamp", VInt (clock (clock_reads w)));
                      (py "recvWindow", VInt 5000)]) = Ok sig ->
  let sent_params :=
    filter_entry ++ [(py "timestamp", VInt (clock (clock_reads w)));
                     (py "recvWindow", VInt 5000); (py "signature", VStr sig)] in
  let sends (endpoint : str) (w' : world) :=
    clock_reads w' = S (clock_reads w) /\
    (forall l d0, heap w !! l = Some d0 -> heap w' !! l = Some d0) /\
    exists evs,
      trace w' = trace w ++ evs /\
      Forall (fun ev => is_request ev = true ->
                ev = Request (py "GET") (base_url self ++ endpoint) true
                             sent_params (timeout self)) evs in
  sends (py "/fapi/v1/openOrders") (get_open_orders clock exchange self symbol w).2 /\
  (filter_entry = [] ->
   sends (py "/fapi/v2/account") (get_account clock exchange self w).2).
Proof.
  intros filter_entry Hsig sent_params sends. subst sends. cbv beta.
  assert (Hext : extended (clock (clock_reads w)) filter_entry
                 = filter_entry ++ [(py "timestamp", VInt (clock (clock_reads w)));
                                    (py "recvWindow", VInt 5000)]).
  { subst filter_entry. destruct symbol as [[|c s]|]; reflexivity. }
  assert (Hsent : dict_setitem (py "signature") (VStr sig)
                    (extended (clock (clock_reads w)) filter_entry) = sent_params).
  { subst sent_params filter_entry. destruct symbol as [[|c s]|]; reflexivity. }
  rewrite <- Hext in Hsig.
  split.
  - unfold get_open_orders, mbind, M_bind, alloc. fold filter_entry.
    destruct (_request clock exchange self (py "GET") (py "/fapi/v1/openOrders") _ true _)
      as [r1 w1] eqn:Hreq.
    cbn [heap clock_reads requests_made trace] in Hreq.
    rewrite <- (app_nil_r (trace w)) in Hreq.
    destruct (new_dict_signed_requests (py "GET") (py "/fapi/v1/openOrders")
                filter_entry w w1 [] [] r1 sig Hreq Hsig eq_refl eq_refl)
      as (Hclock & Hframe & evs & Htrace & Hall).
    rewrite app_nil_r in Htrace. rewrite Hsent in Hall.
    split; [exact Hclock|]. split; [exact Hframe|]. exists evs. split; [exact Htrace | exact Hall].
  - intros Hempty. rewrite Hempty in Hsig, Hsent.
    unfold get_account.
    destruct (_request clock exchange self (py "GET") (py "/fapi/v2/account") None true w)
      as [r1 w1] eqn:Hreq.
    rewrite request_prepare, prepare_signed_none in Hreq. cbv zeta in Hreq.
    rewrite Hsig in Hreq.
    set (p := fresh (dom (heap w))) in *.
    set (sd := dict_setitem (py "signature") (VStr sig)
                 (extended (clock (clock_reads w)) [])) in *.
    set (w0 := World (<[p := sd]> (heap w)) (S (clock_reads w)) (requests_made w)
                     (trace w ++ [Log DEBUG "-> method endpoint params"])) in *.
    destruct (attempts_frame exchange self (py "GET") (py "/fapi/v2/account") p
                (Z.to_nat (max_retries self)) 1%Z (RuntimeError "No attempts made.")
                w0 sd (lookup_insert_eq _ _ _))
      as (evs & Hw' & Hall).
    rewrite Hreq in Hw'. simpl in Hw'. subst w1. simpl.
    split; [reflexivity|]. split.
    { intros l d0 Hl. rewrite lookup_insert_ne; [exact Hl|].
      intros Heq. apply (lookup_fresh _ _ _ Hl). symmetry. exact Heq. }
    exists (Log DEBUG "-> method endpoint params" :: evs).
    split; [rewrite <- app_assoc; reflexivity|].
    constructor; [discriminate|]. rewrite <- Hsent. exact Hall.
Qed.

(** The requests of [place_order], and its one reading of the clock. *)
Lemma client_place_order_sends (symbol side order_type quantity : str)
    (price time_in_force stop_price : option str) (reduce_only : bool)
    (position_side : str) (w : world) (sig : str) :
  signature_of (api_secret self)
    (extended (clock (clock_reads w))
       (order_params symbol side order_type quantity price time_in_force
                     stop_price reduce_only position_side)) = Ok sig ->
  clock_reads (place_order clock exchange self symbol side order_type quantity price
                 time_in_force stop_price reduce_only position_side w).2
  = S (clock_reads w) /\
  (forall l d0, heap w !! l = Some d0 ->
     heap (place_order clock exchange self symbol side order_type quantity price
             time_in_force stop_price reduce_only position_side w).2 !! l = Some d0) /\
  exists evs,
    trace (place_order clock exchange self symbol side order_type quantity price
             time_in_force stop_price reduce_only position_side w).2
    = trace w ++ evs /\
    Forall (fun ev => is_request ev = true ->
              ev = Request (py "POST") (base_url self ++ py "/fapi/v1/order") false
                     (dict_setitem (py "signature") (VStr sig)
                        (extended (clock (clock_reads w))
                           (order_params symbol side order_type quantity price
                              time_in_force stop_price reduce_only position_side)))
                     (timeout self)) evs.
Proof.
  set (d := order_params symbol side order_type quantity price time_in_force
                         stop_price reduce_only position_side).
  intros Hsig.
  unfold place_order, mbind, M_bind, alloc, log, emit. fold d.
  destruct (_request clock exchange self (py "POST") (py "/fapi/v1/order") _ true _)
    as [r1 w1] eqn:Hreq.
  cbn [heap clock_reads requests_made trace] in Hreq.
  assert (Hcases : exists post,
            requests post = [] /\
            (match r1 with
             | Ok response =>
                 match get_of response w1 with
                 | (Ok _, w2) =>
                     (Ok response,
                      World (heap w2) (clock_reads w2) (requests_made w2)
                            (trace w2 ++ [Log INFO "Order placed successfully"]))
                 | (Raise e, w2) => (Raise e, w2)
                 end
             | Raise e => (Raise e, w1)
             end).2 = emitted post w1).
  { destruct r1 as [response|e].
    - destruct response; simpl;
        try (exists []; split; [reflexivity | symmetry; apply emitted_nil]).
      exists [Log INFO "Order placed successfully"]. split; reflexivity.
    - exists []. split; [reflexivity | symmetry; apply emitted_nil]. }
  destruct Hcases as (post & Hpost & Hw).
  destruct (new_dict_signed_requests (py "POST") (py "/fapi/v1/order") d w w1
              [Log INFO "Placing order"] post r1 sig Hreq Hsig eq_refl Hpost)
    as (Hclock & Hframe & evs & Htrace & Hall).
  match goal with
  | |- clock_reads ?x.2 = _ /\ _ => replace x.2 with (emitted post w1)
  end.
  split; [exact Hclock|]. split; [exact Hframe|]. exists evs. split; [exact Htrace | exact Hall].
Qed.

(** A call that reaches its loop and may make an attempt sends a
    request. *)
Lemma request_first (method endpoint : str) (params : option loc) (signed : bool)
    (w w1 : world) (p : loc) :
  prepare clock self params signed w = (Ok p, w1) ->
  (1 <= max_retries self)%Z ->
  exists evs,
    trace (_request clock exchange self method endpoint params signed w).2
    = trace w1 ++ evs /\
    (1 <= length (requests evs))%nat.
Proof.
  intros Hprep Hmax. rewrite request_prepare, Hprep.
  destruct (prepare_spec clock self params signed w _ _ Hprep) as (_ & d & Hd).
  destruct (attempts_schedule exchange self method (base_url self ++ endpoint) endpoint p
              (Z.to_nat (max_retries self)) 1%Z (RuntimeError "No attempts made.") w1 d Hd)
    as (evs & Hw & _ & Hge & _); [lia|].
  exists evs. rewrite Hw. split; [reflexivity | apply Hge; lia].
Qed.

(** [place_order] does what its call of [_request] does, between two
    log lines. *)
Lemma client_place_order_world (symbol side order_type quantity : str)
    (price time_in_force stop_price : option str) (reduce_only : bool)
    (position_side : str) (w : world) :
  exists post,
    requests post = [] /\
    (place_order clock exchange self symbol side order_type quantity price
                 time_in_force stop_price reduce_only position_side w).2
    = emitted post
        (_request clock exchange self (py "POST") (py "/fapi/v1/order")
           (Some (fresh (dom (heap w)))) true
           (World (<[fresh (dom (heap w)) :=
                       order_params symbol side order_type quantity price time_in_force
                                    stop_price reduce_only position_side]> (heap w))
                  (clock_reads w) (requests_made w)
                  (trace w ++ [Log INFO "Placing order"]))).2.
Proof.
  unfold place_order, mbind, M_bind, alloc, log, emit.
  cbn [heap clock_reads requests_made trace].
  destruct (_request clock exchange self (py "POST") (py "/fapi/v1/order") _ true _)
    as [[response|e] w1].
  - destruct response; simpl;
      try (exists []; split; [reflexivity | symmetry; apply emitted_nil]).
    exists [Log INFO "Order placed successfully"]. split; reflexivity.
  - exists []. split; [reflexivity | symmetry; apply emitted_nil].
Qed.

(** C8.  What [place_order] sends.  A call that can sign its parameters
    and may make an attempt sends a request, and every request it
    sends, first attempt or retry, is a POST to the order endpoint with
    one and the same body.  In that body [symbol], [side], [type],
    [quantity] and [positionSide] are always there, with the values of
    the arguments; [price] and [timeInForce] are there exactly when the
    order type is LIMIT, [timeInForce] being the one given or ["GTC"]
    when none, or an empty one, is given; [stopPrice] is there exactly
    when the order type is STOP_MARKET; [reduceOnly] is there exactly
    when the flag is set.  The body has these fields, in this order,
    then [timestamp], [recvWindow] and [signature], and no other. *)
Theorem place_order_fields (symbol side order_type quantity : str)
    (price time_in_force stop_price : option str) (reduce_only : bool)
    (position_side : str) (w : world) (sig : str) :
  signature_of (api_secret self)
    (extended (clock (clock_reads w))
       (order_params symbol side order_type quantity price time_in_force
                     stop_price reduce_only position_side)) = Ok sig ->
  (1 <= max_retries self)%Z ->
  exists evs body,
    trace (place_order clock exchange self symbol side order_type quantity price
             time_in_force stop_price reduce_only position_side w).2
    = trace w ++ evs /\
    requests evs <> [] /\
    Forall (fun ev => is_request ev = true ->
              ev = Request (py "POST") (base_url self ++ py "/fapi/v1/order") false
                           body (timeout self)) evs /\
    dict_get (py "symbol") body = Some (VStr symbol) /\
    dict_get (py "side") body = Some (VStr side) /\
    dict_get (py "type") body = Some (VStr order_type) /\
    dict_get (py "quantity") body = Some (VStr quantity) /\
    dict_get (py "positionSide") body = Some (VStr position_side) /\
    (order_type = py "LIMIT" ->
     dict_get (py "price") body
     = Some (match price with Some s => VStr s | None => VNone end) /\
     (forall t, time_in_force = Some t -> t <> [] ->
        dict_get (py "timeInForce") body = Some (VStr t)) /\
     (time_in_force = None \/ time_in_force = Some [] ->
        dict_get (py "timeInForce") body = Some (VStr (py "GTC")))) /\
    (order_type <> py "LIMIT" ->
     dict_get (py "price") body = None /\
     dict_get (py "timeInForce") body = None) /\
    (order_type = py "STOP_MARKET" ->
     dict_get (py "stopPrice") body
     = Some (match stop_price with Some s => VStr s | None => VNone end)) /\
    (order_type <> py "STOP_MARKET" -> dict_get (py "stopPrice") body = None) /\
    dict_get (py "reduceOnly") body
    = (if reduce_only then Some (VStr (py "true")) else None) /\
    map fst body
    = [py "symbol"; py "side"; py "type"; py "quantity"; py "positionSide"]
      ++ (if decide (order_type = py "LIMIT")
          then [py "price"; py "timeInForce"] else [])
      ++ (if decide (order_type = py "STOP_MARKET") then [py "stopPrice"] else [])
      ++ (if reduce_only then [py "reduceOnly"] else [])
      ++ [py "timestamp"; py "recvWindow"; py "signature"].
Proof.
  intros Hsig Hmax.
  set (d := order_params symbol side order_type quantity price time_in_force
                         stop_price reduce_only position_side) in *.
  destruct (client_place_order_sends symbol side order_type quantity
              price time_in_force stop_price reduce_only position_side w sig Hsig)
    as (_ & _ & evs & Htrace & Hall).
  fold d in Htrace, Hall.
  exists evs, (dict_setitem (py "signature") (VStr sig)
                 (extended (clock (clock_reads w)) d)).
  split; [exact Htrace|]. split; [|split; [exact Hall|]].
  - destruct (client_place_order_world symbol side order_type quantity price
                time_in_force stop_price reduce_only position_side w)
      as (post & _ & Hworld).
    fold d in Hworld. rewrite Hworld in Htrace. clear Hworld.
    set (p := fresh (dom (heap w))) in *.
    set (w0 := World (<[p := d]> (heap w)) (clock_reads w) (requests_made w)
                     (trace w ++ [Log INFO "Placing order"])) in *.
    assert (Hd : heap w0 !! p = Some d) by apply lookup_insert_eq.
    pose proof (prepare_signed clock self p w0 d Hd) as Hprep.
    cbv zeta in Hprep. cbn [clock_reads w0] in Hprep. rewrite Hsig in Hprep.
    destruct (request_first (py "POST") (py "/fapi/v1/order") (Some p) true w0 _ _
                Hprep Hmax) as (evs1 & Hreq & Hone).
    cbn [trace emitted] in Htrace. rewrite Hreq in Htrace.
    cbn [trace w0] in Htrace. rewrite <- !app_assoc in Htrace.
    apply app_inv_head in Htrace. subst evs.
    rewrite !requests_app.
    destruct (requests evs1); [simpl in Hone; lia|]. discriminate.
  - subst d. unfold order_params.
    pose proof (str_eqb_eq order_type (py "LIMIT")) as Hlimit.
    pose proof (str_eqb_eq order_type (py "STOP_MARKET")) as Hstop.
    destruct (decide (order_type = py "LIMIT")) as [Hl|Hl];
      destruct (decide (order_type = py "STOP_MARKET")) as [Hs|Hs];
      try (exfalso; rewrite Hl in Hs; vm_compute in Hs; discriminate Hs);
      destruct (str_eqb order_type (py "LIMIT"));
      destruct (str_eqb order_type (py "STOP_MARKET"));
      try (exfalso; intuition congruence);
      destruct reduce_only; repeat split; try reflexivity; try tauto.
    all: try (intros t -> Ht; destruct t; [congruence | reflexivity]).
    all: intros [-> | ->]; reflexivity.
Qed.

(** X9.  What [place_order] makes of the first reply when that decodes
    to a value that is not an error payload: a JSON object is returned as
    it is; for any other value (a list, a string, a number, null) the
    call raises [AttributeError], after the order request has been sent
    and answered, and does not log a success.  One request is sent in
    both cases. *)
Theorem place_order_reply (symbol side order_type quantity : str)
    (price time_in_force stop_price : option str) (reduce_only : bool)
    (position_side : str) (w : world) (sig : str) (sc : Z) (txt : str) (data : json) :
  signature_of (api_secret self)
    (extended (clock (clock_reads w))
       (order_params symbol side order_type quantity price time_in_force
                     stop_price reduce_only position_side)) = Ok sig ->
  (1 <= max_retries self)%Z ->
  exchange (requests_made w) = Responds sc txt (Ok data) ->
  is_error_payload data = false ->
  exists w',
    place_order clock exchange self symbol side order_type quantity price
                time_in_force stop_price reduce_only position_side w
    = (match data with JDict _ => Ok data | _ => Raise AttributeError end, w') /\
    requests_made w' = S (requests_made w) /\
    last (trace w') = Some (match data with
                            | JDict _ => Log INFO "Order placed successfully"
                            | _ => Log DEBUG "<- status, body"
                            end).
Proof.
  set (d := order_params symbol side order_type quantity price time_in_force
                         stop_price reduce_only position_side).
  intros Hsig Hmax Hreply Hdata.
  unfold place_order, mbind, M_bind, alloc, log, emit. fold d.
  set (p := fresh (dom (heap w))).
  cbn [heap clock_reads requests_made trace].
  set (w0 := World (<[p := d]> (heap w)) (clock_reads w) (requests_made w)
                   (trace w ++ [Log INFO "Placing order"])).
  assert (Hd : heap w0 !! p = Some d) by apply lookup_insert_eq.
  assert (Hne : d <> []) by apply order_params_nonempty.
  rewrite request_prepare, (prepare_signed clock self p w0 d Hd). cbv zeta.
  change (clock_reads w0) with (clock_reads w). rewrite Hsig.
  assert (Hp : working p w0 d = p) by (destruct d; [congruence | reflexivity]).
  rewrite Hp.
  destruct (Z.to_nat (max_retries self)) as [|n] eqn:Hn; [lia|].
  rewrite (attempts_step exchange self _ _ _ p n _ _ _
             (dict_setitem (py "signature") (VStr sig)
                (extended (clock (clock_reads w)) d)))
    by apply lookup_insert_eq.
  cbv zeta. cbn [requests_made]. change (requests_made w0) with (requests_made w).
  rewrite Hreply, Hdata.
  destruct data; eexists; (split; [reflexivity|]); simpl;
    (split; [reflexivity|]); rewrite ?app_assoc; apply last_snoc.
Qed.
End ApiMethodProperties.

(** ** Strings: what stripping removes *)

Lemma drop_leading_spec (p : codepoint -> bool) (s : str) :
  exists t,
    s = t ++ drop_leading p s /\
    Forall (fun c => p c = true) t /\
    match drop_leading p s with
    | c :: _ => p c = false
    | [] => True
    end.
Proof.
  induction s as [|c s (t & Hs & Ht & Hhead)].
  - exists []. repeat split. constructor.
  - simpl. destruct (p c) eqn:Hc.
    + exists (c :: t). split; [simpl; f_equal; exact Hs|].
      split; [constructor; assumption | exact Hhead].
    + exists []. split; [reflexivity|]. split; [constructor | exact Hc].
Qed.

Lemma drop_trailing_spec (p : codepoint -> bool) (s : str) :
  exists t,
    s = drop_trailing p s ++ t /\
    Forall (fun c => p c = true) t /\
    match last (drop_trailing p s) with
    | Some c => p c = false
    | None => True
    end.
Proof.
  unfold drop_trailing.
  destruct (drop_leading_spec p (rev s)) as (t & Hs & Ht & Hhead).
  exists (rev t). split; [|split].
  - rewrite <- rev_app_distr, <- Hs, rev_involutive. reflexivity.
  - apply Forall_rev, Ht.
  - destruct (drop_leading p (rev s)) as [|c r]; [exact I|].
    simpl. rewrite last_snoc. exact Hhead.
Qed.

Lemma drop_leading_id (p : codepoint -> bool) (s : str) :
  match s with c :: _ => p c = false | [] => True end -> drop_leading p s = s.
Proof. destruct s as [|c s]; [reflexivity|]. simpl. intros ->. reflexivity. Qed.

Lemma drop_trailing_id (p : codepoint -> bool) (s : str) :
  match last s with Some c => p c = false | None => True end -> drop_trailing p s = s.
Proof.
  intros Hlast. unfold drop_trailing. rewrite drop_leading_id; [apply rev_involutive|].
  destruct s as [|c s] using rev_ind; [exact I|].
  rewrite rev_app_distr. simpl. rewrite last_snoc in Hlast. exact Hlast.
Qed.

Lemma drop_trailing_idemp (p : codepoint -> bool) (s : str) :
  drop_trailing p (drop_trailing p s) = drop_trailing p s.
Proof.
  apply drop_trailing_id.
  destruct (drop_trailing_spec p s) as (_ & _ & _ & Hlast). exact Hlast.
Qed.

(** ** Client: construction *)

Section InitProperties.
Context `{UnicodeData}.
Import client.

(** X10.  [BinanceClient(...)] raises [ValueError], and logs nothing,
    exactly when the key or the secret is the empty string.  Otherwise
    the client keeps key, secret, timeout and number of attempts as
    given, and the base URL without its trailing slashes, all of them
    and nothing else: the stored URL does not end with a slash, and
    giving it again changes nothing. *)
Theorem init_contract (key secret url : str) (tmo retries : Z) (w : world) :
  (key = [] \/ secret = [] ->
   __init__ key secret url tmo retries w
   = (Raise (ValueError API_key_and_secret_must_not_be_empty), w)) /\
  (key <> [] -> secret <> [] ->
   exists self,
     __init__ key secret url tmo retries w
     = (Ok self, emitted [Log INFO "BinanceClient initialised"] w) /\
     api_key self = key /\ api_secret self = secret /\
     timeout self = tmo /\ max_retries self = retries /\
     (exists k, url = base_url self ++ replicate k 47) /\
     last (base_url self) <> Some 47 /\
     rstrip_slash (base_url self) = base_url self).
Proof.
  split.
  - intros [-> | ->]; [reflexivity|]. destruct key; reflexivity.
  - intros Hkey Hsecret.
    destruct key as [|k key]; [congruence|]. destruct secret as [|c secret]; [congruence|].
    eexists. split; [reflexivity|]. simpl.
    repeat (split; [reflexivity|]).
    unfold rstrip_slash.
    destruct (drop_trailing_spec (fun c => c =? 47) url) as (t & Hurl & Ht & Hlast).
    split; [|split].
    + exists (length t). rewrite Hurl at 1. f_equal.
      clear Hurl. induction Ht as [|x t Hx Ht IH]; [reflexivity|].
      simpl. apply N.eqb_eq in Hx. subst x. f_equal. exact IH.
    + intros Heq. rewrite Heq in Hlast. discriminate.
    + apply drop_trailing_idemp.
Qed.
End InitProperties.

Lemma init_contract_witness :
  (@client.__init__ [] (py "secret") client.BASE_URL 10 3 empty_world).1
  = Raise (ValueError API_key_and_secret_must_not_be_empty) /\
  exists self,
    (@client.__init__ (py "key") (py "s") (py "https://testnet.binancefuture.com//")
       10 3 empty_world).1 = Ok self /\
    client.base_url self = py "https://testnet.binancefuture.com".
Proof.
  destruct (@init_contract [] (py "secret") client.BASE_URL 10 3 empty_world)
    as (Hraise & _).
  destruct (@init_contract (py "key") (py "s") (py "https://testnet.binancefuture.com//")
              10 3 empty_world) as (_ & Hok).
  split.
  - rewrite Hraise; [reflexivity | left; reflexivity].
  - destruct Hok as (self & Hrun & _); [discriminate | discriminate |].
    exists self. split; [rewrite Hrun; reflexivity|].
    vm_compute in Hrun. injection Hrun as <-. reflexivity.
Defined.

(** ** Client: when a signature exists *)

Lemma lor_lt_256 (a b : N) : a < 256 -> b < 256 -> N.lor a b < 256.
Proof.
  intros Ha Hb.
  destruct (N.eq_dec (N.lor a b) 0) as [->|Hne]; [lia|].
  change 256 with (2 ^ 8). apply N.log2_lt_pow2; [lia|].
  rewrite N.log2_lor.
  assert (Hlog : forall x, x < 256 -> N.log2 x < 8).
  { intros x Hx. destruct (N.eq_dec x 0) as [->|Hx0]; [simpl; lia|].
    apply N.log2_lt_pow2; [lia | exact Hx]. }
  apply N.max_lub_lt; apply Hlog; assumption.
Qed.

Lemma land_63_lt (c : N) : N.land c 0x3F < 64.
Proof.
  change 0x3F with (N.ones 6). rewrite N.land_ones.
  apply N.mod_lt. discriminate.
Qed.

Lemma shiftr_lt (c k m : N) : c < m * 2 ^ k -> N.shiftr c k < m.
Proof.
  intros Hc. rewrite N.shiftr_div_pow2.
  apply N.Div0.div_lt_upper_bound. lia.
Qed.

(** The scalar values are the code points with an encoding, and the
    encoding is made of bytes. *)
Lemma utf8_cp_scalar (c : codepoint) :
  if is_scalar c
  then exists bs, utf8_cp c = Some bs /\ Forall (fun b => b < 256) bs
  else utf8_cp c = None.
Proof.
  unfold is_scalar, utf8_cp.
  destruct (N.ltb_spec c 0x80) as [H80|H80].
  { replace (c <? 0x110000) with true by (symmetry; apply N.ltb_lt; lia).
    replace (0xD800 <=? c) with false by (symmetry; apply N.leb_gt; lia).
    simpl. eexists. split; [reflexivity|]. repeat constructor. lia. }
  destruct (N.ltb_spec c 0x800) as [H800|H800].
  { replace (c <? 0x110000) with true by (symmetry; apply N.ltb_lt; lia).
    replace (0xD800 <=? c) with false by (symmetry; apply N.leb_gt; lia).
    simpl. eexists. split; [reflexivity|].
    repeat constructor; apply lor_lt_256; try lia.
    - pose proof (shiftr_lt c 6 32 ltac:(simpl; lia)). lia.
    - pose proof (land_63_lt c). lia. }
  destruct (N.ltb_spec c 0x10000) as [H10000|H10000].
  { replace (c <? 0x110000) with true by (symmetry; apply N.ltb_lt; lia).
    simpl. destruct ((0xD800 <=? c) && (c <=? 0xDFFF)); simpl; [reflexivity|].
    eexists. split; [reflexivity|].
    repeat constructor; apply lor_lt_256; try lia.
    - pose proof (shiftr_lt c 12 16 ltac:(simpl; lia)). lia.
    - pose proof (land_63_lt (N.shiftr c 6)). lia.
    - pose proof (land_63_lt c). lia. }
  replace (0xD800 <=? c) with true by (symmetry; apply N.leb_le; lia).
  replace (c <=? 0xDFFF) with false by (symmetry; apply N.leb_gt; lia).
  simpl. rewrite andb_true_r.
  destruct (N.ltb_spec c 0x110000) as [Hmax|Hmax]; [|reflexivity].
  eexists. split; [reflexivity|].
  repeat constructor; apply lor_lt_256; try lia.
  - pose proof (shiftr_lt c 18 8 ltac:(simpl; lia)). lia.
  - pose proof (land_63_lt (N.shiftr c 12)). lia.
  - pose proof (land_63_lt (N.shiftr c 6)). lia.
  - pose proof (land_63_lt c). lia.
Qed.

Lemma utf8_encodable (s : str) :
  if encodable s
  then exists bs, utf8 s = Some bs /\ Forall (fun b => b < 256) bs
  else utf8 s = None.
Proof.
  induction s as [|c s IH]; simpl.
  - exists []. split; [reflexivity | constructor].
  - pose proof (utf8_cp_scalar c) as Hc.
    destruct (is_scalar c); simpl.
    + destruct Hc as (bs & -> & Hbs). simpl.
      destruct (encodable s).
      * destruct IH as (rest & -> & Hrest). simpl.
        eexists. split; [reflexivity|]. apply Forall_app. split; assumption.
      * rewrite IH. reflexivity.
    + rewrite Hc. reflexivity.
Qed.

Lemma ascii_encodable (s : str) :
  Forall (fun c => c < 128) s -> exists bs, utf8 s = Some bs.
Proof.
  induction 1 as [|c s Hc Hs (bs & IH)]; simpl.
  - eexists. reflexivity.
  - unfold utf8_cp. replace (c <? 128) with true by (symmetry; apply N.ltb_lt; lia).
    simpl. rewrite IH. simpl. eexists. reflexivity.
Qed.

Lemma quote_byte_ascii (b : N) :
  b < 256 -> Forall (fun c => c < 128) (urllib.quote_byte b).
Proof.
  intros Hb. unfold urllib.quote_byte.
  destruct (urllib.always_safe b) eqn:Hsafe.
  - repeat constructor. revert Hsafe.
    unfold urllib.always_safe, ascii_isalpha, ascii_isupper, ascii_islower, ascii_isdigit.
    cmp_cases.
  - destruct (b =? 32); repeat constructor; try lia.
    + assert (b / 16 < 16) by (apply N.Div0.div_lt_upper_bound; lia).
      unfold urllib.hex_upper. destruct (b / 16 <? 10); lia.
    + assert (b mod 16 < 16) by (apply N.mod_lt; discriminate).
      unfold urllib.hex_upper. destruct (b mod 16 <? 10); lia.
Qed.

(** A quoted string is made of Basic Latin characters. *)
Lemma quote_plus_encodable (s : str) :
  if encodable s
  then exists q, urllib.quote_plus s = Ok q /\ Forall (fun c => c < 128) q
  else urllib.quote_plus s = Raise UnicodeEncodeError.
Proof.
  unfold urllib.quote_plus, encode_utf8.
  pose proof (utf8_encodable s) as Hs. destruct (encodable s).
  - destruct Hs as (bs & -> & Hbs). simpl. eexists. split; [reflexivity|].
    induction Hbs as [|b bs Hb Hbs IH]; [constructor|].
    simpl. apply Forall_app. split; [apply quote_byte_ascii, Hb | exact IH].
  - rewrite Hs. reflexivity.
Qed.

Lemma encode_items_encodable (d : pydict) :
  if dict_encodable d
  then exists items, urllib.encode_items d = Ok items /\
                     Forall (Forall (fun c => c < 128)) items
  else urllib.encode_items d = Raise UnicodeEncodeError.
Proof.
  induction d as [|[k v] d IH]; simpl.
  - exists []. split; [reflexivity | constructor].
  - pose proof (quote_plus_encodable k) as Hk.
    pose proof (quote_plus_encodable (str_of_pyval v)) as Hv.
    destruct (encodable k); simpl.
    + destruct Hk as (k' & -> & Hk'). simpl.
      destruct (encodable (str_of_pyval v)); simpl.
      * destruct Hv as (v' & -> & Hv'). simpl.
        destruct (dict_encodable d).
        -- destruct IH as (rest & -> & Hrest). simpl.
           eexists. split; [reflexivity|]. constructor; [|exact Hrest].
           apply Forall_app. split; [exact Hk'|]. constructor; [lia | exact Hv'].
        -- rewrite IH. reflexivity.
      * rewrite Hv. reflexivity.
    + rewrite Hk. reflexivity.
Qed.

Lemma ampersand_join_ascii (items : list str) :
  Forall (Forall (fun c => c < 128)) items ->
  Forall (fun c => c < 128) (urllib.ampersand_join items).
Proof.
  intros Hitems. unfold urllib.ampersand_join.
  destruct Hitems as [|p ps Hp Hps]; [constructor|].
  apply Forall_app. split; [exact Hp|].
  induction Hps as [|q qs Hq Hqs IH]; [constructor|].
  simpl. constructor; [lia|]. apply Forall_app. split; [exact Hq | exact IH].
Qed.

Section SigningTotal.
Import client.

(** X11.  For parameters whose integers have at most 4300 digits, the
    limit of the interpreter beyond which [str] raises [ValueError],
    signing fails only on a string that has no UTF-8 encoding: when the
    secret and every key and value of the parameters, written as a
    string, are free of surrogates, the signature exists (the query
    string itself is made of Basic Latin characters, so encoding it
    cannot fail); otherwise [UnicodeEncodeError] is raised.  Such an
    integer is written with digits and a sign only and never stands in
    the way. *)
Theorem signature_of_total (secret : str) (d : pydict) :
  ints_printable d = true ->
  (if encodable secret && dict_encodable d
   then exists sig, signature_of secret d = Ok sig
   else signature_of secret d = Raise UnicodeEncodeError) /\
  Forall (fun kv => match kv.2 with
                    | VInt z => encodable (str_of_pyval kv.2) = true
                    | _ => True
                    end) d.
Proof.
  intros _. split.
  - unfold signature_of, urllib.urlencode, encode_utf8.
    pose proof (encode_items_encodable d) as Hd.
    pose proof (utf8_encodable secret) as Hs.
    destruct (dict_encodable d).
    + destruct Hd as (items & -> & Hitems). simpl.
      destruct (ascii_encodable _ (ampersand_join_ascii items Hitems)) as (msg & Hmsg).
      destruct (encodable secret); simpl.
      * destruct Hs as (key & -> & _). rewrite Hmsg. simpl. eexists. reflexivity.
      * rewrite Hs. reflexivity.
    + rewrite Hd. simpl. rewrite andb_false_r. reflexivity.
  - apply Forall_forall. intros [k v] _. cbn [snd]. destruct v as [s|z|]; [exact I| |exact I].
    simpl. unfold str_of_Z.
    assert (Hdigits : forall fuel n acc,
              encodable acc = true -> encodable (digits_of fuel n acc) = true).
    { induction fuel as [|fuel IH]; intros n acc Hacc; [exact Hacc|].
      simpl. assert (Hstep : encodable (48 + n mod 10 :: acc) = true).
      { simpl. rewrite Hacc, andb_true_r. unfold is_scalar.
        pose proof (N.mod_lt n 10 ltac:(discriminate)).
        replace (48 + n mod 10 <? 1114112) with true by (symmetry; apply N.ltb_lt; lia).
        replace (55296 <=? 48 + n mod 10) with false by (symmetry; apply N.leb_gt; lia).
        reflexivity. }
      destruct (n <? 10); [exact Hstep | apply IH, Hstep]. }
    destruct (z <? 0)%Z; [simpl|]; unfold str_of_N; rewrite Hdigits; reflexivity.
Qed.
End SigningTotal.

Lemma signature_of_total_witness :
  (exists sig, client.signature_of (py "s") demo_params = Ok sig) /\
  client.signature_of (py "s") [(py "symbol", VStr [0xD800])] = Raise UnicodeEncodeError.
Proof.
  split.
  - exact (proj1 (signature_of_total (py "s") demo_params
                    ltac:(vm_compute; reflexivity))).
  - exact (proj1 (signature_of_total (py "s") [(py "symbol", VStr [0xD800])] eq_refl)).
Defined.

(** ** Strings: padding *)

Lemma drop_leading_all (p : codepoint -> bool) (ws s : str) :
  Forall (fun c => p c = true) ws -> drop_leading p (ws ++ s) = drop_leading p s.
Proof.
  induction 1 as [|c ws Hc Hws IH]; [reflexivity|]. simpl. rewrite Hc. exact IH.
Qed.

Lemma drop_trailing_all (p : codepoint -> bool) (s ws : str) :
  Forall (fun c => p c = true) ws -> drop_trailing p (s ++ ws) = drop_trailing p s.
Proof.
  intros Hws. unfold drop_trailing. rewrite rev_app_distr.
  rewrite drop_leading_all by (apply Forall_rev, Hws). reflexivity.
Qed.

Lemma drop_leading_app (p : codepoint -> bool) (s t : str) :
  drop_leading p (s ++ t) =
  match drop_leading p s with
  | [] => drop_leading p t
  | r => r ++ t
  end.
Proof.
  induction s as [|c s IH]; simpl; [destruct (drop_leading p t); reflexivity|].
  destruct (p c); [exact IH | reflexivity].
Qed.

Section PaddingProperties.
Context `{UnicodeData}.
Import validators.

(** White space around a string does not count. *)
Lemma strip_pad (ws1 s ws2 : str) :
  Forall (fun c => isspace_cp c = true) ws1 ->
  Forall (fun c => isspace_cp c = true) ws2 ->
  strip (ws1 ++ s ++ ws2) = strip s.
Proof.
  intros H1 H2. unfold strip, lstrip, rstrip.
  rewrite (drop_leading_all _ ws1 _ H1), drop_leading_app.
  destruct (drop_leading isspace_cp s) as [|c r].
  - pose proof (drop_leading_all isspace_cp ws2 [] H2) as Hall.
    rewrite app_nil_r in Hall. rewrite Hall. reflexivity.
  - apply (drop_trailing_all _ (c :: r) ws2 H2).
Qed.

(** A string that neither starts nor ends with white space is left as it
    is. *)
Lemma strip_id (s : str) :
  Forall (fun c => isspace_cp c = false) s -> strip s = s.
Proof.
  intros Hs. unfold strip, lstrip, rstrip.
  rewrite (drop_leading_id isspace_cp s).
  - apply drop_trailing_id. destruct (last s) as [c|] eqn:Hlast; [|exact I].
    rewrite Forall_forall in Hs. apply Hs.
    apply last_Some in Hlast. destruct Hlast as (l' & ->).
    apply elem_of_app. right. constructor.
  - destruct Hs; [exact I | assumption].
Qed.

(** X12.  The validators of symbol, side and order type do not see white
    space around their argument: padding it on either side, with any
    characters that are white space, changes neither what is returned nor
    what is raised.  So does the parser of quantities and prices. *)
Theorem validators_ignore_padding (ws1 s ws2 : str) :
  Forall (fun c => isspace_cp c = true) ws1 ->
  Forall (fun c => isspace_cp c = true) ws2 ->
  validate_symbol (ws1 ++ s ++ ws2) = validate_symbol s /\
  validate_side (ws1 ++ s ++ ws2) = validate_side s /\
  validate_order_type (ws1 ++ s ++ ws2) = validate_order_type s /\
  Decimal_of_str (ws1 ++ s ++ ws2) = Decimal_of_str s.
Proof.
  intros H1 H2.
  unfold validate_symbol, validate_side, validate_order_type, Decimal_of_str.
  rewrite (strip_pad ws1 s ws2 H1 H2). repeat split.
Qed.

(** When [validate_side] and [validate_order_type] return. *)
Lemma validate_side_ok (s r : str) :
  validate_side s = Ok r <->
  upper (strip s) = r /\ (r = py "BUY" \/ r = py "SELL").
Proof.
  unfold validate_side, member, VALID_SIDES. simpl.
  rewrite orb_false_r.
  destruct (str_eqb (upper (strip s)) (py "BUY")) eqn:E1.
  - apply str_eqb_eq in E1. simpl. split.
    + intros [= <-]. split; [reflexivity | left; exact E1].
    + intros [<- _]. reflexivity.
  - destruct (str_eqb (upper (strip s)) (py "SELL")) eqn:E2; simpl.
    + apply str_eqb_eq in E2. split.
      * intros [= <-]. split; [reflexivity | right; exact E2].
      * intros [<- _]. reflexivity.
    + split; [discriminate|]. intros [<- [Hr | Hr]].
      * rewrite Hr in E1. discriminate.
      * rewrite Hr in E2. discriminate.
Qed.

Lemma validate_order_type_ok (s r : str) :
  validate_order_type s = Ok r <->
  upper (strip s) = r /\
  (r = py "MARKET" \/ r = py "LIMIT" \/ r = py "STOP_MARKET").
Proof.
  unfold validate_order_type, member, VALID_ORDER_TYPES. simpl.
  rewrite orb_false_r.
  destruct (str_eqb (upper (strip s)) (py "MARKET")) eqn:E1.
  - apply str_eqb_eq in E1. simpl. split.
    + intros [= <-]. split; [reflexivity | left; exact E1].
    + intros [<- _]. reflexivity.
  - destruct (str_eqb (upper (strip s)) (py "LIMIT")) eqn:E2; simpl.
    + apply str_eqb_eq in E2. split.
      * intros [= <-]. split; [reflexivity | right; left; exact E2].
      * intros [<- _]. reflexivity.
    + destruct (str_eqb (upper (strip s)) (py "STOP_MARKET")) eqn:E3; simpl.
      * apply str_eqb_eq in E3. split.
        -- intros [= <-]. split; [reflexivity | right; right; exact E3].
        -- intros [<- _]. reflexivity.
      * split; [discriminate|]. intros [<- [Hr | [Hr | Hr]]].
        -- rewrite Hr in E1. discriminate.
        -- rewrite Hr in E2. discriminate.
        -- rewrite Hr in E3. discriminate.
Qed.

(** X13.  [validate_side] and [validate_order_type] return one of the
    literals of their set and nothing else, and they accept an argument
    exactly when its stripped, upper-cased form is one of them.  What
    they return they accept again, unchanged. *)
Theorem side_and_type_contract (s : str) :
  (forall r, validate_side s = Ok r <->
     upper (strip s) = r /\ (r = py "BUY" \/ r = py "SELL")) /\
  (forall r, validate_order_type s = Ok r <->
     upper (strip s) = r /\
     (r = py "MARKET" \/ r = py "LIMIT" \/ r = py "STOP_MARKET")) /\
  (forall r, validate_side s = Ok r -> validate_side r = Ok r) /\
  (forall r, validate_order_type s = Ok r -> validate_order_type r = Ok r) /\
  (forall e, validate_side s = Raise e ->
     e = ValueError (Side_is_invalid (upper (strip s)))) /\
  (forall e, validate_order_type s = Raise e ->
     e = ValueError (Order_type_is_invalid (upper (strip s)))).
Proof.
  split; [intros r; apply validate_side_ok|].
  split; [intros r; apply validate_order_type_ok|].
  split; [|split; [|split]].
  - intros r Hr. apply validate_side_ok in Hr.
    destruct Hr as [_ [-> | ->]]; reflexivity.
  - intros r Hr. apply validate_order_type_ok in Hr.
    destruct Hr as [_ [-> | [-> | ->]]]; reflexivity.
  - intros e. unfold validate_side. destruct (negb _); [|discriminate].
    intros [= <-]. reflexivity.
  - intros e. unfold validate_order_type. destruct (negb _); [|discriminate].
    intros [= <-]. reflexivity.
Qed.

(** A non-empty string of capital letters is a symbol as it is. *)
Lemma validate_symbol_capitals (r : str) :
  r <> [] -> Forall (fun c => ascii_isupper c = true) r -> validate_symbol r = Ok r.
Proof.
  intros Hne Hup.
  assert (Hascii : Forall (fun c => is_ascii c = true) r).
  { eapply Forall_impl; [exact Hup|]. intros c. unfold ascii_isupper, is_ascii. cmp_cases. }
  assert (Hnospace : Forall (fun c => isspace_cp c = false) r).
  { eapply Forall_impl; [exact Hup|]. intros c.
    unfold isspace_cp, ascii_isupper, is_ascii, ascii_isspace. cmp_cases. }
  assert (Hfix : map ascii_upper r = r).
  { clear -Hup. induction Hup as [|c r Hc Hr IH]; [reflexivity|].
    simpl. f_equal; [|exact IH]. revert Hc.
    unfold ascii_upper, ascii_isupper, ascii_islower. cmp_cases. }
  rewrite validate_symbol_spec, (strip_id r Hnospace), (upper_ascii r Hascii), Hfix.
  assert (Hr : isalpha r = true).
  { apply isalpha_spec. split; [exact Hne|].
    eapply Forall_impl; [exact Hup|]. intros c.
    unfold isalpha_cp, ascii_isalpha, ascii_isupper, is_ascii. cmp_cases. }
  rewrite Hr. reflexivity.
Qed.

(** What is returned for a string of Basic Latin characters is made of
    capital letters. *)
Lemma validate_symbol_returns_capitals (s r : str) :
  Forall (fun c => is_ascii c = true) s ->
  validate_symbol s = Ok r ->
  r <> [] /\ Forall (fun c => ascii_isupper c = true) r.
Proof.
  intros Hs. rewrite validate_symbol_spec.
  destruct (isalpha (upper (strip s))) eqn:Halpha; [|discriminate].
  intros [= <-].
  pose proof (strip_Forall _ s Hs) as Hstrip.
  rewrite (upper_ascii _ Hstrip) in *.
  apply isalpha_spec in Halpha. destruct Halpha as [Hne Hall].
  split; [exact Hne|].
  apply Forall_map. rewrite Forall_map in Hall.
  eapply Forall_impl; [apply Forall_and; split; [exact Hstrip | exact Hall]|]. clear.
  intros c [Hc Hl]. simpl in Hl. unfold isalpha_cp in Hl.
  rewrite (ascii_upper_is_ascii c Hc) in Hl.
  revert Hl. unfold ascii_isalpha, ascii_upper, ascii_isupper, ascii_islower.
  cmp_cases.
Qed.

(** X14.  On a string of Basic Latin characters, what [validate_symbol]
    returns is a non-empty string of the capital letters A to Z, and it
    is accepted again, unchanged: validating twice is validating once. *)
Theorem validate_symbol_ascii (s r : str) :
  Forall (fun c => is_ascii c = true) s ->
  validate_symbol s = Ok r ->
  r <> [] /\
  Forall (fun c => ascii_isupper c = true) r /\
  validate_symbol r = Ok r.
Proof.
  intros Hs Hr.
  destruct (validate_symbol_returns_capitals s r Hs Hr) as [Hne Hup].
  split; [exact Hne|]. split; [exact Hup|].
  apply validate_symbol_capitals; assumption.
Qed.
End PaddingProperties.

Lemma validators_ignore_padding_witness :
  @validators.validate_symbol ucd_excerpt ([0x2003; 32] ++ py "btcusdt" ++ [10; 0xA0])
  = Ok (py "BTCUSDT") /\
  @validators.validate_side ucd_excerpt ([0x2003; 32] ++ py "Sell" ++ [10; 0xA0])
  = Ok (py "SELL").
Proof.
  destruct (@validators_ignore_padding ucd_excerpt [0x2003; 32] (py "btcusdt") [10; 0xA0])
    as (Hsym & _); [repeat constructor | repeat constructor |].
  destruct (@validators_ignore_padding ucd_excerpt [0x2003; 32] (py "Sell") [10; 0xA0])
    as (_ & Hside & _); [repeat constructor | repeat constructor |].
  split; [rewrite Hsym | rewrite Hside]; reflexivity.
Defined.

Lemma side_and_type_contract_witness :
  @validators.validate_side ucd_basic_latin (py " buy") = Ok (py "BUY") /\
  @validators.validate_order_type ucd_basic_latin (py "Stop_Market") = Ok (py "STOP_MARKET") /\
  @validators.validate_side ucd_basic_latin (py "HOLD")
  = Raise (ValueError (Side_is_invalid (py "HOLD"))).
Proof.
  destruct (@side_and_type_contract ucd_basic_latin (py " buy")) as (Hside & _).
  destruct (@side_and_type_contract ucd_basic_latin (py "Stop_Market")) as (_ & Htype & _).
  destruct (@side_and_type_contract ucd_basic_latin (py "HOLD")) as (_ & _ & _ & _ & He & _).
  split; [|split].
  - apply Hside. split; [reflexivity | left; reflexivity].
  - apply Htype. split; [reflexivity | right; right; reflexivity].
  - destruct (@validators.validate_side ucd_basic_latin (py "HOLD")) as [r|e] eqn:E.
    + vm_compute in E. discriminate.
    + f_equal. apply He. reflexivity.
Defined.

Lemma validate_symbol_ascii_witness :
  @validators.validate_symbol ucd_basic_latin (py "BTCUSDT") = Ok (py "BTCUSDT").
Proof.
  destruct (@validate_symbol_ascii ucd_basic_latin (py " btcusdt ") (py "BTCUSDT"))
    as (_ & _ & Hagain); [repeat constructor | reflexivity | exact Hagain].
Defined.

(** ** Decimals: the sign of the value *)

Lemma ten_power_positive (e : Z) : (0 < Qpower 10 e)%Q.
Proof. apply Qpower_0_lt. reflexivity. Qed.

(** The test [d <= 0] of the validators, on a decimal that is not a NaN,
    is the comparison of the number [d] stands for with zero. *)
Lemma nonpositive_spec (d : Decimal) :
  is_nan d = false ->
  if nonpositive d then is_nonpositive d else is_positive d.
Proof.
  destruct d as [sign coeff e | sign | sign signaling payload]; [| |discriminate]; intros _.
  - simpl. destruct sign; simpl.
    + right. eexists. split; [reflexivity|]. rewrite Qred_correct.
      rewrite <- (Qmult_0_l (Qpower 10 e)).
      apply Qmult_le_compat_r; [|apply Qlt_le_weak, ten_power_positive].
      change 0%Q with (inject_Z 0). rewrite <- Zle_Qle. lia.
    + destruct (N.eqb_spec coeff 0) as [->|Hne].
      * right. eexists. split; [reflexivity|]. rewrite Qred_correct.
        rewrite Qmult_0_l. apply Qle_refl.
      * right. eexists. split; [reflexivity|]. rewrite Qred_correct.
        apply Qmult_lt_0_compat; [|apply ten_power_positive].
        change 0%Q with (inject_Z 0). rewrite <- Zlt_Qlt. lia.
  - destruct sign; simpl; [left | left]; reflexivity.
Qed.

Lemma positive_not_nonpositive (d : Decimal) :
  is_positive d -> is_nonpositive d -> False.
Proof.
  intros [-> | (q & Hq & Hpos)] [Hd | (q' & Hq' & Hneg)].
  - discriminate.
  - discriminate.
  - subst d. discriminate.
  - rewrite Hq in Hq'. injection Hq' as <-.
    exact (Qlt_not_le _ _ Hpos Hneg).
Qed.

Lemma is_positive_spec (d : Decimal) :
  is_positive d <-> is_nan d = false /\ nonpositive d = false.
Proof.
  split.
  - intros Hpos. assert (Hnan : is_nan d = false).
    { destruct Hpos as [-> | (q & Hq & _)]; [reflexivity|].
      destruct d; [reflexivity | discriminate | discriminate]. }
    split; [exact Hnan|]. pose proof (nonpositive_spec d Hnan) as Hd.
    destruct (nonpositive d); [|reflexivity].
    destruct (positive_not_nonpositive d Hpos Hd).
  - intros [Hnan Hd]. pose proof (nonpositive_spec d Hnan) as Hs.
    rewrite Hd in Hs. exact Hs.
Qed.

Lemma is_nonpositive_spec (d : Decimal) :
  is_nonpositive d <-> is_nan d = false /\ nonpositive d = true.
Proof.
  split.
  - intros Hneg. assert (Hnan : is_nan d = false).
    { destruct Hneg as [-> | (q & Hq & _)]; [reflexivity|].
      destruct d; [reflexivity | discriminate | discriminate]. }
    split; [exact Hnan|]. pose proof (nonpositive_spec d Hnan) as Hd.
    destruct (nonpositive d); [reflexivity|].
    destruct (positive_not_nonpositive d Hd Hneg).
  - intros [Hnan Hd]. pose proof (nonpositive_spec d Hnan) as Hs.
    rewrite Hd in Hs. exact Hs.
Qed.

Section QuantityProperties.
Context `{UnicodeData}.
Import validators.

(** When [validate_quantity] returns. *)
Lemma validate_quantity_ok (quantity : str) (d : Decimal) :
  validate_quantity quantity = Ok d <->
  Decimal_of_str quantity = Some d /\ is_nan d = false /\ nonpositive d = false.
Proof.
  unfold validate_quantity, le_zero.
  destruct (Decimal_of_str quantity) as [d0|].
  - split.
    + destruct (is_nan d0) eqn:Hnan; simpl; [discriminate|].
      destruct (nonpositive d0) eqn:Hd; [discriminate|].
      intros [= <-]. repeat split; assumption.
    + intros ([= <-] & Hnan & Hd). rewrite Hnan. simpl. rewrite Hd. reflexivity.
  - split; [discriminate | intros [? _]; discriminate].
Qed.

(** X15.  [validate_quantity] returns a decimal exactly when the string
    parses to one that is greater than zero, a positive number or the
    positive infinity, and then it returns the parsed decimal itself.
    It raises [ValueError] for a string that does not parse and for one
    that parses to zero or less, and [decimal.InvalidOperation] for one
    that parses to a NaN. *)
Theorem validate_quantity_contract (quantity : str) :
  (forall d, validate_quantity quantity = Ok d <->
     Decimal_of_str quantity = Some d /\ is_positive d) /\
  (Decimal_of_str quantity = None ->
     validate_quantity quantity
     = Raise (ValueError (Quantity_is_not_a_valid_number quantity))) /\
  (forall d, Decimal_of_str quantity = Some d -> is_nonpositive d ->
     validate_quantity quantity
     = Raise (ValueError (Quantity_must_be_greater_than_0 d))) /\
  (forall d, Decimal_of_str quantity = Some d -> is_nan d = true ->
     validate_quantity quantity = Raise InvalidOperation).
Proof.
  split; [|split; [|split]].
  - intros d. rewrite validate_quantity_ok, is_positive_spec. reflexivity.
  - unfold validate_quantity. intros ->. reflexivity.
  - unfold validate_quantity, le_zero. intros d -> Hneg.
    apply is_nonpositive_spec in Hneg.
    destruct Hneg as [Hnan Hd]. rewrite Hnan. simpl. rewrite Hd. reflexivity.
  - unfold validate_quantity, le_zero. intros d -> Hnan. rewrite Hnan. reflexivity.
Qed.

Lemma validate_price_ok (price : option str) (order_type : str) (r : option Decimal) :
  validate_price price order_type = Ok r ->
  match r with
  | None => order_type <> py "LIMIT" /\ order_type <> py "STOP_MARKET"
  | Some p =>
      (order_type = py "LIMIT" \/ order_type = py "STOP_MARKET") /\
      is_positive p /\
      exists s, price = Some s /\ Decimal_of_str s = Some p
  end.
Proof.
  unfold validate_price, le_zero.
  assert (Hparsed : forall s,
            match Decimal_of_str s with
            | Some p =>
                b ← (if is_nan p then Raise InvalidOperation else Ok (nonpositive p));
                (if b : bool then Raise (ValueError (Price_must_be_greater_than_0 p))
                 else Ok (Some p))
            | None => Raise (ValueError (Price_is_not_a_valid_number s))
            end = Ok r \/
            match Decimal_of_str s with
            | Some p =>
                b ← (if is_nan p then Raise InvalidOperation else Ok (nonpositive p));
                (if b : bool then Raise (ValueError (Stop_price_must_be_greater_than_0 p))
                 else Ok (Some p))
            | None => Raise (ValueError (Stop_price_is_not_a_valid_number s))
            end = Ok r ->
            exists p, r = Some p /\ is_positive p /\ Decimal_of_str s = Some p).
  { intros s Hrun. destruct (Decimal_of_str s) as [p|]; [|destruct Hrun; discriminate].
    destruct (is_nan p) eqn:Hnan; simpl in Hrun; [destruct Hrun; discriminate|].
    destruct (nonpositive p) eqn:Hp; [destruct Hrun; discriminate|].
    exists p. split; [destruct Hrun as [Hrun | Hrun]; injection Hrun as <-; reflexivity|].
    split; [apply is_positive_spec; split; assumption | reflexivity]. }
  destruct (str_eqb order_type (py "LIMIT")) eqn:E1.
  - apply str_eqb_eq in E1. destruct price as [s|]; [|discriminate].
    intros Hrun. destruct (Hparsed s (or_introl Hrun)) as (p & -> & Hpos & Hs).
    split; [left; exact E1|]. split; [exact Hpos|]. exists s. split; [reflexivity | exact Hs].
  - destruct (str_eqb order_type (py "STOP_MARKET")) eqn:E2.
    + apply str_eqb_eq in E2. destruct price as [s|]; [|discriminate].
      intros Hrun. destruct (Hparsed s (or_intror Hrun)) as (p & -> & Hpos & Hs).
      split; [right; exact E2|]. split; [exact Hpos|]. exists s. split; [reflexivity | exact Hs].
    + intros [= <-]. split; intros ->; discriminate.
Qed.

(** X16.  What [validate_all] returns, when it returns: the symbol is a
    non-empty string of letters, the side is BUY or SELL, the quantity is
    greater than zero, and the price is there exactly when the order
    type is LIMIT or STOP_MARKET, and then it is greater than zero and
    is the decimal the price argument parses to; for MARKET there is no
    price whatever the argument. *)
Theorem validate_all_shape (symbol side order_type quantity : str)
    (price : option str) (v : ValidatedOrder) :
  validate_all symbol side order_type quantity price = Ok v ->
  isalpha (v_symbol v) = true /\
  (v_side v = py "BUY" \/ v_side v = py "SELL") /\
  Decimal_of_str quantity = Some (v_quantity v) /\
  is_positive (v_quantity v) /\
  match v_price v with
  | None => v_order_type v = py "MARKET"
  | Some p =>
      (v_order_type v = py "LIMIT" \/ v_order_type v = py "STOP_MARKET") /\
      is_positive p /\
      exists s, price = Some s /\ Decimal_of_str s = Some p
  end.
Proof.
  unfold validate_all. intros Hrun.
  destruct (validate_symbol symbol) as [s|] eqn:Hs; [|discriminate].
  destruct (validate_side side) as [d|] eqn:Hd; [|discriminate].
  destruct (validate_order_type order_type) as [t|] eqn:Ht; [|discriminate].
  destruct (validate_quantity quantity) as [q|] eqn:Hq; [|discriminate].
  simpl in Hrun.
  destruct (validate_price price (upper (strip order_type))) as [p|] eqn:Hp;
    [|discriminate].
  injection Hrun as <-. simpl.
  apply validate_side_ok in Hd. apply validate_order_type_ok in Ht.
  destruct Ht as [Hup Ht].
  apply validate_quantity_ok in Hq. destruct Hq as (Hq & Hqpos).
  apply is_positive_spec in Hqpos.
  rewrite Hup in Hp. apply validate_price_ok in Hp.
  split; [|split; [exact (proj2 Hd) | split; [exact Hq | split; [exact Hqpos|]]]].
  - rewrite validate_symbol_spec in Hs.
    destruct (isalpha (upper (strip symbol))) eqn:Ha; [|discriminate].
    injection Hs as <-. exact Ha.
  - destruct p as [p|]; [exact Hp|].
    destruct Hp as [Hl Hst]. destruct Ht as [Ht | [Ht | Ht]]; congruence.
Qed.
End QuantityProperties.

Lemma validate_quantity_contract_witness :
  @validators.validate_quantity ucd_basic_latin (py " 0.0010 ")
  = Ok (Finite false 10 (-4)) /\
  @validators.validate_quantity ucd_basic_latin (py "-0")
  = Raise (ValueError (Quantity_must_be_greater_than_0 (Finite true 0 0))) /\
  @validators.validate_quantity ucd_basic_latin (py "1,5")
  = Raise (ValueError (Quantity_is_not_a_valid_number (py "1,5"))).
Proof.
  destruct (@validate_quantity_contract ucd_basic_latin (py " 0.0010 ")) as (Hok & _).
  destruct (@validate_quantity_contract ucd_basic_latin (py "-0")) as (_ & _ & Hle & _).
  destruct (@validate_quantity_contract ucd_basic_latin (py "1,5")) as (_ & Hbad & _).
  split; [|split].
  - apply Hok. split; [reflexivity|]. right. eexists. split; reflexivity.
  - apply Hle; [reflexivity|]. right. eexists. split; [reflexivity | discriminate].
  - apply Hbad. reflexivity.
Defined.

Lemma validate_all_shape_witness :
  Decimal_of_str (H := ucd_basic_latin) (py "0.5") = Some (Finite false 5 (-1)) /\
  is_positive (Finite false 5 (-1)).
Proof.
  destruct (@validate_all_shape ucd_basic_latin (py "ethusdt") (py "sell") (py "limit")
              (py "0.5") (Some (py "2500"))
              {| validators.v_symbol := py "ETHUSDT"; validators.v_side := py "SELL";
                 validators.v_order_type := py "LIMIT";
                 validators.v_quantity := Finite false 5 (-1);
                 validators.v_price := Some (Finite false 2500 0) |} eq_refl)
    as (_ & _ & Hq & Hpos & _).
  split; [exact Hq | exact Hpos].
Defined.

(** ** More concrete runs of the client *)

Lemma retry_then_success_witness :
  exists w',
    demo_request demo_client flaky None false empty_world = (Ok (JDict []), w') /\
    requests_made w' = 3%nat /\
    wire (trace w')
    = [Request (py "GET") (py "https://testnet.binancefuture.com/fapi/v1/openOrders")
         true [] 10;
       Sleep 1;
       Request (py "GET") (py "https://testnet.binancefuture.com/fapi/v1/openOrders")
         true [] 10;
       Sleep 2;
       Request (py "GET") (py "https://testnet.binancefuture.com/fapi/v1/openOrders")
         true [] 10].
Proof.
  destruct (@retry_then_success ucd_basic_latin demo_clock flaky demo_client
              (py "GET") (py "/fapi/v1/openOrders") None false empty_world _ _
              2%nat 200%Z (py "{}") (JDict []) demo_prepare)
    as (d & evs & w' & Hd & Hrun & _ & Htr & _ & Hwire & _ & Hrm & _).
  - vm_compute. lia.
  - intros i Hi. exists (Timeout 0).
    destruct i as [|[|i]]; [reflexivity | reflexivity | lia].
  - reflexivity.
  - reflexivity.
  - exists w'. split; [exact Hrun|]. split; [exact Hrm|].
    rewrite Htr, wire_app, Hwire.
    vm_compute in Hd. injection Hd as <-. reflexivity.
Defined.

Lemma ping_never_raises_witness :
  (@client.ping ucd_basic_latin demo_clock accepting demo_client empty_world).1 = Ok true /\
  (@client.ping ucd_basic_latin demo_clock rejecting demo_client empty_world).1 = Ok false /\
  (@client.ping ucd_basic_latin demo_clock accepting idle_client empty_world).1 = Ok false.
Proof.
  pose proof (@ping_never_raises ucd_basic_latin demo_clock accepting demo_client
                empty_world) as Hup.
  pose proof (@ping_never_raises ucd_basic_latin demo_clock rejecting demo_client
                empty_world) as Hno.
  pose proof (@ping_never_raises ucd_basic_latin demo_clock accepting idle_client
                empty_world) as Hidle.
  cbv zeta in Hup, Hno, Hidle.
  destruct Hup as (Hup & _ & _ & _ & _ & Hfirst).
  destruct Hno as (Hno & _ & _ & _ & _ & Hfirst').
  destruct Hidle as (Hidle & _ & _ & _ & Hnone & _).
  destruct (Hfirst ltac:(vm_compute; discriminate) _ _ _ eq_refl) as (Hb & _).
  destruct (Hfirst' ltac:(vm_compute; discriminate) _ _ _ eq_refl) as (Hb' & _).
  destruct (Hnone ltac:(vm_compute; discriminate)) as (Hb'' & _).
  rewrite Hup, Hno, Hidle, Hb, Hb', Hb''. repeat split.
Defined.

Lemma unexpected_exception_ends_call_witness :
  exists w',
    demo_request demo_client broken None false empty_world = (Raise (OtherError 7), w') /\
    requests_made w' = 1%nat.
Proof.
  destruct (@unexpected_exception_ends_call ucd_basic_latin demo_clock broken demo_client
              (py "GET") (py "/fapi/v1/openOrders") None false empty_world _ _
              0%nat (OtherError 7) demo_prepare)
    as (w' & Hrun & Hrm & _).
  - vm_compute. lia.
  - intros i Hi. lia.
  - left. reflexivity.
  - reflexivity.
  - exists w'. split; [exact Hrun | exact Hrm].
Defined.

Lemma unsigned_call_frame_witness :
  clock_reads (demo_request demo_client flaky (Some 0%nat) false
                 (world_with demo_params)).2 = 0%nat /\
  heap (demo_request demo_client flaky (Some 0%nat) false
          (world_with demo_params)).2 = heap (world_with demo_params).
Proof.
  destruct (@unsigned_call_frame ucd_basic_latin demo_clock flaky demo_client
              (py "GET") (py "/fapi/v1/openOrders") (Some 0%nat) (world_with demo_params)
              (demo_request demo_client flaky (Some 0%nat) false
                 (world_with demo_params)).2
              demo_params
              (demo_request demo_client flaky (Some 0%nat) false
                 (world_with demo_params)).1
              eq_refl (surjective_pairing _))
    as (Hclock & _ & Hheap & _).
  split; [exact Hclock | apply Hheap; discriminate].
Defined.

Lemma order_query_requests_witness :
  exists sig evs,
    trace (@client.cancel_order ucd_basic_latin demo_clock accepting demo_client
             (py "BTCUSDT") 42 empty_world).2 = evs /\
    Forall (fun ev => is_request ev = true ->
              ev = Request (py "DELETE")
                     (py "https://testnet.binancefuture.com/fapi/v1/order") true
                     [(py "symbol", VStr (py "BTCUSDT")); (py "orderId", VInt 42);
                      (py "timestamp", VInt 1000); (py "recvWindow", VInt 5000);
                      (py "signature", VStr sig)] 10) evs.
Proof.
  destruct (client.signature_of (py "s")
              [(py "symbol", VStr (py "BTCUSDT")); (py "orderId", VInt 42);
               (py "timestamp", VInt 1000); (py "recvWindow", VInt 5000)])
    as [sig|e] eqn:Hsig; [|vm_compute in Hsig; discriminate].
  destruct (@order_query_requests ucd_basic_latin demo_clock accepting demo_client
              (py "BTCUSDT") 42 sig empty_world Hsig)
    as ((_ & _ & evs & Htrace & Hall) & _).
  exists sig, evs. split; [exact Htrace | exact Hall].
Defined.

Lemma open_orders_requests_witness :
  exists sig evs,
    trace (@client.get_open_orders ucd_basic_latin demo_clock accepting demo_client
             (Some []) empty_world).2 = evs /\
    Forall (fun ev => is_request ev = true ->
              ev = Request (py "GET")
                     (py "https://testnet.binancefuture.com/fapi/v1/openOrders") true
                     [(py "timestamp", VInt 1000); (py "recvWindow", VInt 5000);
                      (py "signature", VStr sig)] 10) evs.
Proof.
  destruct (client.signature_of (py "s")
              [(py "timestamp", VInt 1000); (py "recvWindow", VInt 5000)])
    as [sig|e] eqn:Hsig; [|vm_compute in Hsig; discriminate].
  destruct (@open_orders_requests ucd_basic_latin demo_clock accepting demo_client
              (Some []) sig empty_world Hsig)
    as ((_ & _ & evs & Htrace & Hall) & _).
  exists sig, evs. split; [exact Htrace | exact Hall].
Defined.

Lemma place_order_reply_witness :
  (@client.place_order ucd_basic_latin demo_clock listing demo_client
     (py "BTCUSDT") (py "BUY") (py "MARKET") (py "0.001") None None None false
     (py "BOTH") empty_world).1 = Raise AttributeError /\
  requests_made
    (@client.place_order ucd_basic_latin demo_clock listing demo_client
       (py "BTCUSDT") (py "BUY") (py "MARKET") (py "0.001") None None None false
       (py "BOTH") empty_world).2 = 1%nat.
Proof.
  destruct (client.signature_of (client.api_secret demo_client)
              (extended (demo_clock (clock_reads empty_world))
                 (client.order_params (py "BTCUSDT") (py "BUY") (py "MARKET")
                    (py "0.001") None None None false (py "BOTH"))))
    as [sig|e] eqn:Hsig; [|vm_compute in Hsig; discriminate].
  destruct (@place_order_reply ucd_basic_latin demo_clock listing demo_client
              (py "BTCUSDT") (py "BUY") (py "MARKET") (py "0.001") None None None false
              (py "BOTH") empty_world sig 200%Z (py "[]") (JList []) Hsig)
    as (w' & Hrun & Hrm & _).
  - vm_compute. discriminate.
  - reflexivity.
  - reflexivity.
  - rewrite Hrun. split; [reflexivity | exact Hrm].
Defined.

Lemma place_order_fields_witness :
  exists evs body,
    trace (@client.place_order ucd_basic_latin demo_clock flaky demo_client
             (py "BTCUSDT") (py "SELL") (py "LIMIT") (py "0.5") (Some (py "42000"))
             None None false (py "BOTH") empty_world).2 = evs /\
    requests evs <> [] /\
    Forall (fun ev => is_request ev = true ->
              ev = Request (py "POST")
                     (py "https://testnet.binancefuture.com/fapi/v1/order") false
                     body 10) evs /\
    dict_get (py "price") body = Some (VStr (py "42000")) /\
    dict_get (py "timeInForce") body = Some (VStr (py "GTC")) /\
    dict_get (py "stopPrice") body = None /\
    dict_get (py "reduceOnly") body = None /\
    map fst body
    = [py "symbol"; py "side"; py "type"; py "quantity"; py "positionSide";
       py "price"; py "timeInForce"; py "timestamp"; py "recvWindow"; py "signature"].
Proof.
  destruct (client.signature_of (client.api_secret demo_client)
              (extended (demo_clock (clock_reads empty_world))
                 (client.order_params (py "BTCUSDT") (py "SELL") (py "LIMIT")
                    (py "0.5") (Some (py "42000")) None None false (py "BOTH"))))
    as [sig|e] eqn:Hsig; [|vm_compute in Hsig; discriminate].
  destruct (@place_order_fields ucd_basic_latin demo_clock flaky demo_client
              (py "BTCUSDT") (py "SELL") (py "LIMIT") (py "0.5") (Some (py "42000"))
              None None false (py "BOTH") empty_world sig Hsig)
    as (evs & body & Htrace & Hsent & Hall & _ & _ & _ & _ & _ & Hlimit & _ & _
        & Hstop & Hreduce & Hkeys).
  - vm_compute. discriminate.
  - destruct (Hlimit eq_refl) as (Hprice & _ & Htif).
    exists evs, body. split; [exact Htrace|]. split; [exact Hsent|].
    split; [exact Hall|]. split; [exact Hprice|].
    split; [apply Htif; left; reflexivity|].
    split; [apply Hstop; intros Heq; vm_compute in Heq; discriminate Heq|].
    split; [exact Hreduce | exact Hkeys].
Defined.

Lemma place_order_requests_witness :
  exists sig evs,
    trace (@client.place_order ucd_basic_latin demo_clock flaky demo_client
             (py "BTCUSDT") (py "SELL") (py "LIMIT") (py "0.5") (Some (py "42000"))
             None None true (py "BOTH") empty_world).2 = evs /\
    Forall (fun ev => is_request ev = true ->
              ev = Request (py "POST")
                     (py "https://testnet.binancefuture.com/fapi/v1/order") false
                     [(py "symbol", VStr (py "BTCUSDT")); (py "side", VStr (py "SELL"));
                      (py "type", VStr (py "LIMIT")); (py "quantity", VStr (py "0.5"));
                      (py "positionSide", VStr (py "BOTH"));
                      (py "price", VStr (py "42000"));
                      (py "timeInForce", VStr (py "GTC"));
                      (py "reduceOnly", VStr (py "true"));
                      (py "timestamp", VInt 1000); (py "recvWindow", VInt 5000);
                      (py "signature", VStr sig)] 10) evs.
Proof.
  destruct (client.signature_of (client.api_secret demo_client)
              (extended (demo_clock (clock_reads empty_world))
                 (client.order_params (py "BTCUSDT") (py "SELL") (py "LIMIT")
                    (py "0.5") (Some (py "42000")) None None true (py "BOTH"))))
    as [sig|e] eqn:Hsig; [|vm_compute in Hsig; discriminate].
  destruct (@place_order_requests ucd_basic_latin demo_clock flaky demo_client
              (py "BTCUSDT") (py "SELL") (py "LIMIT") (py "0.5") (Some (py "42000"))
              None None true (py "BOTH") empty_world _ _ sig
              (surjective_pairing _) Hsig)
    as (evs & Htrace & Hall).
  exists sig, evs. split; [exact Htrace | exact Hall].
Defined.

(** ** Decimals: digits *)

Lemma digits_value_app (ds : list N) (c : N) :
  digits_value (ds ++ [c]) = digits_value ds * 10 + (c - 48).
Proof. unfold digits_value. rewrite fold_left_app. reflexivity. Qed.

Lemma digits_value_zeros (k : nat) (ds : list N) :
  digits_value (replicate k 48 ++ ds) = digits_value ds.
Proof. induction k as [|k IH]; [reflexivity | exact IH]. Qed.

Lemma drop_zeros_zeros (k : nat) (ds : list N) :
  drop_zeros (replicate k 48 ++ ds) = drop_zeros ds.
Proof. induction k as [|k IH]; [reflexivity | exact IH]. Qed.

Lemma all_digits_app (a b : list N) :
  all_digits (a ++ b) = all_digits a && all_digits b.
Proof. apply forallb_app. Qed.

Lemma all_digits_zeros (k : nat) : all_digits (replicate k 48) = true.
Proof. induction k as [|k IH]; [reflexivity | exact IH]. Qed.

Lemma all_digits_Forall (ds : list N) :
  all_digits ds = true <-> Forall (fun c => ascii_isdigit c = true) ds.
Proof.
  unfold all_digits. rewrite forallb_forall, Forall_forall.
  split; intros Hall c Hc; apply Hall, list_elem_of_In, Hc.
Qed.

Lemma digits_of_S (fuel : nat) (n : N) (acc : str) :
  digits_of (S fuel) n acc =
  if n <? 10 then (48 + n mod 10) :: acc
  else digits_of fuel (n / 10) ((48 + n mod 10) :: acc).
Proof. reflexivity. Qed.

(** The digits [digits_of] writes in front of [acc], given fuel for
    them. *)
Lemma digits_of_spec (fuel : nat) : forall n acc,
  n < 2 ^ N.of_nat (S fuel) ->
  exists ds,
    digits_of (S fuel) n acc = ds ++ acc /\
    all_digits ds = true /\ ds <> [] /\ digits_value ds = n /\
    (n <> 0 -> hd 0 ds <> 48) /\
    (n < 10 -> ds = [48 + n]).
Proof.
  induction fuel as [|fuel IH]; intros n acc Hn.
  - assert (n < 10) as Hlt by (change (2 ^ N.of_nat 1) with 2 in Hn; lia).
    rewrite digits_of_S.
    replace (n <? 10) with true by (symmetry; apply N.ltb_lt; exact Hlt).
    rewrite (N.mod_small n 10 Hlt).
    exists [48 + n]. split; [reflexivity|]. split.
    { unfold all_digits, ascii_isdigit. simpl. cmp_cases. }
    split; [discriminate|]. split; [unfold digits_value; simpl; lia|].
    split; [simpl; lia | reflexivity].
  - rewrite (digits_of_S (S fuel)). destruct (N.ltb_spec n 10) as [Hlt|Hge].
    + rewrite (N.mod_small n 10 Hlt).
      exists [48 + n]. split; [reflexivity|]. split.
      { unfold all_digits, ascii_isdigit. simpl. cmp_cases. }
      split; [discriminate|]. split; [unfold digits_value; simpl; lia|].
      split; [simpl; lia | reflexivity].
    + assert (Hdiv : n / 10 < 2 ^ N.of_nat (S fuel)).
      { apply N.Div0.div_lt_upper_bound.
        rewrite (Nat2N.inj_succ (S fuel)), N.pow_succ_r' in Hn. lia. }
      destruct (IH (n / 10) ((48 + n mod 10) :: acc) Hdiv)
        as (ds & Hrun & Hdig & Hne & Hval & Hhd & _).
      exists (ds ++ [48 + n mod 10]).
      pose proof (N.mod_lt n 10 ltac:(discriminate)) as Hmod.
      split; [rewrite Hrun, <- app_assoc; reflexivity|]. split.
      { rewrite all_digits_app, Hdig. clear -Hmod.
        set (m := n mod 10) in *. clearbody m.
        unfold all_digits, ascii_isdigit. simpl. cmp_cases. }
      split; [destruct ds; discriminate|]. split.
      { rewrite digits_value_app, Hval.
        rewrite (N.add_comm 48), N.add_sub.
        pose proof (N.div_mod n 10 ltac:(discriminate)). lia. }
      split; [|lia].
      intros _. destruct ds as [|c ds]; [congruence|]. simpl. apply Hhd.
      intros Hz. apply N.div_small_iff in Hz; lia.
Qed.

Lemma str_of_N_spec (n : N) :
  all_digits (str_of_N n) = true /\ str_of_N n <> [] /\
  digits_value (str_of_N n) = n /\ (n <> 0 -> hd 0 (str_of_N n) <> 48).
Proof.
  unfold str_of_N.
  destruct (digits_of_spec (N.to_nat (N.log2 n)) n []) as (ds & Hrun & Hdig & Hne & Hval & Hhd & _).
  - rewrite Nat2N.inj_succ, N2Nat.id.
    destruct (N.eq_dec n 0) as [->|Hn]; [reflexivity|].
    apply N.log2_spec. lia.
  - rewrite Hrun, app_nil_r. repeat split; assumption.
Qed.

(** A string of digits stands for a number below the power of ten of its
    length, and not below the one before when it does not start with a
    zero. *)
Lemma digits_value_lt (ds : list N) :
  all_digits ds = true -> digits_value ds < 10 ^ N.of_nat (length ds).
Proof.
  induction ds as [|c ds IH] using rev_ind; intros Hdig; [reflexivity|].
  rewrite all_digits_app in Hdig. apply andb_true_iff in Hdig. destruct Hdig as [Hds Hc].
  specialize (IH Hds).
  rewrite digits_value_app, length_app. simpl length.
  replace (N.of_nat (length ds + 1)) with (N.succ (N.of_nat (length ds))) by lia.
  rewrite N.pow_succ_r'.
  assert (c - 48 < 10); [|lia].
  revert Hc. unfold all_digits, ascii_isdigit. simpl. cmp_cases.
Qed.

Lemma digits_value_ge (ds : list N) :
  all_digits ds = true -> ds <> [] -> hd 0 ds <> 48 ->
  10 ^ N.of_nat (length ds - 1) <= digits_value ds.
Proof.
  induction ds as [|c ds IH] using rev_ind; intros Hdig Hne Hhd; [congruence|].
  rewrite all_digits_app in Hdig. apply andb_true_iff in Hdig. destruct Hdig as [Hds Hc].
  rewrite digits_value_app, length_app. simpl length.
  destruct ds as [|c0 ds].
  - simpl in *. unfold digits_value. simpl.
    revert Hc. unfold all_digits, ascii_isdigit. simpl. cmp_cases.
  - specialize (IH Hds ltac:(discriminate) Hhd).
    simpl length in *.
    replace (S (length ds) + 1 - 1)%nat with (S (length ds - 0)) by lia.
    replace (S (length ds) - 1)%nat with (length ds - 0)%nat in IH by lia.
    rewrite Nat2N.inj_succ, N.pow_succ_r'. lia.
Qed.

(** The digits that count of a string of digits are as many as the
    digits of its number. *)
Lemma drop_zeros_length (ds : list N) :
  all_digits ds = true ->
  Z.of_nat (length (drop_zeros ds)) = coefficient_digits (digits_value ds).
Proof.
  intros Hdig. unfold coefficient_digits.
  assert (Hdrop : all_digits (drop_zeros ds) = true /\
                  digits_value (drop_zeros ds) = digits_value ds /\
                  (drop_zeros ds = [] \/ hd 0 (drop_zeros ds) <> 48)).
  { induction ds as [|c ds IH]; [repeat split; left; reflexivity|].
    simpl in Hdig. apply andb_true_iff in Hdig. destruct Hdig as [Hc Hds].
    simpl. destruct (N.eqb_spec c 48) as [->|Hc48].
    - destruct (IH Hds) as (H1 & H2 & H3). split; [exact H1|]. split; [|exact H3].
      rewrite H2. symmetry. apply (digits_value_zeros 1 ds).
    - split; [simpl; rewrite Hc; exact Hds|]. split; [reflexivity|]. right. exact Hc48. }
  destruct Hdrop as (Hd & Hv & Hcanon).
  destruct (drop_zeros ds) as [|c r] eqn:Hr.
  - rewrite <- Hv. reflexivity.
  - destruct Hcanon as [|Hhd]; [discriminate|].
    pose proof (digits_value_ge (c :: r) Hd ltac:(discriminate) Hhd) as Hge.
    pose proof (digits_value_lt (c :: r) Hd) as Hlt.
    rewrite Hv in Hge, Hlt.
    assert (Hpos : digits_value ds <> 0).
    { pose proof (N.pow_nonzero 10 (N.of_nat (length (c :: r) - 1)) ltac:(discriminate)). lia. }
    replace (digits_value ds =? 0) with false by (symmetry; apply N.eqb_neq; exact Hpos).
    destruct (str_of_N_spec (digits_value ds)) as (Hsd & Hsne & Hsv & Hshd).
    specialize (Hshd Hpos).
    pose proof (digits_value_ge _ Hsd Hsne Hshd) as Hge'.
    pose proof (digits_value_lt _ Hsd) as Hlt'.
    rewrite Hsv in Hge', Hlt'.
    assert (H1 : N.of_nat (length (c :: r) - 1) < N.of_nat (length (str_of_N (digits_value ds)))).
    { apply (N.pow_lt_mono_r_iff 10); lia. }
    assert (H2 : N.of_nat (length (str_of_N (digits_value ds)) - 1) < N.of_nat (length (c :: r))).
    { apply (N.pow_lt_mono_r_iff 10); lia. }
    simpl length in *. lia.
Qed.

(** ** Decimals: reading a written decimal *)

Lemma split_at_none (p : N -> bool) (a : list N) :
  Forall (fun c => p c = false) a -> split_at p a = (a, None).
Proof.
  induction 1 as [|c a Hc Ha IH]; [reflexivity|].
  simpl. rewrite Hc, IH. reflexivity.
Qed.

Lemma split_at_some (p : N -> bool) (a : list N) (c : N) (b : list N) :
  Forall (fun c => p c = false) a -> p c = true ->
  split_at p (a ++ c :: b) = (a, Some b).
Proof.
  intros Ha Hc. induction Ha as [|x a Hx Ha IH]; simpl.
  - rewrite Hc. reflexivity.
  - rewrite Hx, IH. reflexivity.
Qed.

Lemma parse_exponent_signed (z : Z) : parse_exponent (signed_str z) = Some z.
Proof.
  unfold signed_str, parse_exponent.
  destruct (str_of_N_spec (Z.abs_N z)) as (Hdig & Hne & Hval & _).
  destruct (z <? 0)%Z eqn:Hz; simpl;
    (destruct (str_of_N (Z.abs_N z)) as [|c r] eqn:Hs; [congruence|]);
    rewrite Hdig, Hval; f_equal.
  - apply Z.ltb_lt in Hz. lia.
  - apply Z.ltb_ge in Hz. lia.
Qed.

Lemma digit_not_special (c : N) :
  ascii_isdigit c = true ->
  is_indicator c = false /\ is_point c = false /\ plain c = true /\
  (c =? 43) = false /\ (c =? 45) = false /\
  (ascii_lower c =? 110) = false /\ (ascii_lower c =? 115) = false /\
  (ascii_lower c =? 105) = false.
Proof.
  unfold ascii_isdigit, is_indicator, is_point, plain, ascii_lower, ascii_isupper.
  intros Hc. repeat split; revert Hc; cmp_cases.
Qed.

(** Reading a sign, digits with or without a point, and an exponent
    or none. *)
Lemma parse_finite_rendered (sign : bool) (ip : str) (fp : option str) (ex : option Z) :
  all_digits (ip ++ default [] fp) = true ->
  ip ++ default [] fp <> [] ->
  parse_finite sign
    (ip ++ match fp with Some f => 46 :: f | None => [] end
        ++ match ex with Some z => 69 :: signed_str z | None => [] end)
  = let ds := ip ++ default [] fp in
    let nfrac := Z.of_nat (length (default [] fp)) in
    let e := (default 0 ex - nfrac)%Z in
    if ((nfrac <=? MAX_PREC) && (Z.of_nat (length (drop_zeros ds)) <=? MAX_PREC))%Z
       && representable (digits_value ds) (Z.of_nat (length (drop_zeros ds))) e
    then Some (Finite sign (digits_value ds) e)
    else None.
Proof.
  intros Hdig Hne.
  rewrite all_digits_app in Hdig. apply andb_true_iff in Hdig. destruct Hdig as [Hip Hfp].
  assert (Hspecial : forall l, all_digits l = true ->
            Forall (fun c => is_indicator c = false) l /\
            Forall (fun c => is_point c = false) l).
  { intros l Hl. apply all_digits_Forall in Hl.
    split; (eapply Forall_impl; [exact Hl|]); intros c Hc;
      apply digit_not_special in Hc; tauto. }
  destruct (Hspecial ip Hip) as [Hip_ind Hip_pt].
  destruct (Hspecial _ Hfp) as [Hfp_ind Hfp_pt].
  set (mant := ip ++ match fp with Some f => 46 :: f | None => [] end).
  assert (Hmant : Forall (fun c => is_indicator c = false) mant).
  { subst mant. apply Forall_app. split; [exact Hip_ind|].
    destruct fp as [f|]; [|constructor]. constructor; [reflexivity | exact Hfp_ind]. }
  assert (Hsplit1 : split_at is_indicator
                      (ip ++ match fp with Some f => 46 :: f | None => [] end
                          ++ match ex with Some z => 69 :: signed_str z | None => [] end)
                    = (mant, signed_str <$> ex)).
  { rewrite app_assoc. fold mant. destruct ex as [z|]; simpl.
    - apply split_at_some; [exact Hmant | reflexivity].
    - rewrite app_nil_r. apply split_at_none, Hmant. }
  assert (Hsplit2 : split_at is_point mant = (ip, fp)).
  { subst mant. destruct fp as [f|].
    - apply split_at_some; [exact Hip_pt | reflexivity].
    - rewrite app_nil_r. apply split_at_none, Hip_pt. }
  unfold parse_finite. rewrite Hsplit1, Hsplit2.
  cbv zeta. rewrite all_digits_app, Hip, Hfp. simpl negb. cbv iota.
  destruct (ip ++ default [] fp) as [|c ds] eqn:Hds; [congruence|].
  assert (Hex : match signed_str <$> ex with
                | Some x => parse_exponent x
                | None => Some 0%Z
                end = Some (default 0%Z ex)).
  { destruct ex as [z|]; simpl; [apply parse_exponent_signed | reflexivity]. }
  rewrite Hex. reflexivity.
Qed.

Section ReadingProperties.
Context `{UnicodeData}.

Lemma plain_not_space (c : codepoint) : plain c = true -> isspace_cp c = false.
Proof.
  unfold plain, isspace_cp, is_ascii, ascii_isspace. intros Hc. revert Hc. cmp_cases.
Qed.

Lemma strip_plain (s : str) : Forall (fun c => plain c = true) s -> strip s = s.
Proof.
  intros Hs. apply strip_id. eapply Forall_impl; [exact Hs|]. apply plain_not_space.
Qed.

Lemma as_ascii_plain (s : str) :
  Forall (fun c => plain c = true) s -> as_ascii s = Some s.
Proof.
  induction 1 as [|c s Hc Hs IH]; [reflexivity|].
  cbn [as_ascii]. rewrite IH.
  revert Hc. unfold plain. cmp_cases.
Qed.

Lemma Decimal_of_str_plain (s : str) :
  Forall (fun c => plain c = true) s -> Decimal_of_str s = parse_numeric s.
Proof.
  intros Hs. unfold Decimal_of_str. rewrite (strip_plain s Hs), (as_ascii_plain s Hs).
  reflexivity.
Qed.
End ReadingProperties.

Lemma digits_plain (ds : list N) :
  all_digits ds = true -> Forall (fun c => plain c = true) ds.
Proof.
  intros Hds. apply all_digits_Forall in Hds.
  eapply Forall_impl; [exact Hds|]. intros c Hc. apply digit_not_special in Hc. tauto.
Qed.

Lemma sign_str_plain (sign : bool) : Forall (fun c => plain c = true) (sign_str sign).
Proof. destruct sign; repeat constructor. Qed.

Lemma signed_str_plain (z : Z) : Forall (fun c => plain c = true) (signed_str z).
Proof.
  unfold signed_str. constructor; [destruct (z <? 0)%Z; reflexivity|].
  apply digits_plain. apply str_of_N_spec.
Qed.

(** A number that starts with a digit is read as a finite one. *)
Lemma parse_numeric_digit (sign : bool) (c : N) (r : list N) :
  ascii_isdigit c = true ->
  parse_numeric (sign_str sign ++ c :: r) = parse_finite sign (c :: r).
Proof.
  intros Hc. apply digit_not_special in Hc.
  destruct Hc as (_ & _ & _ & H43 & H45 & Hn & Hs & Hi).
  unfold parse_numeric.
  assert (Hsign : take_sign (sign_str sign ++ c :: r) = (sign, c :: r)).
  { destruct sign; simpl; [reflexivity|]. rewrite H43, H45. reflexivity. }
  rewrite Hsign.
  change (py "nan") with [110; 97; 110].
  change (py "snan") with [115; 110; 97; 110].
  change (py "inf") with [105; 110; 102].
  cbn [strip_prefix_ci]. rewrite Hn, Hs, Hi. reflexivity.
Qed.

(** The three layouts of a written finite decimal: digits before the
    point, digits after it if there is one. *)
Lemma Decimal_str_layout (coeff : N) (e : Z) :
  let int := str_of_N coeff in
  let len := Z.of_nat (length int) in
  let leftdigits := (e + len)%Z in
  let dotplace := if ((e <=? 0) && (-6 <? leftdigits))%Z then leftdigits else 1%Z in
  exists ip fp,
    (if (dotplace <=? 0)%Z
     then (py "0", 46 :: replicate (Z.to_nat (- dotplace)) 48 ++ int)
     else if (len <=? dotplace)%Z
     then (int ++ replicate (Z.to_nat (dotplace - len)) 48, [])
     else (take (Z.to_nat dotplace) int, 46 :: drop (Z.to_nat dotplace) int))
    = (ip, match fp with Some f => 46 :: f | None => [] end) /\
    all_digits (ip ++ default [] fp) = true /\
    digits_value (ip ++ default [] fp) = coeff /\
    drop_zeros (ip ++ default [] fp) = drop_zeros int /\
    Z.of_nat (length (default [] fp)) = (len - dotplace)%Z /\
    (-6 < dotplace)%Z /\
    exists c r, ip = c :: r /\ ascii_isdigit c = true.
Proof.
  intros int len leftdigits dotplace.
  destruct (str_of_N_spec coeff) as (Hdig & Hne & Hval & _). fold int in Hdig, Hne, Hval.
  assert (Hlen : (1 <= len)%Z).
  { subst len. destruct int; [congruence | simpl; lia]. }
  assert (Hdot : (-6 < dotplace /\ dotplace <= len)%Z).
  { subst dotplace leftdigits.
    destruct (Z.leb_spec e 0); destruct (Z.ltb_spec (-6) (e + len)); simpl; lia. }
  assert (Hhead : exists c r, int = c :: r /\ ascii_isdigit c = true).
  { destruct int as [|c r]; [congruence|]. exists c, r. split; [reflexivity|].
    simpl in Hdig. apply andb_true_iff in Hdig. tauto. }
  destruct (Z.leb_spec dotplace 0) as [Hle|Hgt].
  - exists [48], (Some (replicate (Z.to_nat (- dotplace)) 48 ++ int)).
    split; [reflexivity|].
    change ([48] ++ default [] (Some (replicate (Z.to_nat (- dotplace)) 48 ++ int)))
      with (replicate (S (Z.to_nat (- dotplace))) 48 ++ int).
    split; [rewrite all_digits_app, all_digits_zeros; exact Hdig|].
    split; [rewrite digits_value_zeros; exact Hval|].
    split; [apply drop_zeros_zeros|].
    split; [simpl; rewrite length_app, length_replicate; lia|].
    split; [lia|]. exists 48, []. split; reflexivity.
  - destruct (Z.leb_spec len dotplace) as [Hfull|Hpart].
    + assert (dotplace = len) as -> by lia.
      exists int, None. rewrite Z.sub_diag. simpl. rewrite !app_nil_r.
      split; [reflexivity|]. split; [exact Hdig|]. split; [exact Hval|].
      split; [reflexivity|]. split; [lia|]. split; [lia | exact Hhead].
    + exists (take (Z.to_nat dotplace) int), (Some (drop (Z.to_nat dotplace) int)).
      split; [reflexivity|]. simpl. rewrite take_drop.
      split; [exact Hdig|]. split; [exact Hval|]. split; [reflexivity|].
      split; [rewrite length_drop; lia|]. split; [lia|].
      destruct Hhead as (c & r & Hint & Hc). rewrite Hint.
      destruct (Z.to_nat dotplace) as [|k] eqn:Hk; [lia|].
      exists c, (take k r). split; [reflexivity | exact Hc].
Qed.

Section RoundTripProperties.
Context `{UnicodeData}.
Import validators.

Lemma Decimal_str_finite (sign : bool) (coeff : N) (e : Z) :
  in_range (Finite sign coeff e) = true ->
  short (Finite sign coeff e) ->
  Decimal_of_str (Decimal_str (Finite sign coeff e)) = Some (Finite sign coeff e).
Proof.
  intros Hrange Hshort. simpl in Hrange, Hshort.
  apply andb_true_iff in Hrange. destruct Hrange as [Hprec Hrep].
  unfold Decimal_str.
  destruct (Decimal_str_layout coeff e)
    as (ip & fp & Hlay & Hdig & Hval & Hdrop & Hfrac & Hdot & c & r & Hip & Hc).
  cbv zeta in Hlay, Hfrac, Hdot |- *.
  set (int := str_of_N coeff) in *.
  set (len := Z.of_nat (length int)) in *.
  set (leftdigits := (e + len)%Z) in *.
  set (dotplace := if ((e <=? 0) && (-6 <? leftdigits))%Z then leftdigits else 1%Z) in *.
  rewrite Hlay.
  set (ex := if (leftdigits =? dotplace)%Z then None else Some (leftdigits - dotplace)%Z).
  assert (Hex : (if (leftdigits =? dotplace)%Z then []
                 else 69 :: signed_str (leftdigits - dotplace))
                = match ex with Some z => 69 :: signed_str z | None => [] end).
  { subst ex. destruct (leftdigits =? dotplace)%Z; reflexivity. }
  rewrite Hex.
  assert (Hdefault : (default 0 ex = leftdigits - dotplace)%Z).
  { subst ex. destruct (Z.eqb_spec leftdigits dotplace); simpl; lia. }
  assert (Hsplit : all_digits ip = true /\ all_digits (default [] fp) = true).
  { rewrite all_digits_app in Hdig. apply andb_true_iff in Hdig. exact Hdig. }
  assert (Hplain : Forall (fun c => plain c = true)
                     (sign_str sign ++ ip
                        ++ match fp with Some f => 46 :: f | None => [] end
                        ++ match ex with Some z => 69 :: signed_str z | None => [] end)).
  { apply Forall_app. split; [apply sign_str_plain|].
    apply Forall_app. split; [apply digits_plain, Hsplit|].
    apply Forall_app. split.
    - destruct fp as [f|]; [|constructor].
      constructor; [reflexivity | apply digits_plain, Hsplit].
    - destruct ex as [z|]; [|constructor].
      constructor; [reflexivity | apply signed_str_plain]. }
  rewrite (Decimal_of_str_plain _ Hplain).
  rewrite Hip at 1. rewrite <- app_comm_cons, (parse_numeric_digit sign c _ Hc).
  rewrite app_comm_cons, <- Hip.
  rewrite (parse_finite_rendered sign ip fp ex Hdig)
    by (rewrite Hip; discriminate).
  cbv zeta. rewrite Hval, Hdrop, Hdefault, Hfrac.
  assert (Hcount : Z.of_nat (length (drop_zeros int)) = coefficient_digits coeff).
  { rewrite (drop_zeros_length int) by apply str_of_N_spec.
    f_equal. apply str_of_N_spec. }
  rewrite Hcount.
  replace (leftdigits - dotplace - (len - dotplace))%Z with e by (subst leftdigits; lia).
  rewrite Hprec, Hrep.
  replace (len - dotplace <=? MAX_PREC)%Z with true; [reflexivity|].
  symmetry. apply Z.leb_le. subst len. lia.
Qed.

(** X17.  Writing a decimal and reading it back gives the decimal
    itself, sign, coefficient and exponent (and for a NaN its kind and
    payload): [Decimal(str(d)) == d] with nothing rounded, for every
    decimal within the bounds of the module whose coefficient has fewer
    than [MAX_PREC - 5] digits. *)
Theorem Decimal_str_round_trip (d : Decimal) :
  in_range d = true ->
  short d ->
  Decimal_of_str (Decimal_str d) = Some d.
Proof.
  intros Hrange Hshort. destruct d as [sign coeff e | sign | sign signaling payload].
  - apply Decimal_str_finite; assumption.
  - rewrite Decimal_of_str_plain by (destruct sign; repeat constructor).
    destruct sign; reflexivity.
  - simpl in Hrange. unfold Decimal_str.
    destruct (str_of_N_spec payload) as (Hdig & Hne & Hval & _).
    assert (Hdigits : all_digits (if payload =? 0 then [] else str_of_N payload) = true /\
                      digits_value (if payload =? 0 then [] else str_of_N payload) = payload).
    { destruct (N.eqb_spec payload 0) as [->|Hp]; [split; reflexivity|].
      split; assumption. }
    destruct Hdigits as [Hpd Hpv].
    rewrite Decimal_of_str_plain.
    + assert (Hpay : parse_payload sign signaling
                       (if payload =? 0 then [] else str_of_N payload)
                     = Some (NaN sign signaling payload)).
      { unfold parse_payload. rewrite Hpd, (drop_zeros_length _ Hpd), Hpv, Hrange.
        reflexivity. }
      destruct sign; destruct signaling; exact Hpay.
    + apply Forall_app. split; [apply sign_str_plain|].
      apply Forall_app. split; [destruct signaling; repeat constructor|].
      apply digits_plain, Hpd.
Qed.

(** What the constructor yields is within the bounds. *)
Lemma parse_finite_in_range (sign : bool) (a : list N) (d : Decimal) :
  parse_finite sign a = Some d -> in_range d = true.
Proof.
  unfold parse_finite.
  destruct (split_at is_indicator a) as [mant expo].
  destruct (split_at is_point mant) as [ip fp].
  cbv zeta.
  destruct (all_digits (ip ++ default [] fp)) eqn:Hdig; [|discriminate].
  simpl negb. cbv iota.
  destruct (ip ++ default [] fp) as [|c ds] eqn:Hds; [discriminate|].
  destruct (match expo with Some x => parse_exponent x | None => Some 0%Z end)
    as [ev|]; [|discriminate].
  rewrite (drop_zeros_length _ Hdig).
  destruct ((Z.of_nat (length (default [] fp)) <=? MAX_PREC)%Z); [|discriminate].
  simpl andb.
  destruct ((coefficient_digits (digits_value (c :: ds)) <=? MAX_PREC)%Z) eqn:Hprec;
    [|discriminate].
  simpl andb.
  destruct (representable _ _ _) eqn:Hrep; [|discriminate].
  intros [= <-]. simpl. rewrite Hprec, Hrep. reflexivity.
Qed.

Lemma parse_payload_in_range (sign signaling : bool) (a : list N) (d : Decimal) :
  parse_payload sign signaling a = Some d -> in_range d = true.
Proof.
  unfold parse_payload.
  destruct (all_digits a) eqn:Hdig; [|discriminate]. simpl andb.
  rewrite (drop_zeros_length _ Hdig).
  destruct ((coefficient_digits (digits_value a) <=? MAX_PREC)%Z) eqn:Hprec;
    [|discriminate].
  intros [= <-]. exact Hprec.
Qed.

Lemma Decimal_of_str_in_range (s : str) (d : Decimal) :
  Decimal_of_str s = Some d -> in_range d = true.
Proof.
  unfold Decimal_of_str. destruct (as_ascii (strip s)) as [a|]; [|discriminate].
  simpl. unfold parse_numeric. destruct (take_sign a) as [sign r].
  destruct (strip_prefix_ci (py "nan") r) as [p|]; [apply parse_payload_in_range|].
  destruct (strip_prefix_ci (py "snan") r) as [p|]; [apply parse_payload_in_range|].
  destruct (strip_prefix_ci (py "inf") r) as [rest|]; [|apply parse_finite_in_range].
  destruct rest as [|c rest]; [intros [= <-]; reflexivity|].
  destruct (strip_prefix_ci (py "inity") (c :: rest)) as [[|c' rest']|];
    [intros [= <-]; reflexivity | discriminate | discriminate].
Qed.
End RoundTripProperties.

Lemma Decimal_str_round_trip_witness :
  Decimal_str (Finite false 10 (-4)) = py "0.0010" /\
  Decimal_of_str (H := ucd_basic_latin) (py "0.0010") = Some (Finite false 10 (-4)) /\
  Decimal_str (Finite false 1 (-7)) = py "1E-7" /\
  Decimal_of_str (H := ucd_basic_latin) (py "1E-7") = Some (Finite false 1 (-7)).
Proof.
  pose proof (@Decimal_str_round_trip ucd_basic_latin (Finite false 10 (-4)) eq_refl
                ltac:(vm_compute; discriminate)) as H1.
  pose proof (@Decimal_str_round_trip ucd_basic_latin (Finite false 1 (-7)) eq_refl
                ltac:(vm_compute; discriminate)) as H2.
  split; [reflexivity|]. split; [exact H1|]. split; [reflexivity | exact H2].
Defined.

(** ** Orders: the formatted response *)

(** X18.  [_format_order_response] applied to a JSON object returns a
    dictionary with the same eleven keys in the same order whatever the
    object holds: a key the object has keeps its value, even null, and a
    key it lacks gets ["0"] (price, avgPrice, origQty, executedQty) or
    ["N/A"].  Formatting a formatted response changes nothing.  Applied
    to any other JSON value it raises [AttributeError]. *)
Theorem format_order_response_shape (response : json) :
  match response with
  | JDict d =>
      exists result,
        orders._format_order_response response = Ok result /\
        map fst result = response_keys /\
        Forall (fun k => dict_get k result
                         = Some (default (missing_field k) (dict_get k d)))
               response_keys /\
        orders._format_order_response (JDict result) = Ok result
  | _ => orders._format_order_response response = Raise AttributeError
  end.
Proof.
  destruct response as [| | | | | |d]; try reflexivity.
  eexists. split; [reflexivity|]. split; [reflexivity|]. split.
  - repeat constructor.
  - reflexivity.
Qed.

(** ** Orders: placing an order *)

Section ValidationRaises.
Context `{UnicodeData}.
Import validators.

(** The validators raise [ValueError], and [InvalidOperation] on a
    NaN, and nothing else. *)
Lemma validate_all_raises (symbol side order_type quantity : str)
    (price : option str) (e : exn) :
  validate_all symbol side order_type quantity price = Raise e ->
  (exists m, e = ValueError m) \/ e = InvalidOperation.
Proof.
  unfold validate_all.
  destruct (validate_symbol symbol) as [s|e1] eqn:Hs.
  2: { intros [= <-]. left. rewrite validate_symbol_spec in Hs.
       destruct (isalpha _); [discriminate|]. injection Hs as <-. eauto. }
  destruct (validate_side side) as [d|e1] eqn:Hd.
  2: { intros [= <-]. left. unfold validate_side in Hd.
       destruct (negb _); [|discriminate]. injection Hd as <-. eauto. }
  destruct (validate_order_type order_type) as [t|e1] eqn:Ht.
  2: { intros [= <-]. left. unfold validate_order_type in Ht.
       destruct (negb _); [|discriminate]. injection Ht as <-. eauto. }
  assert (Hdec : forall (A : Type) (p : Decimal) (m : message) (ok : A) e1,
            (b ← le_zero p; if b : bool then Raise (ValueError m) else Ok ok) = Raise e1 ->
            (exists m, e1 = ValueError m) \/ e1 = InvalidOperation).
  { intros A p m ok e1. unfold le_zero. destruct (is_nan p); simpl.
    - intros [= <-]. right. reflexivity.
    - destruct (nonpositive p); [|discriminate]. intros [= <-]. left. eauto. }
  destruct (validate_quantity quantity) as [q|e1] eqn:Hq.
  2: { intros [= <-]. unfold validate_quantity in Hq.
       destruct (Decimal_of_str quantity) as [p|]; [|injection Hq as <-; eauto].
       exact (Hdec _ _ _ _ _ Hq). }
  simpl.
  destruct (validate_price price (upper (strip order_type))) as [p|e1] eqn:Hp;
    [discriminate|].
  intros [= <-]. unfold validate_price in Hp.
  destruct (str_eqb _ (py "LIMIT")).
  - destruct price as [s0|]; [|injection Hp as <-; eauto].
    destruct (Decimal_of_str s0) as [p|]; [|injection Hp as <-; eauto].
    exact (Hdec _ _ _ _ _ Hp).
  - destruct (str_eqb _ (py "STOP_MARKET")); [|discriminate].
    destruct price as [s0|]; [|injection Hp as <-; eauto].
    destruct (Decimal_of_str s0) as [p|]; [|injection Hp as <-; eauto].
    exact (Hdec _ _ _ _ _ Hp).
Qed.

(** What [validate_all] returns, by the order type it returns. *)
Lemma validate_all_ok (symbol side order_type quantity : str)
    (price : option str) (v : ValidatedOrder) :
  validate_all symbol side order_type quantity price = Ok v ->
  (v_order_type v = py "MARKET" /\ v_price v = None) \/
  ((v_order_type v = py "LIMIT" \/ v_order_type v = py "STOP_MARKET") /\
   exists p, v_price v = Some p).
Proof.
  unfold validate_all. intros Hrun.
  destruct (validate_symbol symbol) as [s|]; [|discriminate].
  destruct (validate_side side) as [d|]; [|discriminate].
  destruct (validate_order_type order_type) as [t|] eqn:Ht; [|discriminate].
  destruct (validate_quantity quantity) as [q|]; [|discriminate].
  simpl in Hrun.
  destruct (validate_price price (upper (strip order_type))) as [p|] eqn:Hp;
    [|discriminate].
  injection Hrun as <-. simpl.
  apply validate_order_type_ok in Ht. destruct Ht as [Hup Ht].
  rewrite Hup in Hp. apply validate_price_ok in Hp.
  destruct p as [p|].
  - right. split; [tauto | eauto].
  - left. split; [|reflexivity]. destruct Hp as [Hl Hst].
    destruct Ht as [Ht | [Ht | Ht]]; congruence.
Qed.
End ValidationRaises.

Section OrderLayerProperties.
Context `{UnicodeData}.
Variable clock : nat -> Z.
Variable exchange : nat -> reply.
Variable to_float : json -> result float.
Variable is_connection_error : N -> bool.
Import validators client.
Variable self : BinanceClient.

Local Abbreviation place_order := (orders.place_order clock exchange to_float is_connection_error self).
Local Abbreviation send_order := (orders.send_order clock exchange self).

(** Printing changes nothing but the console. *)
Lemma print_order_summary_frame (v : ValidatedOrder) (s : world * list (stream * string)) :
  exists lines, orders._print_order_summary v s = (Ok tt, (s.1, s.2 ++ lines)).
Proof.
  unfold orders._print_order_summary, print, write, mbind, IO_bind, mret, IO_ret.
  cbn [fst snd].
  destruct (v_price v) as [p|]; [destruct (Decimal_bool p)|];
    cbn [fst snd]; rewrite <- ?app_assoc; eexists; reflexivity.
Qed.

Lemma print_if_positive_frame (x : json) (line : string)
    (s : world * list (stream * string)) :
  exists lines,
    orders.print_if_positive to_float x line s
    = (match float_failure to_float x with Some e => Raise e | None => Ok tt end,
       (s.1, s.2 ++ lines)).
Proof.
  unfold orders.print_if_positive, float_failure.
  destruct (truthy x).
  - unfold mbind, IO_bind, io_lift. destruct (to_float x) as [f|e].
    + destruct (PrimFloat.ltb 0 f).
      * exists [(Stdout, line)]. reflexivity.
      * exists []. rewrite app_nil_r. destruct s. reflexivity.
    + exists []. rewrite app_nil_r. destruct s. reflexivity.
  - exists []. rewrite app_nil_r. destruct s. reflexivity.
Qed.

(** Printing the response raises only what [float] raises on the
    average price or the price. *)
Lemma print_order_result_frame (result : list (str * json)) (success : bool)
    (s : world * list (stream * string)) :
  exists lines,
    orders._print_order_result to_float result success s
    = (match printing_failure to_float result with Some e => Raise e | None => Ok tt end,
       (s.1, s.2 ++ lines)).
Proof.
  unfold orders._print_order_result, printing_failure.
  set (avg := default (JStr (py "0")) (dict_get (py "avgPrice") result)).
  set (lmt := default (JStr (py "0")) (dict_get (py "price") result)).
  unfold print, write, mbind, IO_bind. cbn [fst snd].
  match goal with
  | |- context [orders.print_if_positive to_float avg "Avg Price" ?s0] =>
      destruct (print_if_positive_frame avg "Avg Price" s0) as (l1 & Hrun1);
      rewrite Hrun1
  end.
  cbn [fst snd].
  destruct (float_failure to_float avg) as [e|].
  { eexists. rewrite <- !app_assoc. reflexivity. }
  match goal with
  | |- context [orders.print_if_positive to_float lmt "Limit Price" ?s0] =>
      destruct (print_if_positive_frame lmt "Limit Price" s0) as (l2 & Hrun2);
      rewrite Hrun2
  end.
  cbn [fst snd].
  destruct (float_failure to_float lmt) as [e|];
    eexists; rewrite <- !app_assoc; reflexivity.
Qed.

(** The dictionary that [client.place_order] builds from a validated
    order. *)
Lemma order_params_validated (symbol side order_type quantity : str)
    (price : option str) (v : ValidatedOrder) (time_in_force : str)
    (reduce_only : bool) :
  validate_all symbol side order_type quantity price = Ok v ->
  order_params (v_symbol v) (v_side v) (v_order_type v) (Decimal_str (v_quantity v))
    (if str_eqb (v_order_type v) (py "LIMIT")
     then Some (str_of_optional_decimal (v_price v)) else None)
    (if str_eqb (v_order_type v) (py "LIMIT") then Some time_in_force else None)
    (if negb (str_eqb (v_order_type v) (py "LIMIT"))
        && str_eqb (v_order_type v) (py "STOP_MARKET")
     then Some (str_of_optional_decimal (v_price v)) else None)
    reduce_only (py "BOTH")
  = order_fields v time_in_force reduce_only.
Proof.
  intros Hv. apply validate_all_ok in Hv. unfold order_params, order_fields.
  destruct Hv as [[Ht Hp] | [[Ht | Ht] (p & Hp)]]; rewrite Ht, Hp;
    destruct reduce_only; try reflexivity;
    destruct time_in_force; reflexivity.
Qed.

(** [client.place_order] returns JSON objects only. *)
Lemma client_place_order_returns (symbol side order_type quantity : str)
    (price time_in_force stop_price : option str) (reduce_only : bool)
    (position_side : str) (w w' : world) (raw : json) :
  client.place_order clock exchange self symbol side order_type quantity price
    time_in_force stop_price reduce_only position_side w = (Ok raw, w') ->
  exists d, raw = JDict d.
Proof.
  unfold client.place_order, mbind, M_bind, alloc, log, emit.
  destruct (_request _ _ _ _ _ _ _ _) as [[response|e] w1]; [|discriminate].
  unfold get_of, raise, mret, M_ret.
  destruct response; try discriminate.
  intros [= <- _]. eauto.
Qed.

(** X19.  [place_order] of the order layer does nothing with arguments
    that do not validate: it raises what [validate_all] raises, a
    [ValueError] or, for a NaN, [decimal.InvalidOperation], having logged
    one line; no request is sent, the clock is not read, no dictionary
    is made and nothing is printed. *)
Theorem place_order_rejects_before_sending (symbol side order_type quantity : str)
    (price : option str) (time_in_force : str) (reduce_only : bool)
    (e : exn) (s : world * list (stream * string)) :
  validate_all symbol side order_type quantity price = Raise e ->
  place_order symbol side order_type quantity price time_in_force reduce_only s
  = (Raise e, (emitted [Log DEBUG "Validating inputs"] s.1, s.2)) /\
  ((exists m, e = ValueError m) \/ e = InvalidOperation).
Proof.
  intros Hv. split; [|exact (validate_all_raises _ _ _ _ _ _ Hv)].
  unfold orders.place_order, mbind, IO_bind, run, log, emit, io_lift.
  cbn [fst snd]. rewrite Hv. reflexivity.
Qed.

(** The run of [place_order] on arguments that validate, step by step. *)
Lemma place_order_run (symbol side order_type quantity : str)
    (price : option str) (time_in_force : str) (reduce_only : bool)
    (v : ValidatedOrder) (s : world * list (stream * string)) :
  validate_all symbol side order_type quantity price = Ok v ->
  let sent := send_order v time_in_force reduce_only
                (emitted [Log DEBUG "Validating inputs"] s.1) in
  exists lines,
    place_order symbol side order_type quantity price time_in_force reduce_only s =
    match sent.1 with
    | Raise e =>
        (Raise e,
         (if reported is_connection_error e
          then emitted [Log ERROR (if e is BinanceAPIError _ _ _
                                   then "API error while placing order"
                                   else "Network error while placing order")] sent.2
          else sent.2,
          s.2 ++ lines))
    | Ok raw =>
        match orders._format_order_response raw with
        | Raise e => (Raise e, (sent.2, s.2 ++ lines))
        | Ok result =>
            match printing_failure to_float result with
            | Some e => (Raise e, (sent.2, s.2 ++ lines))
            | None => (Ok result,
                       (emitted [Log INFO "Order complete"] sent.2, s.2 ++ lines))
            end
        end
    end.
Proof.
  intros Hv sent.
  unfold orders.place_order. unfold mbind at 1 2 3, IO_bind.
  unfold run at 1, log, emit, io_lift. cbn [fst snd]. rewrite Hv.
  match goal with
  | |- context [orders._print_order_summary v ?s0] =>
      destruct (print_order_summary_frame v s0) as (lines0 & Hsum); rewrite Hsum
  end.
  cbn [fst snd].
  unfold mbind at 1, IO_bind. unfold io_try, run at 1. cbn [fst snd].
  change (orders.send_order clock exchange self v time_in_force reduce_only
            (World (heap s.1) (clock_reads s.1) (requests_made s.1)
                   (trace s.1 ++ [Log DEBUG "Validating inputs"])))
    with sent.
  destruct sent as [[raw|e] w1]; cbn [fst snd].
  - unfold mbind at 1, IO_bind.
    destruct (orders._format_order_response raw) as [result|e].
    + unfold mbind at 1, IO_bind.
      match goal with
      | |- context [orders._print_order_result to_float result true ?s0] =>
          destruct (print_order_result_frame result true s0) as (lines1 & Hprint);
          rewrite Hprint
      end.
      cbn [fst snd].
      destruct (printing_failure to_float result) as [e|].
      * eexists. rewrite <- app_assoc. reflexivity.
      * unfold mbind, IO_bind, run, log, emit, mret, IO_ret. cbn [fst snd].
        eexists. rewrite <- app_assoc. reflexivity.
    + exists lines0. reflexivity.
  - destruct e as [| | | | | | | | | |info]; cbn [orders.on_failure reported];
      try destruct (is_connection_error info);
      try (exists lines0; reflexivity);
      unfold mbind, IO_bind, run, log, emit, print, write, io_raise; cbn [fst snd];
      eexists; rewrite <- app_assoc; reflexivity.
Qed.

(** The fields of a validated order with the three of the signing. *)
Lemma extended_order_fields (v : ValidatedOrder) (time_in_force : str)
    (reduce_only : bool) (ts : Z) (sig : str) :
  extended ts (order_fields v time_in_force reduce_only)
  = order_fields v time_in_force reduce_only
      ++ [(py "timestamp", VInt ts); (py "recvWindow", VInt 5000)] /\
  dict_setitem (py "signature") (VStr sig)
    (extended ts (order_fields v time_in_force reduce_only))
  = order_fields v time_in_force reduce_only
      ++ [(py "timestamp", VInt ts); (py "recvWindow", VInt 5000);
          (py "signature", VStr sig)].
Proof.
  unfold order_fields.
  destruct (v_price v) as [p|]; [destruct (str_eqb (v_order_type v) (py "LIMIT"))|];
    destruct reduce_only; split; reflexivity.
Qed.

(** X20.  For arguments that validate, every request [place_order] of
    the order layer sends, first attempt or retry, is a POST to the
    order endpoint whose body holds the validated values: symbol and
    side in capitals, the quantity and the price as the strings of their
    decimals ([price] with [timeInForce] for LIMIT, [stopPrice] for
    STOP_MARKET, neither for MARKET), positionSide BOTH, and then
    [timestamp], [recvWindow] and [signature].  The clock is read
    once. *)
Theorem place_order_sends_validated (symbol side order_type quantity : str)
    (price : option str) (time_in_force : str) (reduce_only : bool)
    (v : ValidatedOrder) (sig : str) (s : world * list (stream * string)) :
  validate_all symbol side order_type quantity price = Ok v ->
  signature_of (api_secret self)
    (order_fields v time_in_force reduce_only
       ++ [(py "timestamp", VInt (clock (clock_reads s.1)));
           (py "recvWindow", VInt 5000)]) = Ok sig ->
  let out := place_order symbol side order_type quantity price time_in_force
               reduce_only s in
  clock_reads out.2.1 = S (clock_reads s.1) /\
  exists evs,
    trace out.2.1 = trace s.1 ++ evs /\
    Forall (fun ev => is_request ev = true ->
              ev = Request (py "POST") (base_url self ++ py "/fapi/v1/order") false
                     (order_fields v time_in_force reduce_only
                        ++ [(py "timestamp", VInt (clock (clock_reads s.1)));
                            (py "recvWindow", VInt 5000);
                            (py "signature", VStr sig)])
                     (timeout self)) evs.
Proof.
  intros Hv Hsig out. subst out.
  destruct (place_order_run symbol side order_type quantity price time_in_force
              reduce_only v s Hv) as (lines & Hrun).
  cbv zeta in Hrun. rewrite Hrun. clear Hrun.
  set (w0 := emitted [Log DEBUG "Validating inputs"] s.1).
  destruct (extended_order_fields v time_in_force reduce_only
              (clock (clock_reads s.1)) sig) as (Hext & Hsigned).
  rewrite <- Hext in Hsig.
  unfold orders.send_order. cbv zeta.
  pose proof (order_params_validated symbol side order_type quantity price v
                time_in_force reduce_only Hv) as Hparams.
  match goal with
  | |- context [client.place_order clock exchange self ?a ?b ?c ?d ?e ?f ?g ?h ?i w0] =>
      destruct (client_place_order_sends clock exchange self a b c d e f g h i w0 sig)
        as (Hclock & _ & evs & Htrace & Hall);
      [rewrite Hparams; exact Hsig|];
      rewrite Hparams in Hall;
      set (sent := client.place_order clock exchange self a b c d e f g h i w0) in *
  end.
  change (clock_reads w0) with (clock_reads s.1) in *.
  rewrite Hsigned in Hall.
  assert (Hmore : forall more,
            requests more = [] ->
            exists evs',
              trace sent.2 ++ more = trace s.1 ++ evs' /\
              Forall (fun ev => is_request ev = true ->
                        ev = Request (py "POST") (base_url self ++ py "/fapi/v1/order")
                               false
                               (order_fields v time_in_force reduce_only
                                  ++ [(py "timestamp", VInt (clock (clock_reads s.1)));
                                      (py "recvWindow", VInt 5000);
                                      (py "signature", VStr sig)])
                               (timeout self)) evs').
  { intros more Hnone.
    exists (Log DEBUG "Validating inputs" :: evs ++ more). split.
    - rewrite Htrace. simpl. rewrite <- !app_assoc. reflexivity.
    - constructor; [discriminate|]. apply Forall_app. split; [exact Hall|].
      apply Forall_forall. intros ev Hin Hev. exfalso.
      assert (Hmem : ev ∈ requests more).
      { unfold requests. apply list_elem_of_filter. split; [|exact Hin].
        rewrite Hev. exact I. }
      rewrite Hnone in Hmem. inversion Hmem. }
  assert (Hsame : exists evs',
            trace sent.2 = trace s.1 ++ evs' /\
            Forall (fun ev => is_request ev = true ->
                      ev = Request (py "POST") (base_url self ++ py "/fapi/v1/order")
                             false
                             (order_fields v time_in_force reduce_only
                                ++ [(py "timestamp", VInt (clock (clock_reads s.1)));
                                    (py "recvWindow", VInt 5000);
                                    (py "signature", VStr sig)])
                             (timeout self)) evs').
  { destruct (Hmore [] eq_refl) as (evs' & Ht & Ha).
    rewrite app_nil_r in Ht. eauto. }
  destruct sent.1 as [raw|e].
  - destruct (orders._format_order_response raw) as [result|e];
      [destruct (printing_failure to_float result)|]; cbn [fst snd];
      try (split; [exact Hclock | exact Hsame]).
    split; [exact Hclock|]. apply (Hmore [Log INFO "Order complete"]). reflexivity.
  - cbn [fst snd]. destruct (reported is_connection_error e); [|split; [exact Hclock | exact Hsame]].
    split; [exact Hclock|]. cbn [trace emitted]. apply Hmore. reflexivity.
Qed.

(** X21.  How [place_order] of the order layer ends on arguments that
    validate.  An exception of the client's call is raised again as it
    is, whatever it is; for [BinanceAPIError] and for the built-in
    [ConnectionError] and its subclasses an error is logged first.  A
    response of the client, which is a JSON object, is formatted and
    returned, unless printing it raises: that is the exception of
    [float] on a non-empty average price or price that is no number, and
    it is raised after the order has been sent and answered.  The order
    layer itself sends nothing. *)
Theorem place_order_outcome (symbol side order_type quantity : str)
    (price : option str) (time_in_force : str) (reduce_only : bool)
    (v : ValidatedOrder) (s : world * list (stream * string)) :
  validate_all symbol side order_type quantity price = Ok v ->
  let sent := send_order v time_in_force reduce_only
                (emitted [Log DEBUG "Validating inputs"] s.1) in
  let out := place_order symbol side order_type quantity price time_in_force
               reduce_only s in
  requests_made out.2.1 = requests_made sent.2 /\
  heap out.2.1 = heap sent.2 /\
  match sent.1 with
  | Raise e =>
      out.1 = Raise e /\
      if reported is_connection_error e
      then exists line, trace out.2.1 = trace sent.2 ++ [Log ERROR line]
      else out.2.1 = sent.2
  | Ok raw =>
      exists d result,
        raw = JDict d /\
        orders._format_order_response raw = Ok result /\
        match printing_failure to_float result with
        | None => out.1 = Ok result
        | Some e => out.1 = Raise e
        end
  end.
Proof.
  intros Hv sent out. subst out.
  destruct (place_order_run symbol side order_type quantity price time_in_force
              reduce_only v s Hv) as (lines & Hrun).
  cbv zeta in Hrun. fold sent in Hrun. rewrite Hrun. clear Hrun.
  destruct sent as [[raw|e] w1] eqn:Hsent; cbn [fst snd].
  - unfold orders.send_order in sent. cbv zeta in sent. subst sent.
    destruct (client_place_order_returns _ _ _ _ _ _ _ _ _ _ _ _ Hsent) as (d & ->).
    cbn [orders._format_order_response].
    match goal with
    | |- context [printing_failure to_float ?r] =>
        destruct (printing_failure to_float r) as [e|] eqn:Hfail
    end; cbn [fst snd];
      (split; [reflexivity|]); (split; [reflexivity|]);
      eexists _, _; (split; [reflexivity|]); (split; [reflexivity|]);
      rewrite Hfail; reflexivity.
  - destruct (reported is_connection_error e) eqn:Hrep; cbn [fst snd].
    + split; [reflexivity|]. split; [reflexivity|]. split; [reflexivity|].
      eexists. reflexivity.
    + repeat split.
Qed.
(** The client sends an order in at most [max_retries] requests. *)
Lemma client_place_order_count (symbol side order_type quantity : str)
    (price time_in_force stop_price : option str) (reduce_only : bool)
    (position_side : str) (w : world) :
  (requests_made (client.place_order clock exchange self symbol side order_type
                    quantity price time_in_force stop_price reduce_only
                    position_side w).2
   <= requests_made w + Z.to_nat (max_retries self))%nat.
Proof.
  unfold client.place_order, mbind, M_bind, alloc, log, emit.
  match goal with
  | |- context [_request clock exchange self ?m ?e ?p ?sg ?w0] =>
      destruct (request_trace clock exchange self m e p sg w0)
        as (evs & _ & Hrm & Hle & _);
      destruct (_request clock exchange self m e p sg w0) as [[response|e0] w1]
  end; cbn [fst snd requests_made] in *; [|lia].
  unfold get_of, raise, mret, M_ret.
  destruct response; cbn [fst snd requests_made]; lia.
Qed.

(** The order layer sends what its client sends. *)
Lemma place_order_count (symbol side order_type quantity : str)
    (price : option str) (time_in_force : str) (reduce_only : bool)
    (s : world * list (stream * string)) :
  (requests_made (place_order symbol side order_type quantity price time_in_force
                    reduce_only s).2.1
   <= requests_made s.1 + Z.to_nat (max_retries self))%nat.
Proof.
  destruct (validate_all symbol side order_type quantity price) as [v|e] eqn:Hv.
  - destruct (place_order_run symbol side order_type quantity price time_in_force
                reduce_only v s Hv) as (lines & Hrun).
    cbv zeta in Hrun. rewrite Hrun. clear Hrun.
    unfold orders.send_order. cbv zeta.
    match goal with
    | |- context [client.place_order clock exchange self ?a ?b ?c ?d ?e ?f ?g ?h ?i ?w0] =>
        pose proof (client_place_order_count a b c d e f g h i w0) as Hcount;
        destruct (client.place_order clock exchange self a b c d e f g h i w0)
          as [[raw|e0] w1]
    end; cbn [fst snd requests_made emitted] in *.
    + destruct (orders._format_order_response raw) as [result|e0]; [|exact Hcount].
      destruct (printing_failure to_float result); exact Hcount.
    + destruct (reported is_connection_error e0); exact Hcount.
  - unfold orders.place_order, mbind, IO_bind, run, log, emit, io_lift.
    cbn [fst snd]. rewrite Hv. cbn [fst snd requests_made]. lia.
Qed.
End OrderLayerProperties.

(** ** The command line *)

Section CliProperties.
Context `{UnicodeData}.
Import validators client.
Variable environ : str -> option str.
Variable clock : nat -> Z.
Variable exchange : nat -> reply.
Variable to_float : json -> result float.
Variable is_connection_error : N -> bool.
Variable is_value_error : N -> bool.

Local Abbreviation key := (strip (default [] (environ (py "BINANCE_API_KEY")))).
Local Abbreviation secret := (strip (default [] (environ (py "BINANCE_API_SECRET")))).
Local Abbreviation url :=
  (strip (default (py "https://testnet.binancefuture.com")
                  (environ (py "BINANCE_BASE_URL")))).
Local Abbreviation the_client :=
  {| api_key := key; api_secret := secret; base_url := rstrip_slash url;
     timeout := 10; max_retries := 3 |}.

(** X22.  [_get_client] never raises.  When the key or the secret is
    not set, or is empty once stripped of white space, it writes a
    message to the standard error and exits with status 1, without
    making a client; otherwise it returns a client with the stripped key
    and secret, the stripped base URL (the testnet's when none is set)
    without trailing slashes, a timeout of 10 seconds and 3 attempts:
    the constructor's own check of key and secret cannot fail here. *)
Theorem get_client_contract (s : world * list (stream * string)) :
  (key = [] \/ secret = [] ->
   cli._get_client environ s
   = (Ok (cli.Exit 1), (s.1, s.2 ++ [(Stderr, "Missing credentials."%string)]))) /\
  (key <> [] -> secret <> [] ->
   cli._get_client environ s
   = (Ok (cli.Return the_client),
      (emitted [Log INFO "BinanceClient initialised"] s.1, s.2))).
Proof.
  unfold cli._get_client. cbv zeta.
  split.
  - intros [-> | ->]; [reflexivity|]. destruct key; reflexivity.
  - intros Hkey Hsecret.
    destruct key as [|k key']; [congruence|].
    destruct secret as [|c secret']; [congruence|].
    reflexivity.
Qed.

(** The two ways [_get_client] ends. *)
Lemma get_client_cases (s : world * list (stream * string)) :
  ((key = [] \/ secret = []) /\
   cli._get_client environ s
   = (Ok (cli.Exit 1), (s.1, s.2 ++ [(Stderr, "Missing credentials."%string)]))) \/
  (key <> [] /\ secret <> [] /\
   cli._get_client environ s
   = (Ok (cli.Return the_client),
      (emitted [Log INFO "BinanceClient initialised"] s.1, s.2))).
Proof.
  unfold cli._get_client. cbv zeta.
  destruct key as [|k key'].
  - left. split; [left|]; reflexivity.
  - destruct secret as [|c secret'].
    + left. split; [right|]; reflexivity.
    + right. split; [discriminate|]. split; [discriminate | reflexivity].
Qed.

(** [ping] returns a truth value, having sent at most [max_retries]
    requests. *)
Lemma ping_run (self : BinanceClient) (w : world) :
  exists b w',
    ping clock exchange self w = (Ok b, w') /\
    (requests_made w' <= requests_made w + Z.to_nat (max_retries self))%nat.
Proof.
  unfold ping, try_except, mbind, M_bind.
  destruct (request_trace clock exchange self (py "GET") (py "/fapi/v1/ping") None false w)
    as (evs & _ & Hrm & Hle & _).
  destruct (_request clock exchange self (py "GET") (py "/fapi/v1/ping") None false w)
    as [[data|e] w1]; cbn [fst snd] in *; unfold log, emit, mret, M_ret;
    cbn [fst snd]; eexists _, _; (split; [reflexivity|]); cbn [requests_made]; lia.
Qed.

(** X25.  The ping command never raises.  Without a key or a secret it
    exits with status 1 and has sent nothing.  With them it pings with
    the client that [_get_client] makes, in at most three requests: it
    returns, having written a line to the standard output, when [ping]
    returns [True], and it exits with status 1, having written a line to
    the standard error, when [ping] returns [False]. *)
Theorem cmd_ping_outcome (s : world * list (stream * string)) :
  let out := cli.cmd_ping environ clock exchange s in
  (requests_made out.2.1 <= requests_made s.1 + 3)%nat /\
  (key = [] \/ secret = [] ->
   out = (Ok (cli.Exit 1), (s.1, s.2 ++ [(Stderr, "Missing credentials."%string)]))) /\
  (key <> [] -> secret <> [] ->
   exists b w',
     ping clock exchange the_client
       (emitted [Log INFO "BinanceClient initialised"] s.1) = (Ok b, w') /\
     out = (Ok (if b then cli.Return tt else cli.Exit 1),
            (w', s.2 ++ [if b then (Stdout, "Testnet is reachable."%string)
                         else (Stderr, "Testnet is NOT reachable."%string)]))).
Proof.
  intros out. subst out. unfold cli.cmd_ping, mbind, IO_bind.
  destruct (get_client_cases s) as [(Hno & ->) | (Hkey & Hsecret & ->)].
  - unfold mret, IO_ret. cbn [fst snd].
    split; [lia|]. split; [reflexivity|].
    intros Hk Hs. destruct Hno; contradiction.
  - destruct (ping_run the_client (emitted [Log INFO "BinanceClient initialised"] s.1))
      as (b & w' & Hping & Hle).
    unfold run. cbn [fst snd]. rewrite Hping.
    destruct b; unfold write, mret, IO_ret; cbn [fst snd];
      (split; [exact Hle|]); (split; [intros [Hk | Hs]; contradiction|]);
      intros _ _; eexists _, _; split; reflexivity.
Qed.

(** What [validate_price] raises. *)
Lemma validate_price_raises (price : option str) (order_type : str) (e : exn) :
  validate_price price order_type = Raise e ->
  (exists m, e = ValueError m) \/ e = InvalidOperation.
Proof.
  assert (Hdec : forall (p : Decimal) (m : message),
            (b ← le_zero p; if b : bool then Raise (ValueError m) else Ok (Some p))
            = Raise e ->
            (exists m, e = ValueError m) \/ e = InvalidOperation).
  { intros p m. unfold le_zero. destruct (is_nan p); simpl.
    - intros [= <-]. right. reflexivity.
    - destruct (nonpositive p); [|discriminate]. intros [= <-]. left. eauto. }
  unfold validate_price.
  destruct (str_eqb order_type (py "LIMIT")).
  - destruct price as [s|]; [|intros [= <-]; left; eauto].
    destruct (Decimal_of_str s) as [p|]; [apply Hdec | intros [= <-]; left; eauto].
  - destruct (str_eqb order_type (py "STOP_MARKET")); [|discriminate].
    destruct price as [s|]; [|intros [= <-]; left; eauto].
    destruct (Decimal_of_str s) as [p|]; [apply Hdec | intros [= <-]; left; eauto].
Qed.

(** X26.  How the place-order command ends.  The price is checked
    first: a [ValueError] of [validate_price] becomes a usage error, and
    the [decimal.InvalidOperation] of a NaN escapes the command as it
    is; nothing has been logged or sent by then, and the credentials
    have not been looked at.  After that the command raises nothing: it
    returns when the order layer returns, and it exits with status 1
    when the order layer raises, whatever it raises, or when the key or
    the secret is missing (nothing is sent then).  It sends at most
    three requests. *)
Theorem cmd_place_order_outcome (symbol side order_type : str) (quantity : Decimal)
    (price : option str) (tif : str) (reduce_only : bool)
    (s : world * list (stream * string)) :
  let out := cli.cmd_place_order environ clock exchange to_float is_connection_error
               is_value_error symbol side order_type quantity price tif reduce_only s in
  match validate_price price order_type with
  | Raise exc =>
      ((exists m, exc = ValueError m) /\ out = (Ok (cli.UsageError exc), s)) \/
      (exc = InvalidOperation /\ out = (Raise exc, s))
  | Ok _ =>
      (requests_made out.2.1 <= requests_made s.1 + 3)%nat /\
      (key = [] \/ secret = [] ->
       out = (Ok (cli.Exit 1),
              (emitted [Log INFO "CLI place-order"] s.1,
               s.2 ++ [(Stderr, "Missing credentials."%string)]))) /\
      (key <> [] -> secret <> [] ->
       let placed :=
         orders.place_order clock exchange to_float is_connection_error the_client
           symbol side order_type (Decimal_str quantity) price (upper tif) reduce_only
           (emitted [Log INFO "CLI place-order"; Log INFO "BinanceClient initialised"] s.1,
            s.2) in
       out.1 = Ok (if placed.1 is Ok _ then cli.Return tt else cli.Exit 1) /\
       requests_made out.2.1 = requests_made placed.2.1 /\
       heap out.2.1 = heap placed.2.1)
  end.
Proof.
  intros out. subst out. unfold cli.cmd_place_order.
  destruct (validate_price price order_type) as [p|exc] eqn:Hprice.
  - unfold mbind, IO_bind, io_try, run, log, emit, write. cbn [fst snd].
    match goal with
    | |- context [cli._get_client environ ?s0] =>
        destruct (get_client_cases s0) as [(Hno & ->) | (Hkey & Hsecret & ->)]
    end; unfold mret, IO_ret, emitted; cbv zeta;
      cbn [fst snd heap clock_reads requests_made trace].
    + split; [lia|]. split; [reflexivity|].
      intros Hk Hs. destruct Hno; contradiction.
    + rewrite <- app_assoc. cbn [app].
      match goal with
      | |- context [orders.place_order clock exchange to_float is_connection_error
                      the_client ?a ?b ?c ?d ?e ?f ?g ?s0] =>
          pose proof (place_order_count clock exchange to_float is_connection_error
                        the_client a b c d e f g s0) as Hcount;
          destruct (orders.place_order clock exchange to_float is_connection_error
                      the_client a b c d e f g s0) as [[result|exc] s1]
      end; cbn [fst snd requests_made max_retries] in *.
      * split; [exact Hcount|]. split; [intros [Hk | Hs]; contradiction|].
        intros _ _. repeat split.
      * destruct (cli.is_expected is_connection_error is_value_error exc);
          cbn [fst snd requests_made heap];
          (split; [exact Hcount|]); (split; [intros [Hk | Hs]; contradiction|]);
          intros _ _; repeat split.
  - destruct (validate_price_raises _ _ _ Hprice) as [(m & ->) | ->].
    + left. split; [eauto | reflexivity].
    + right. split; reflexivity.
Qed.
End CliProperties.

Section RevalidationProperties.
Context `{UnicodeData}.
Import validators.

(** A decimal that is a number or an infinity, read back from its
    string. *)
Lemma Decimal_str_read_back (d : Decimal) :
  in_range d = true -> short d -> is_nan d = false ->
  Decimal_of_str (Decimal_str d) = Some d.
Proof.
  intros Hrange Hshort Hnan. destruct d as [sign coeff e | sign | ]; [| |discriminate].
  - apply Decimal_str_finite; assumption.
  - rewrite Decimal_of_str_plain by (destruct sign; repeat constructor).
    destruct sign; reflexivity.
Qed.

(** X23.  A quantity or a price that has been validated stays valid
    when it is written as a string and validated again, and the second
    validation returns the same decimal: so it is when the command line
    hands the validated quantity to the order layer, which validates its
    string.  (For a coefficient of fewer than [MAX_PREC - 5] digits.) *)
Theorem validated_decimal_revalidates (s : str) (d : Decimal) :
  short d ->
  (validate_quantity s = Ok d -> validate_quantity (Decimal_str d) = Ok d) /\
  (forall t, validate_price (Some s) t = Ok (Some d) ->
     validate_price (Some (Decimal_str d)) t = Ok (Some d)).
Proof.
  intros Hshort. split.
  - intros Hq. apply validate_quantity_ok in Hq. destruct Hq as (Hs & Hnan & Hpos).
    apply validate_quantity_ok. split; [|split; assumption].
    apply Decimal_str_read_back; [exact (Decimal_of_str_in_range s d Hs) | assumption..].
  - intros t Hp. pose proof (validate_price_ok _ _ _ Hp) as (Ht & Hpos & s' & [= <-] & Hs).
    apply is_positive_spec in Hpos. destruct Hpos as [Hnan Hpos].
    assert (Hback : Decimal_of_str (Decimal_str d) = Some d).
    { apply Decimal_str_read_back; [exact (Decimal_of_str_in_range s d Hs) | assumption..]. }
    unfold validate_price, le_zero.
    destruct Ht as [-> | ->]; simpl; rewrite Hback, Hnan; simpl; rewrite Hpos; reflexivity.
Qed.
(** X24.  The order layer validates again what the command line has
    validated, and it cannot disagree: given a symbol, a side, an order
    type and a quantity as their validators returned them (the quantity
    as the string of its decimal) and the price as it was given,
    [validate_all] returns these very values.  (For a symbol typed in
    Basic Latin characters and a coefficient of fewer than
    [MAX_PREC - 5] digits.) *)
Theorem second_validation_agrees (raw_symbol raw_side raw_type raw_quantity : str)
    (price : option str) (symbol side order_type : str) (quantity : Decimal)
    (p : option Decimal) :
  Forall (fun c => is_ascii c = true) raw_symbol ->
  short quantity ->
  validate_symbol raw_symbol = Ok symbol ->
  validate_side raw_side = Ok side ->
  validate_order_type raw_type = Ok order_type ->
  validate_quantity raw_quantity = Ok quantity ->
  validate_price price order_type = Ok p ->
  validate_all symbol side order_type (Decimal_str quantity) price
  = Ok {| v_symbol := symbol; v_side := side; v_order_type := order_type;
          v_quantity := quantity; v_price := p |}.
Proof.
  intros Hascii Hshort Hsym Hside Htype Hq Hp.
  destruct (validate_symbol_returns_capitals _ _ Hascii Hsym) as [Hne Hup].
  pose proof (validate_symbol_capitals symbol Hne Hup) as Hsym2.
  assert (Hside2 : validate_side side = Ok side).
  { apply validate_side_ok in Hside. destruct Hside as [_ [-> | ->]]; reflexivity. }
  assert (Htype2 : validate_order_type order_type = Ok order_type).
  { apply validate_order_type_ok in Htype.
    destruct Htype as [_ [-> | [-> | ->]]]; reflexivity. }
  assert (Hq2 : validate_quantity (Decimal_str quantity) = Ok quantity).
  { apply validate_quantity_ok in Hq. destruct Hq as (Hs & Hnan & Hpos).
    apply validate_quantity_ok. split; [|split; assumption].
    apply Decimal_str_read_back;
      [exact (Decimal_of_str_in_range _ _ Hs) | assumption..]. }
  unfold validate_all. rewrite Hsym2, Hside2, Htype2, Hq2. simpl.
  apply validate_order_type_ok in Htype2. destruct Htype2 as [-> _].
  rewrite Hp. reflexivity.
Qed.
End RevalidationProperties.

Lemma second_validation_agrees_witness :
  @validators.validate_all ucd_basic_latin (py "BTCUSDT") (py "BUY") (py "LIMIT")
    (py "1E-7") (Some (py " 42_000 "))
  = Ok {| validators.v_symbol := py "BTCUSDT"; validators.v_side := py "BUY";
          validators.v_order_type := py "LIMIT";
          validators.v_quantity := Finite false 1 (-7);
          validators.v_price := Some (Finite false 42000 0) |}.
Proof.
  apply (@second_validation_agrees ucd_basic_latin (py " btcusdt") (py "buy") (py "limit")
           (py "0.0000001") (Some (py " 42_000 ")) (py "BTCUSDT") (py "BUY") (py "LIMIT")
           (Finite false 1 (-7)) (Some (Finite false 42000 0)));
    [repeat constructor | vm_compute; discriminate | reflexivity..].
Defined.

Lemma validated_decimal_revalidates_witness :
  @validators.validate_quantity ucd_basic_latin (py "1e-7") = Ok (Finite false 1 (-7)) /\
  @validators.validate_quantity ucd_basic_latin (py "1E-7") = Ok (Finite false 1 (-7)).
Proof.
  destruct (@validated_decimal_revalidates ucd_basic_latin (py "1e-7") (Finite false 1 (-7))
              ltac:(vm_compute; discriminate)) as (Hq & _).
  split; [reflexivity | exact (Hq eq_refl)].
Defined.

(** ** The order layer on concrete runs *)

Lemma place_order_rejects_before_sending_witness :
  @orders.place_order ucd_basic_latin demo_clock accepting demo_float demo_classes demo_client
    (py "btc-1") (py "buy") (py "market") (py "1") None (py "GTC") false (empty_world, [])
  = (Raise (ValueError (Symbol_is_invalid (py "BTC-1"))),
     (World ∅ 0 0 [Log DEBUG "Validating inputs"], [])).
Proof.
  exact (proj1 (@place_order_rejects_before_sending ucd_basic_latin demo_clock accepting
                  demo_float demo_classes demo_client (py "btc-1") (py "buy") (py "market") (py "1")
                  None (py "GTC") false _ (empty_world, []) eq_refl)).
Defined.

Lemma place_order_sends_validated_witness :
  exists sig evs,
    trace (@orders.place_order ucd_basic_latin demo_clock flaky demo_float demo_classes demo_client
             (py " btcusdt") (py "sell") (py "limit") (py "0.0010") (Some (py "4.2e4"))
             (py "GTC") false (empty_world, [])).2.1 = evs /\
    Forall (fun ev => is_request ev = true ->
              ev = Request (py "POST")
                     (py "https://testnet.binancefuture.com/fapi/v1/order") false
                     [(py "symbol", VStr (py "BTCUSDT")); (py "side", VStr (py "SELL"));
                      (py "type", VStr (py "LIMIT")); (py "quantity", VStr (py "0.0010"));
                      (py "positionSide", VStr (py "BOTH"));
                      (py "price", VStr (py "4.2E+4"));
                      (py "timeInForce", VStr (py "GTC"));
                      (py "timestamp", VInt 1000); (py "recvWindow", VInt 5000);
                      (py "signature", VStr sig)] 10) evs.
Proof.
  pose (v := {| validators.v_symbol := py "BTCUSDT"; validators.v_side := py "SELL";
                validators.v_order_type := py "LIMIT";
                validators.v_quantity := Finite false 10 (-4);
                validators.v_price := Some (Finite false 42 3) |}).
  destruct (client.signature_of (client.api_secret demo_client)
              (order_fields v (py "GTC") false
                 ++ [(py "timestamp", VInt (demo_clock (clock_reads empty_world)));
                     (py "recvWindow", VInt 5000)]))
    as [sig|e] eqn:Hsig; [|vm_compute in Hsig; discriminate].
  destruct (@place_order_sends_validated ucd_basic_latin demo_clock flaky demo_float demo_classes
              demo_client (py " btcusdt") (py "sell") (py "limit") (py "0.0010")
              (Some (py "4.2e4")) (py "GTC") false v sig (empty_world, []) eq_refl Hsig)
    as (_ & evs & Htrace & Hall).
  exists sig, evs. split; [exact Htrace | exact Hall].
Defined.

Lemma place_order_outcome_witness :
  (exists result,
     (@orders.place_order ucd_basic_latin demo_clock filling demo_float demo_classes demo_client
        (py "btcusdt") (py "buy") (py "market") (py "0.0010") None (py "GTC") false
        (empty_world, [])).1 = Ok result /\
     dict_get (py "avgPrice") result = Some (JStr (py "42000.5")) /\
     dict_get (py "side") result = Some (JStr (py "N/A"))) /\
  (@orders.place_order ucd_basic_latin demo_clock filling_blank demo_float demo_classes demo_client
     (py "btcusdt") (py "buy") (py "market") (py "0.0010") None (py "GTC") false
     (empty_world, [])).1 = Raise (OtherError 1) /\
  requests_made
    (@orders.place_order ucd_basic_latin demo_clock filling_blank demo_float demo_classes demo_client
       (py "btcusdt") (py "buy") (py "market") (py "0.0010") None (py "GTC") false
       (empty_world, [])).2.1 = 1%nat.
Proof.
  pose (v := {| validators.v_symbol := py "BTCUSDT"; validators.v_side := py "BUY";
                validators.v_order_type := py "MARKET";
                validators.v_quantity := Finite false 10 (-4);
                validators.v_price := None |}).
  pose proof (@place_order_outcome ucd_basic_latin demo_clock filling demo_float demo_classes
                demo_client (py "btcusdt") (py "buy") (py "market") (py "0.0010")
                None (py "GTC") false v (empty_world, []) eq_refl) as Hfill.
  pose proof (@place_order_outcome ucd_basic_latin demo_clock filling_blank demo_float demo_classes
                demo_client (py "btcusdt") (py "buy") (py "market") (py "0.0010")
                None (py "GTC") false v (empty_world, []) eq_refl) as Hblank.
  cbv zeta in Hfill, Hblank.
  destruct Hfill as (_ & _ & Hfill). destruct Hblank as (Hrm & _ & Hblank).
  split; [|split].
  - match type of Hfill with
    | match ?x with _ => _ end =>
        let r := eval vm_compute in x in change x with r in Hfill
    end.
    destruct Hfill as (d & result & _ & Hformat & Hout).
    vm_compute in Hformat. injection Hformat as <-.
    eexists. split; [exact Hout|]. split; reflexivity.
  - match type of Hblank with
    | match ?x with _ => _ end =>
        let r := eval vm_compute in x in change x with r in Hblank
    end.
    destruct Hblank as (d & result & _ & Hformat & Hout).
    vm_compute in Hformat. injection Hformat as <-. exact Hout.
  - rewrite Hrm. vm_compute. reflexivity.
Defined.

Lemma get_client_contract_witness :
  (@cli._get_client ucd_basic_latin demo_environ (empty_world, [])).1
  = Ok (cli.Return {| client.api_key := py "key"; client.api_secret := py "s";
                      client.base_url := py "https://example.test";
                      client.timeout := 10; client.max_retries := 3 |}) /\
  (@cli._get_client ucd_basic_latin blank_environ (empty_world, [])).1 = Ok (cli.Exit 1).
Proof.
  destruct (@get_client_contract ucd_basic_latin demo_environ (empty_world, []))
    as (_ & Hok).
  destruct (@get_client_contract ucd_basic_latin blank_environ (empty_world, []))
    as (Hexit & _).
  split.
  - rewrite Hok; [reflexivity | discriminate | discriminate].
  - rewrite Hexit; [reflexivity | left; reflexivity].
Defined.

Lemma cmd_ping_outcome_witness :
  (@cli.cmd_ping ucd_basic_latin demo_environ demo_clock flaky (empty_world, [])).1
  = Ok (cli.Return tt) /\
  (@cli.cmd_ping ucd_basic_latin demo_environ demo_clock unreachable (empty_world, [])).1
  = Ok (cli.Exit 1) /\
  requests_made
    (@cli.cmd_ping ucd_basic_latin demo_environ demo_clock unreachable
       (empty_world, [])).2.1 = 3%nat.
Proof.
  destruct (@cmd_ping_outcome ucd_basic_latin demo_environ demo_clock flaky
              (empty_world, [])) as (_ & _ & Hflaky).
  destruct (@cmd_ping_outcome ucd_basic_latin demo_environ demo_clock unreachable
              (empty_world, [])) as (_ & _ & Hdown).
  destruct Hflaky as (b1 & w1 & Hping1 & Hout1); [discriminate | discriminate |].
  destruct Hdown as (b2 & w2 & Hping2 & Hout2); [discriminate | discriminate |].
  vm_compute in Hping1. injection Hping1 as <- <-.
  vm_compute in Hping2. injection Hping2 as <- <-.
  rewrite Hout1, Hout2. repeat split.
Defined.

Lemma cmd_place_order_outcome_witness :
  @cli.cmd_place_order ucd_basic_latin demo_environ demo_clock accepting demo_float
    demo_classes demo_classes (py "BTCUSDT") (py "BUY") (py "LIMIT")
    (Finite false 1 0) (Some (py "nan")) (py "gtc") false (empty_world, [])
  = (Raise InvalidOperation, (empty_world, [])) /\
  @cli.cmd_place_order ucd_basic_latin demo_environ demo_clock accepting demo_float
    demo_classes demo_classes (py "BTCUSDT") (py "BUY") (py "LIMIT")
    (Finite false 1 0) None (py "gtc") false (empty_world, [])
  = (Ok (cli.UsageError (ValueError Price_is_required_for_LIMIT_orders)),
     (empty_world, [])).
Proof.
  pose proof (@cmd_place_order_outcome ucd_basic_latin demo_environ demo_clock accepting
                demo_float demo_classes demo_classes (py "BTCUSDT") (py "BUY")
                (py "LIMIT") (Finite false 1 0) (Some (py "nan")) (py "gtc") false
                (empty_world, [])) as Hnan.
  pose proof (@cmd_place_order_outcome ucd_basic_latin demo_environ demo_clock accepting
                demo_float demo_classes demo_classes (py "BTCUSDT") (py "BUY")
                (py "LIMIT") (Finite false 1 0) None (py "gtc") false
                (empty_world, [])) as Hnone.
  cbv zeta in Hnan, Hnone.
  match type of Hnan with
  | match ?x with _ => _ end => let r := eval vm_compute in x in change x with r in Hnan
  end.
  match type of Hnone with
  | match ?x with _ => _ end => let r := eval vm_compute in x in change x with r in Hnone
  end.
  destruct Hnan as [((m & Hm) & _) | (_ & Hnan)]; [discriminate|].
  destruct Hnone as [(_ & Hnone) | (Hne & _)]; [|discriminate].
  split; assumption.
Defined.
